(** * Unit economics of the Fujimi short-term-rental portfolio

    A shallow embedding of [fujimi_business_model.py] (the class
    [FujimBusinessModel], the slider callback of
    [InteractiveModelAnalyzer] and the computed parts of
    [create_comprehensive_analysis]) and of the computations of
    [streamlit_app.main], together with the properties the specification
    states about them and further properties of the code.

    Numbers.  Python's [int] and [float] are both embedded as exact
    rationals [Q]: the literal [0.33] is 33/100 and the four operations
    are the exact ones, so binary64 rounding is idealised away.  The
    sentinel [float('inf')] is a separate constructor.  Numeric results
    are compared with [==] (equality of fractions).  A numpy scalar is a
    number of its own kind, because a division in which one takes part
    does not raise on a zero divisor.

    Dictionaries are [gmap]s keyed by strings; [None] is a value of its
    own, because the parameter dictionary can come to hold it.

    Exceptions are the result type [result]: a missing key raises
    [KeyError], arithmetic on [None] raises [TypeError], and a division
    of Python numbers by zero raises [ZeroDivisionError]; with a numpy
    scalar among its operands the same division warns and returns [inf],
    [-inf] or [nan]. *)

From stdpp Require Import gmap strings list.
From Stdlib Require Import QArith Qfield Lqa.
From Stdlib Require Floats.PrimFloat.

Local Open Scope Q_scope.

(** ** Python values and exceptions *)

(** [None], a Python number ([int] or [float]), or a numpy scalar
    ([numpy.float64] from [linspace] and [arange], [numpy.int64] from an
    integer [arange]). *)
Inductive pyval : Type :=
  | PyNone
  | PyNum (q : Q)
  | NpNum (q : Q).

(** A float that may be [float('inf')]. *)
Inductive pyfloat : Type :=
  | Finite (q : Q)
  | PosInf.

(** The result of a [/] that numpy may have carried out: a number, or one
    of [inf], [-inf] and [nan] (which of the three depends on the signs of
    the operands, the sign of a zero included, and is not told apart
    here). *)
Inductive npfloat : Type :=
  | Number (q : Q)
  | NotFinite.

Inductive exn : Type :=
  | KeyError (key : string)
  | TypeError
  | ZeroDivisionError
  | ValueError.

Inductive result (A : Type) : Type :=
  | Ok (a : A)
  | Raise (e : exn).
Arguments Ok {A} a.
Arguments Raise {A} e.

#[global] Instance result_ret : MRet result := @Ok.
#[global] Instance result_bind : MBind result := λ A B f m,
  match m with
  | Ok a => f a
  | Raise e => Raise e
  end.

(** [d[key]] *)
Definition getitem {V : Type} (d : gmap string V) (key : string) : result V :=
  match d !! key with
  | Some v => Ok v
  | None => Raise (KeyError key)
  end.

(** Truth value of a Python object: [None], [0] and [0.0] are false. *)
Definition truthy (v : pyval) : bool :=
  match v with
  | PyNone => false
  | PyNum q | NpNum q => negb (Qeq_bool q 0)
  end.

Definition is_numpy (v : pyval) : bool :=
  match v with
  | NpNum _ => true
  | PyNone | PyNum _ => false
  end.

(** [x or d]; the right operand is evaluated only when [x] is false, so an
    exception in it is discarded when [x] is true. *)
Definition py_or (x : pyval) (d : result pyval) : result pyval :=
  if truthy x then Ok x else d.

(** A value used as an operand of [*], [/], [+] or [-]. *)
Definition as_num (v : pyval) : result Q :=
  match v with
  | PyNum q | NpNum q => Ok q
  | PyNone => Raise TypeError
  end.

(** [x / y] on Python numbers. *)
Definition py_div (x y : Q) : result Q :=
  if Qeq_bool y 0 then Raise ZeroDivisionError else Ok (x / y).

(** [x / y] on numbers of either kind; [numpy] says whether one of the
    operands is a numpy scalar.  Python raises on a zero divisor; numpy
    warns and returns a value that is not finite. *)
Definition np_div (numpy : bool) (x y : Q) : result npfloat :=
  if Qeq_bool y 0 then
    if numpy then Ok NotFinite else Raise ZeroDivisionError
  else Ok (Number (x / y)).

(** [x + y] where [y] may be not finite. *)
Definition np_add (x : Q) (y : npfloat) : npfloat :=
  match y with
  | Number q => Number (x + q)
  | NotFinite => NotFinite
  end.

(** ** The model object *)

Record FujimBusinessModel : Type := {
  params : gmap string pyval;
  fixed_costs : gmap string (gmap string Q);
  variable_costs : gmap string (gmap string Q)
}.

(** [FujimBusinessModel.__init__] *)
Definition init : FujimBusinessModel := {|
  params :=
    <["owned_initial_investment" := PyNum 18900000]>
    (<["rental_initial_investment" := PyNum 5500000]>
    (<["base_occupancy_rate" := PyNum 0.33]>
    (<["average_price_per_night" := PyNum 25000]>
    (<["owned_properties" := PyNum 15]>
    (<["rental_properties" := PyNum 15]>
    (<["depreciation_years" := PyNum 7]>
    (<["monthly_rent" := PyNum 70000]> ∅)))))));
  fixed_costs :=
    <["owned" :=
        <["operations_fixed" := 400000]>
        (<["utilities_fixed" := 80000]>
        (<["insurance" := 60000]> ∅))]>
    (<["rental" :=
        <["rent" := 840000]>
        (<["operations_fixed" := 900000]>
        (<["utilities_fixed" := 60000]>
        (<["insurance" := 40000]> ∅)))]> ∅);
  variable_costs :=
    <["owned" :=
        <["operations_variable" := 240000 * 0.33]>
        (<["utilities_variable" := 68000 * 0.33]>
        (<["cleaning_maintenance" := 120000 * 0.33]> ∅))]>
    (<["rental" :=
        <["operations_variable" := 594000 * 0.33]>
        (<["utilities_variable" := 55000 * 0.33]>
        (<["cleaning_maintenance" := 150000 * 0.33]> ∅))]> ∅)
|}.

(** ** CostModel and revenue *)

(** [calculate_annual_revenue] *)
Definition calculate_annual_revenue
    (occupancy_rate price_per_night num_properties : Q) : Q :=
  let days_per_year := 365 in
  occupancy_rate * price_per_night * days_per_year * num_properties.

(** The loop [for cost_type, base_cost in d.items(): total += base_cost * f]
    of [calculate_variable_costs], started at [total].  The items come in
    the order of [map_to_list] rather than in insertion order; the exact
    sum does not depend on it. *)
Definition accumulate_costs (occupancy_factor : Q)
    (items : list (string * Q)) (total : Q) : Q :=
  fold_left (λ total item, total + item.2 * occupancy_factor) items total.

(** [calculate_variable_costs] *)
Definition calculate_variable_costs (self : FujimBusinessModel)
    (occupancy_rate : Q) (property_type : string) (num_properties : Q)
    : result Q :=
  let base_occupancy := 0.33 in
  let occupancy_factor := occupancy_rate / base_occupancy in
  variable_costs_per_property ← getitem (variable_costs self) property_type;
  let total_variable_costs :=
    accumulate_costs occupancy_factor (map_to_list variable_costs_per_property) 0 in
  mret (total_variable_costs * num_properties).

(** ** MetricsEngine *)

(** The dictionary returned by [calculate_owned_property_metrics]. *)
Module Owned.
Record metrics : Type := {
  annual_revenue : Q;
  noi : Q;
  total_investment : Q;
  payback_period : pyfloat;
  roi : Q;
  total_costs : npfloat;
  operating_costs : Q;
  depreciation : npfloat;
  variable_costs : Q
}.
End Owned.

(** The dictionary returned by [calculate_rental_property_metrics]. *)
Module Rental.
Record metrics : Type := {
  annual_revenue : Q;
  operating_profit : Q;
  total_investment : Q;
  payback_period : pyfloat;
  roi : Q;
  total_costs : Q;
  fixed_costs : Q;
  variable_costs : Q
}.
End Rental.

(** The dictionary returned by [calculate_total_metrics]. *)
Module Total.
Record metrics : Type := {
  total_revenue : Q;
  total_profit : Q;
  total_investment : Q;
  overall_payback : pyfloat;
  overall_roi : Q;
  owned_metrics : Owned.metrics;
  rental_metrics : Rental.metrics
}.
End Total.

(** [self.fixed_costs[property_type][cost_type]] *)
Definition fixed_cost (self : FujimBusinessModel)
    (property_type cost_type : string) : result Q :=
  per_property ← getitem (fixed_costs self) property_type;
  getitem per_property cost_type.

(** The three [x = x or self.params[...]] lines that open both per-class
    functions.  The first use of the three values is the product in
    [calculate_annual_revenue], which raises [TypeError] when one of them
    is [None]. *)
Definition resolve_arguments (self : FujimBusinessModel)
    (occupancy_rate price_per_night num_properties : pyval)
    (properties_key : string) : result (Q * Q * Q) :=
  occupancy_rate ← py_or occupancy_rate (getitem (params self) "base_occupancy_rate");
  price_per_night ← py_or price_per_night (getitem (params self) "average_price_per_night");
  num_properties ← py_or num_properties (getitem (params self) properties_key);
  occupancy_rate ← as_num occupancy_rate;
  price_per_night ← as_num price_per_night;
  num_properties ← as_num num_properties;
  mret (occupancy_rate, price_per_night, num_properties).

(** Whether the [num_properties] these lines end with is a numpy scalar. *)
Definition numpy_properties (self : FujimBusinessModel)
    (num_properties : pyval) (properties_key : string) : bool :=
  match py_or num_properties (getitem (params self) properties_key) with
  | Ok v => is_numpy v
  | Raise _ => false
  end.

(** [calculate_owned_property_metrics].  The depreciation is the one
    division of the engine that no comparison guards. *)
Definition calculate_owned_property_metrics (self : FujimBusinessModel)
    (occupancy_rate price_per_night num_properties : pyval)
    : result Owned.metrics :=
  let numpy_count := numpy_properties self num_properties "owned_properties" in
  '(occupancy_rate, price_per_night, num_properties) ←
    resolve_arguments self occupancy_rate price_per_night num_properties
      "owned_properties";
  let annual_revenue :=
    calculate_annual_revenue occupancy_rate price_per_night num_properties in
  operations_fixed ← fixed_cost self "owned" "operations_fixed";
  let fixed_operations_cost := operations_fixed * num_properties in
  utilities_fixed ← fixed_cost self "owned" "utilities_fixed";
  let fixed_utilities_cost := utilities_fixed * num_properties in
  insurance ← fixed_cost self "owned" "insurance";
  let insurance_cost := insurance * num_properties in
  total_variable_costs ←
    calculate_variable_costs self occupancy_rate "owned" num_properties;
  let operating_costs :=
    fixed_operations_cost + fixed_utilities_cost + insurance_cost
    + total_variable_costs in
  let noi := annual_revenue - operating_costs in
  investment ← getitem (params self) "owned_initial_investment";
  owned_initial_investment ← as_num investment;
  years ← getitem (params self) "depreciation_years";
  depreciation_years ← as_num years;
  depreciation ←
    np_div (is_numpy investment || numpy_count || is_numpy years)
      (owned_initial_investment * num_properties) depreciation_years;
  let total_costs := np_add operating_costs depreciation in
  owned_initial_investment ←
    getitem (params self) "owned_initial_investment" ≫= as_num;
  let total_investment := owned_initial_investment * num_properties in
  let payback_period :=
    if Qlt_le_dec 0 noi then Finite (total_investment / noi) else PosInf in
  let roi :=
    if Qlt_le_dec 0 total_investment then (noi / total_investment) * 100 else 0 in
  mret {|
    Owned.annual_revenue := annual_revenue;
    Owned.noi := noi;
    Owned.total_investment := total_investment;
    Owned.payback_period := payback_period;
    Owned.roi := roi;
    Owned.total_costs := total_costs;
    Owned.operating_costs := operating_costs;
    Owned.depreciation := depreciation;
    Owned.variable_costs := total_variable_costs
  |}.

(** [calculate_rental_property_metrics] *)
Definition calculate_rental_property_metrics (self : FujimBusinessModel)
    (occupancy_rate price_per_night num_properties : pyval)
    : result Rental.metrics :=
  '(occupancy_rate, price_per_night, num_properties) ←
    resolve_arguments self occupancy_rate price_per_night num_properties
      "rental_properties";
  let annual_revenue :=
    calculate_annual_revenue occupancy_rate price_per_night num_properties in
  rent ← fixed_cost self "rental" "rent";
  let rent_cost := rent * num_properties in
  operations_fixed ← fixed_cost self "rental" "operations_fixed";
  let fixed_operations_cost := operations_fixed * num_properties in
  utilities_fixed ← fixed_cost self "rental" "utilities_fixed";
  let fixed_utilities_cost := utilities_fixed * num_properties in
  insurance ← fixed_cost self "rental" "insurance";
  let insurance_cost := insurance * num_properties in
  let total_fixed_costs :=
    rent_cost + fixed_operations_cost + fixed_utilities_cost + insurance_cost in
  total_variable_costs ←
    calculate_variable_costs self occupancy_rate "rental" num_properties;
  let total_costs := total_fixed_costs + total_variable_costs in
  let operating_profit := annual_revenue - total_costs in
  rental_initial_investment ←
    getitem (params self) "rental_initial_investment" ≫= as_num;
  let total_investment := rental_initial_investment * num_properties in
  let payback_period :=
    if Qlt_le_dec 0 operating_profit
    then Finite (total_investment / operating_profit) else PosInf in
  let roi :=
    if Qlt_le_dec 0 total_investment
    then (operating_profit / total_investment) * 100 else 0 in
  mret {|
    Rental.annual_revenue := annual_revenue;
    Rental.operating_profit := operating_profit;
    Rental.total_investment := total_investment;
    Rental.payback_period := payback_period;
    Rental.roi := roi;
    Rental.total_costs := total_costs;
    Rental.fixed_costs := total_fixed_costs;
    Rental.variable_costs := total_variable_costs
  |}.

(** [calculate_total_metrics]; both per-class calls leave [num_properties]
    at its default [None]. *)
Definition calculate_total_metrics (self : FujimBusinessModel)
    (occupancy_rate price_per_night : pyval) : result Total.metrics :=
  owned_metrics ←
    calculate_owned_property_metrics self occupancy_rate price_per_night PyNone;
  rental_metrics ←
    calculate_rental_property_metrics self occupancy_rate price_per_night PyNone;
  let total_revenue :=
    Owned.annual_revenue owned_metrics + Rental.annual_revenue rental_metrics in
  let total_profit :=
    Owned.noi owned_metrics + Rental.operating_profit rental_metrics in
  let total_investment :=
    Owned.total_investment owned_metrics
    + Rental.total_investment rental_metrics in
  let overall_payback :=
    if Qlt_le_dec 0 total_profit
    then Finite (total_investment / total_profit) else PosInf in
  let overall_roi :=
    if Qlt_le_dec 0 total_investment
    then (total_profit / total_investment) * 100 else 0 in
  mret {|
    Total.total_revenue := total_revenue;
    Total.total_profit := total_profit;
    Total.total_investment := total_investment;
    Total.overall_payback := overall_payback;
    Total.overall_roi := overall_roi;
    Total.owned_metrics := owned_metrics;
    Total.rental_metrics := rental_metrics
  |}.

(** ** ExplorationEngine *)

(** [numpy.linspace(start, stop, num)] with its default [endpoint=True],
    in exact arithmetic: [num] samples [i * step + start], the last one
    set to [stop]; a negative [num] raises [ValueError].  (In binary64 an
    inner sample can differ from the exact one in the last place.) *)
Definition linspace (start stop : Q) (num : Z) : result (list Q) :=
  if (num <? 0)%Z then Raise ValueError
  else
    let div := (num - 1)%Z in
    let delta := stop - start in
    let step := delta / inject_Z div in
    mret ((λ i : Z,
             if (1 <? num)%Z && (i =? num - 1)%Z then stop
             else if (0 <? div)%Z then inject_Z i * step + start
             else inject_Z i * delta + start)
          <$> seqZ 0 num).

(** A dictionary with string keys in insertion order, as a literal
    [{k1: v1, k2: v2, ...}] builds it: an item whose key is already there
    replaces the value and keeps the place of the key. *)
Definition dict (V : Type) : Type := list (string * V).

(** [d[key] = v] *)
Fixpoint dict_set {V : Type} (d : dict V) (key : string) (v : V) : dict V :=
  match d with
  | [] => [(key, v)]
  | (k, x) :: d =>
      if decide (k = key) then (k, v) :: d else (k, x) :: dict_set d key v
  end.

(** [d.get(key)] *)
Fixpoint dict_get {V : Type} (d : dict V) (key : string) : option V :=
  match d with
  | [] => None
  | (k, x) :: d => if decide (k = key) then Some x else dict_get d key
  end.

Definition dict_literal {V : Type} (items : list (string * V)) : dict V :=
  fold_left (λ d item, dict_set d item.1 item.2) items [].

(** One row of the data frame returned by [sensitivity_analysis]: the
    dictionary appended to [results].  Its first key is [param_name]; when
    that is the name of one of the three metric columns, the later item
    with the same key replaces the swept value. *)
Definition row : Type := dict pyfloat.

Definition make_row (param_name : string) (val : Q) (metrics : Total.metrics)
    : row :=
  dict_literal
    [(param_name, Finite val);
     ("total_profit", Finite (Total.total_profit metrics));
     ("overall_roi", Finite (Total.overall_roi metrics));
     ("overall_payback", Total.overall_payback metrics)].

(** The keys of the three metric items of a row. *)
Definition metric_columns : list string :=
  ["total_profit"; "overall_roi"; "overall_payback"].

(** [df[key]]: a column of the data frame made of [rows]. *)
Definition column (key : string) (rows : list row) : list (option pyfloat) :=
  (λ r, dict_get r key) <$> rows.

Definition set_params (self : FujimBusinessModel)
    (p : gmap string pyval) : FujimBusinessModel :=
  {| params := p;
     fixed_costs := fixed_costs self;
     variable_costs := variable_costs self |}.

(** [self.params.get(param_name)] *)
Definition params_get (self : FujimBusinessModel) (param_name : string) : pyval :=
  default PyNone (params self !! param_name).

(** The branch of the loop body of [sensitivity_analysis] that computes
    [metrics] for one [val].  The object after the step is returned with
    the outcome: when [calculate_total_metrics] raises in the third branch,
    the assignment that restores the parameter is not reached.  [val] comes
    from [numpy.linspace] and is a [numpy.float64]. *)
Definition sweep_point (self : FujimBusinessModel) (param_name : string)
    (val : Q) : FujimBusinessModel * result Total.metrics :=
  if decide (param_name = "occupancy_rate") then
    (self, calculate_total_metrics self (NpNum val) PyNone)
  else if decide (param_name = "price_per_night") then
    (self, calculate_total_metrics self PyNone (NpNum val))
  else
    let original_val := params_get self param_name in
    let self := set_params self (<[param_name := NpNum val]> (params self)) in
    match calculate_total_metrics self PyNone PyNone with
    | Ok metrics =>
        (set_params self (<[param_name := original_val]> (params self)),
         Ok metrics)
    | Raise e => (self, Raise e)
    end.

(** [for val in values: ...; results.append({...})] *)
Fixpoint sweep_loop (self : FujimBusinessModel) (param_name : string)
    (values : list Q) (results : list row)
    : FujimBusinessModel * result (list row) :=
  match values with
  | [] => (self, Ok results)
  | val :: values =>
      match sweep_point self param_name val with
      | (self, Ok metrics) =>
          sweep_loop self param_name values
            (results ++ [make_row param_name val metrics])
      | (self, Raise e) => (self, Raise e)
      end
  end.

(** [sensitivity_analysis]: the object after the call, and the rows of the
    data frame or the exception. *)
Definition sensitivity_analysis (self : FujimBusinessModel)
    (param_name : string) (min_val max_val : Q) (steps : Z)
    : FujimBusinessModel * result (list row) :=
  match linspace min_val max_val steps with
  | Ok values => sweep_loop self param_name values []
  | Raise e => (self, Raise e)
  end.

(** The cash fixed costs of the break-even tab of [streamlit_app.main]:
    [fixed_cost_owned + fixed_cost_rental]. *)
Definition total_fixed_costs (self : FujimBusinessModel)
    (owned_properties rental_properties : Q) : result Q :=
  owned_operations ← fixed_cost self "owned" "operations_fixed";
  owned_utilities ← fixed_cost self "owned" "utilities_fixed";
  owned_insurance ← fixed_cost self "owned" "insurance";
  let fixed_cost_owned :=
    (owned_operations + owned_utilities + owned_insurance) * owned_properties in
  rent ← fixed_cost self "rental" "rent";
  rental_operations ← fixed_cost self "rental" "operations_fixed";
  rental_utilities ← fixed_cost self "rental" "utilities_fixed";
  rental_insurance ← fixed_cost self "rental" "insurance";
  let fixed_cost_rental :=
    (rent + rental_operations + rental_utilities + rental_insurance)
    * rental_properties in
  mret (fixed_cost_owned + fixed_cost_rental).

(** The break-even computation shared by both files: [breakeven_days] and
    then [breakeven_occupancy], which the code expresses in percent. *)
Definition breakeven_occupancy
    (total_fixed_costs price_per_night properties_total : Q) : result Q :=
  let daily_revenue_potential := price_per_night * properties_total in
  breakeven_days ← py_div total_fixed_costs daily_revenue_potential;
  mret ((breakeven_days / 365) * 100).

(** The break-even tab of [streamlit_app.main] (lines 471-488). *)
Definition breakeven_tab (self : FujimBusinessModel)
    (price_per_night owned_properties rental_properties : Q) : result Q :=
  total ← total_fixed_costs self owned_properties rental_properties;
  let total_properties := owned_properties + rental_properties in
  breakeven_occupancy total price_per_night total_properties.

(** The break-even block of [create_comprehensive_analysis] (lines
    489-507), with its constants 15, 15, 25000 and 30. *)
Definition breakeven_report (self : FujimBusinessModel) : result Q :=
  total ← total_fixed_costs self 15 15;
  let price_per_night := 25000 in
  let properties_total := 30 in
  breakeven_occupancy total price_per_night properties_total.

(** ** The cost what-if block of [streamlit_app.main] (lines 361-400)

    The block scales entries of the cost schedules in place, evaluates,
    and assigns saved copies back.  [dict.copy()] is shallow: the copy is a
    new outer dictionary whose values are the same inner dictionaries.  The
    inner dictionaries therefore live in a store, addressed by location,
    and an outer dictionary maps a property type to a location. *)
Module WhatIf.

Record app : Type := {
  store : gmap nat (gmap string Q);
  model_params : gmap string pyval;
  model_fixed_costs : gmap string nat;
  model_variable_costs : gmap string nat
}.

(** The engine's view of the model object: every location read through
    the store. *)
Definition model (a : app) : FujimBusinessModel :=
  {| params := model_params a;
     fixed_costs := (λ l, store a !!! l) <$> model_fixed_costs a;
     variable_costs := (λ l, store a !!! l) <$> model_variable_costs a |}.

(** The object built by [load_model()]: four inner dictionaries. *)
Definition load_model : app :=
  {| store :=
       <[0%nat := fixed_costs init !!! "owned"]>
       (<[1%nat := fixed_costs init !!! "rental"]>
       (<[2%nat := variable_costs init !!! "owned"]>
       (<[3%nat := variable_costs init !!! "rental"]> ∅)));
     model_params := params init;
     model_fixed_costs := <["owned" := 0%nat]> (<["rental" := 1%nat]> ∅);
     model_variable_costs := <["owned" := 2%nat]> (<["rental" := 3%nat]> ∅) |}.

(** [outer[property_type][cost_type] *= factor] on the store. *)
Definition scale (outer : gmap string nat) (property_type cost_type : string)
    (factor : Q) (s : gmap nat (gmap string Q))
    : result (gmap nat (gmap string Q)) :=
  l ← getitem outer property_type;
  base ← getitem (s !!! l) cost_type;
  mret (<[l := <[cost_type := base * factor]> (s !!! l)]> s).

(** The nine [*=] statements of one scenario. *)
Definition scale_costs (a : app)
    (utilities_fixed utilities_variable operations_fixed
     operations_variable rent : Q) : result app :=
  let fc := model_fixed_costs a in
  let vc := model_variable_costs a in
  s ← scale fc "owned" "utilities_fixed" utilities_fixed (store a);
  s ← scale fc "rental" "utilities_fixed" utilities_fixed s;
  s ← scale vc "owned" "utilities_variable" utilities_variable s;
  s ← scale vc "rental" "utilities_variable" utilities_variable s;
  s ← scale fc "owned" "operations_fixed" operations_fixed s;
  s ← scale fc "rental" "operations_fixed" operations_fixed s;
  s ← scale vc "owned" "operations_variable" operations_variable s;
  s ← scale vc "rental" "operations_variable" operations_variable s;
  s ← scale fc "rental" "rent" rent s;
  mret {| store := s;
          model_params := model_params a;
          model_fixed_costs := fc;
          model_variable_costs := vc |}.

(** The whole block: the application state after the last two
    assignments, with [cost_risk_metrics] and [cost_savings_metrics]. *)
Definition cost_scenarios (a : app) (occupancy_rate price_per_night : pyval)
    : result (app * Total.metrics * Total.metrics) :=
  (* a shallow copy has the contents of the outer dictionary *)
  let original_fixed_costs := model_fixed_costs a in
  let original_variable_costs := model_variable_costs a in
  a ← scale_costs a 1.4 1.5 1.25 1.3 1.15;
  cost_risk_metrics ←
    calculate_total_metrics (model a) occupancy_rate price_per_night;
  let a := {| store := store a;
              model_params := model_params a;
              model_fixed_costs := original_fixed_costs;
              model_variable_costs := original_variable_costs |} in
  a ← scale_costs a 0.85 0.8 0.92 0.9 0.97;
  cost_savings_metrics ←
    calculate_total_metrics (model a) occupancy_rate price_per_night;
  let a := {| store := store a;
              model_params := model_params a;
              model_fixed_costs := original_fixed_costs;
              model_variable_costs := original_variable_costs |} in
  mret (a, cost_risk_metrics, cost_savings_metrics).

End WhatIf.

(** ** The reference figures in binary64

    CPython computes with IEEE 754 binary64.  The two expressions behind
    the concrete figures of the specification are repeated here on Rocq's
    primitive floats, which are the same numbers with the same rounding,
    to evaluate them once without the idealisation. *)
Module Binary64.
Import PrimFloat.
Local Open Scope float_scope.

(** [calculate_annual_revenue] *)
Definition calculate_annual_revenue
    (occupancy_rate price_per_night num_properties : float) : float :=
  let days_per_year := 365 in
  occupancy_rate * price_per_night * days_per_year * num_properties.

(** [breakeven_days / 365], the rate inside [breakeven_occupancy]. *)
Definition breakeven_rate
    (total_fixed_costs price_per_night properties_total : float) : float :=
  let daily_revenue_potential := price_per_night * properties_total in
  let breakeven_days := total_fixed_costs / daily_revenue_potential in
  breakeven_days / 365.
End Binary64.

(** ** Parameter sets the engine can evaluate *)

(** The engine reads these entries; [valid_model] says that they are there,
    that the parameters are Python numbers, as [__init__] and the callers
    outside of a sweep write them, and that [depreciation_years] is not
    zero.  Nothing is asked about signs. *)
Definition has_number (p : gmap string pyval) (key : string) : Prop :=
  ∃ q, p !! key = Some (PyNum q).

Definition has_costs (costs : gmap string (gmap string Q))
    (property_type : string) (cost_types : list string) : Prop :=
  ∃ d, costs !! property_type = Some d ∧ Forall (λ c, is_Some (d !! c)) cost_types.

Record valid_model (self : FujimBusinessModel) : Prop := {
  valid_occupancy : has_number (params self) "base_occupancy_rate";
  valid_price : has_number (params self) "average_price_per_night";
  valid_owned : has_number (params self) "owned_properties";
  valid_rental : has_number (params self) "rental_properties";
  valid_owned_investment : has_number (params self) "owned_initial_investment";
  valid_rental_investment : has_number (params self) "rental_initial_investment";
  valid_years :
    ∃ q, params self !! "depreciation_years" = Some (PyNum q) ∧ ¬ q == 0;
  valid_fixed_owned :
    has_costs (fixed_costs self) "owned"
      ["operations_fixed"; "utilities_fixed"; "insurance"];
  valid_fixed_rental :
    has_costs (fixed_costs self) "rental"
      ["rent"; "operations_fixed"; "utilities_fixed"; "insurance"];
  valid_variable_owned : is_Some (variable_costs self !! "owned");
  valid_variable_rental : is_Some (variable_costs self !! "rental")
}.

(** The value an argument of a per-class function stands for: itself when
    it is true, the stored default otherwise. *)
Definition effective (arg : pyval) (stored : Q) : Q :=
  match arg with
  | PyNum q | NpNum q => if Qeq_bool q 0 then stored else q
  | PyNone => stored
  end.

(** The sum of a list of amounts, for stating totals. *)
Definition Qsum (amounts : list Q) : Q := foldr Qplus 0 amounts.

(** The payback and ROI expressions, as the three functions write them. *)
Definition payback_of (total_investment income : Q) : pyfloat :=
  if Qlt_le_dec 0 income then Finite (total_investment / income) else PosInf.

Definition roi_of (income total_investment : Q) : Q :=
  if Qlt_le_dec 0 total_investment then (income / total_investment) * 100 else 0.

(** The object after one pass through the third branch of the loop: the
    swept key holds what [self.params.get] returned. *)
Definition after_sweep (self : FujimBusinessModel) (param_name : string)
    : FujimBusinessModel :=
  set_params self (<[param_name := params_get self param_name]> (params self)).

(** The object a sweep over [values] ends with when no point raises. *)
Definition swept (self : FujimBusinessModel) (param_name : string)
    (values : list Q) : FujimBusinessModel :=
  if decide (param_name = "occupancy_rate") then self
  else if decide (param_name = "price_per_night") then self
  else match values with
       | [] => self
       | _ :: _ => after_sweep self param_name
       end.

(** ** Callers of the engine *)

(** [min(x, cap)] and [max(x, floor)] of Python, on numbers. *)
Definition py_min (x cap : Q) : Q := if Qlt_le_dec cap x then cap else x.
Definition py_max (x floor : Q) : Q := if Qlt_le_dec x floor then floor else x.

(** *** [InteractiveModelAnalyzer]

    The four sliders are bounded widgets of ipywidgets: a value assigned
    to one is capped and floored to its range, and the user interface
    sends no value outside of it. *)
Module IntSlider.
Record t : Type := { value : Z; min : Z; max : Z }.

(** [slider.value = v] *)
Definition set_value (self : t) (v : Z) : t :=
  {| value := Z.min (Z.max v (min self)) (max self);
     min := min self;
     max := max self |}.
End IntSlider.

Module FloatSlider.
Record t : Type := { value : Q; min : Q; max : Q }.

(** [slider.value = v] *)
Definition set_value (self : t) (v : Q) : t :=
  {| value := py_min (py_max v (min self)) (max self);
     min := min self;
     max := max self |}.
End FloatSlider.

Module InteractiveModelAnalyzer.
Record t : Type := {
  model : FujimBusinessModel;
  occupancy_slider : FloatSlider.t;
  price_slider : IntSlider.t;
  owned_properties_slider : IntSlider.t;
  rental_properties_slider : IntSlider.t
}.

(** [__init__] with [setup_widgets] (lines 257-296). *)
Definition setup_widgets (model : FujimBusinessModel) : t :=
  {| model := model;
     occupancy_slider :=
       {| FloatSlider.value := 33; FloatSlider.min := 15; FloatSlider.max := 70 |};
     price_slider :=
       {| IntSlider.value := 25000; IntSlider.min := 15000;
          IntSlider.max := 40000 |};
     owned_properties_slider :=
       {| IntSlider.value := 15; IntSlider.min := 5; IntSlider.max := 30 |};
     rental_properties_slider :=
       {| IntSlider.value := 15; IntSlider.min := 5; IntSlider.max := 30 |} |}.

(** The analyzer with its four sliders set to the given values. *)
Definition move_sliders (self : t)
    (occupancy : Q) (price owned_properties rental_properties : Z) : t :=
  {| model := model self;
     occupancy_slider := FloatSlider.set_value (occupancy_slider self) occupancy;
     price_slider := IntSlider.set_value (price_slider self) price;
     owned_properties_slider :=
       IntSlider.set_value (owned_properties_slider self) owned_properties;
     rental_properties_slider :=
       IntSlider.set_value (rental_properties_slider self) rental_properties |}.

Definition set_model (self : t) (model : FujimBusinessModel) : t :=
  {| model := model;
     occupancy_slider := occupancy_slider self;
     price_slider := price_slider self;
     owned_properties_slider := owned_properties_slider self;
     rental_properties_slider := rental_properties_slider self |}.

(** [update_analysis] (lines 298-314): the analyzer after the call, and
    the metrics it displays or the exception its body raises.  The two
    property counts are written into the parameter dictionary of the
    model; [display_results] prints; [plot_sensitivity_analysis] (lines
    339-375) runs two sweeps of 12 points and draws them. *)
Definition update_analysis (self : t) : t * result Total.metrics :=
  let occupancy_rate := FloatSlider.value (occupancy_slider self) / 100 in
  let price_per_night := inject_Z (IntSlider.value (price_slider self)) in
  let model :=
    set_params (model self)
      (<["owned_properties" :=
           PyNum (inject_Z (IntSlider.value (owned_properties_slider self)))]>
         (params (model self))) in
  let model :=
    set_params model
      (<["rental_properties" :=
           PyNum (inject_Z (IntSlider.value (rental_properties_slider self)))]>
         (params model)) in
  match calculate_total_metrics model (PyNum occupancy_rate)
          (PyNum price_per_night) with
  | Raise e => (set_model self model, Raise e)
  | Ok metrics =>
      match sensitivity_analysis model "occupancy_rate" 0.15 0.70 12 with
      | (model, Raise e) => (set_model self model, Raise e)
      | (model, Ok occupancy_df) =>
          match sensitivity_analysis model "price_per_night" 15000 40000 12 with
          | (model, Raise e) => (set_model self model, Raise e)
          | (model, Ok price_df) => (set_model self model, Ok metrics)
          end
      end
  end.
End InteractiveModelAnalyzer.

(** One cell of the payback heat map of [create_comprehensive_analysis]
    (lines 427-430): [min(metrics['overall_payback'], 15)], which is 15 for
    [float('inf')].  [occ] and [price] are elements of two [numpy.arange]s. *)
Definition capped_payback (payback : pyfloat) : Q :=
  match payback with
  | Finite q => py_min q 15
  | PosInf => 15
  end.

Definition heatmap_cell (self : FujimBusinessModel) (occ price : Q) : result Q :=
  metrics ← calculate_total_metrics self (NpNum occ) (NpNum price);
  mret (capped_payback (Total.overall_payback metrics)).

(** The radar normalisation of the scenario tab of [streamlit_app.main]
    (lines 230-232).  For an unbounded payback [100 - inf * 10] is [-inf]
    and its maximum with 0 is 0. *)
Definition roi_norm (roi : Q) : Q := py_min (roi * 2) 100.

Definition profit_norm (annual_profit : Q) : Q :=
  py_min ((annual_profit / 100000000) * 100) 100.

Definition payback_norm (payback : pyfloat) : Q :=
  match payback with
  | Finite q => py_max (100 - q * 10) 0
  | PosInf => 0
  end.

(** The cost breakdown of the detail tab of [streamlit_app.main] (lines
    575-594): the amounts of the five owned lines and of the five rental
    lines, in the order of the two lists.  The parameter dictionary of
    [main] holds Python numbers only (its two sweeps go through the
    arguments and write no parameter), and the slider values are Python
    integers, so the division is the one of Python numbers. *)
Definition cost_breakdown (self : FujimBusinessModel)
    (occupancy_rate owned_properties rental_properties : Q)
    : result (list Q * list Q) :=
  owned_variable_costs ←
    calculate_variable_costs self occupancy_rate "owned" owned_properties;
  rental_variable_costs ←
    calculate_variable_costs self occupancy_rate "rental" rental_properties;
  owned_operations ← fixed_cost self "owned" "operations_fixed";
  owned_utilities ← fixed_cost self "owned" "utilities_fixed";
  owned_insurance ← fixed_cost self "owned" "insurance";
  owned_initial_investment ←
    getitem (params self) "owned_initial_investment" ≫= as_num;
  depreciation_years ← getitem (params self) "depreciation_years" ≫= as_num;
  depreciation ←
    py_div (owned_initial_investment * owned_properties) depreciation_years;
  rent ← fixed_cost self "rental" "rent";
  rental_operations ← fixed_cost self "rental" "operations_fixed";
  rental_utilities ← fixed_cost self "rental" "utilities_fixed";
  rental_insurance ← fixed_cost self "rental" "insurance";
  mret ([owned_operations * owned_properties;
         owned_utilities * owned_properties;
         owned_variable_costs;
         owned_insurance * owned_properties;
         depreciation],
        [rent * rental_properties;
         rental_operations * rental_properties;
         rental_utilities * rental_properties;
         rental_variable_costs;
         rental_insurance * rental_properties]).

(** ** Reading a model for closed forms *)

(** The number stored under a parameter, the per-unit fixed costs of the
    two classes as the per-class functions add them up, and the per-unit
    variable-cost baseline of a class.  They are only used to state what
    the engine computes for a valid model, where every entry is there. *)
Definition stored (self : FujimBusinessModel) (key : string) : Q :=
  match params self !! key with
  | Some (PyNum q) => q
  | _ => 0
  end.

Definition fixed_entry (self : FujimBusinessModel)
    (property_type cost_type : string) : Q :=
  match fixed_cost self property_type cost_type with
  | Ok c => c
  | Raise _ => 0
  end.

Definition owned_fixed_per_unit (self : FujimBusinessModel) : Q :=
  fixed_entry self "owned" "operations_fixed"
  + fixed_entry self "owned" "utilities_fixed"
  + fixed_entry self "owned" "insurance".

Definition rental_fixed_per_unit (self : FujimBusinessModel) : Q :=
  fixed_entry self "rental" "rent"
  + fixed_entry self "rental" "operations_fixed"
  + fixed_entry self "rental" "utilities_fixed"
  + fixed_entry self "rental" "insurance".

Definition baseline_per_unit (self : FujimBusinessModel)
    (property_type : string) : Q :=
  match variable_costs self !! property_type with
  | Some schedule => Qsum ((λ item, item.2) <$> map_to_list schedule)
  | None => 0
  end.

(** Equality of two payback values as numbers. *)
Definition pyfloat_eq (x y : pyfloat) : Prop :=
  match x, y with
  | Finite a, Finite b => a == b
  | PosInf, PosInf => True
  | _, _ => False
  end.


(** ** [streamlit_app.main]

    The data that one run of [main] computes, in the order of the script:
    the model is loaded, the two property counts are written into it, the
    portfolio is evaluated, and the blocks of the five tabs run one after
    the other on the same model object.  Every division of the script by a
    computed number is a step here, because it raises when that number is
    zero.  (The what-if block divides twice more by the profit of
    [base_metrics], after a division by the same number has succeeded.)
    Formatting and drawing are left out. *)

(** [model.params = p] on the application state. *)
Definition set_app_params (a : WhatIf.app) (p : gmap string pyval) : WhatIf.app :=
  {| WhatIf.store := WhatIf.store a;
     WhatIf.model_params := p;
     WhatIf.model_fixed_costs := WhatIf.model_fixed_costs a;
     WhatIf.model_variable_costs := WhatIf.model_variable_costs a |}.

Module Main.

Record display : Type := {
  metrics : Total.metrics;
  cost_risk_metrics : Total.metrics;
  cost_savings_metrics : Total.metrics;
  total_fixed_costs_shown : Q;
  breakeven_occupancy_shown : Q;
  cost_breakdown_shown : list Q * list Q
}.

Definition main
    (occupancy_percent price_per_night owned_properties rental_properties : Q)
    : result display :=
  let a := WhatIf.load_model in
  let occupancy_rate := occupancy_percent / 100 in
  (* lines 96-97 *)
  let a :=
    set_app_params a
      (<["rental_properties" := PyNum rental_properties]>
         (<["owned_properties" := PyNum owned_properties]>
            (WhatIf.model_params a))) in
  (* line 100 and the header *)
  metrics ←
    calculate_total_metrics (WhatIf.model a) (PyNum occupancy_rate)
      (PyNum price_per_night);
  _ ← py_div (Total.total_profit metrics) (Total.total_revenue metrics);
  (* tab 1: the two sweeps, which leave the object as it is *)
  _ ← (sensitivity_analysis (WhatIf.model a) "occupancy_rate" 0.15 0.70 20).2;
  _ ← (sensitivity_analysis (WhatIf.model a) "price_per_night" 15000 40000 20).2;
  (* tab 2: the four scenarios, then the revenue risks *)
  _ ← calculate_total_metrics (WhatIf.model a) (PyNum 0.50) (PyNum 30000);
  _ ← calculate_total_metrics (WhatIf.model a) (PyNum 0.33) (PyNum 25000);
  _ ← calculate_total_metrics (WhatIf.model a) (PyNum 0.25) (PyNum 22000);
  _ ← calculate_total_metrics (WhatIf.model a) (PyNum 0.20) (PyNum 20000);
  base_metrics ←
    calculate_total_metrics (WhatIf.model a) (PyNum occupancy_rate)
      (PyNum price_per_night);
  downside_metrics ←
    calculate_total_metrics (WhatIf.model a) (PyNum 0.20) (PyNum 20000);
  _ ← py_div (Total.total_profit downside_metrics - Total.total_profit base_metrics)
        (Total.total_profit base_metrics);
  upside_metrics ←
    calculate_total_metrics (WhatIf.model a) (PyNum 0.55) (PyNum 32000);
  _ ← py_div (Total.total_profit upside_metrics - Total.total_profit base_metrics)
        (Total.total_profit base_metrics);
  (* tab 2: the cost what-if block *)
  '(a, cost_risk_metrics, cost_savings_metrics) ←
    WhatIf.cost_scenarios a (PyNum occupancy_rate) (PyNum price_per_night);
  (* tab 3 *)
  total ← total_fixed_costs (WhatIf.model a) owned_properties rental_properties;
  let total_properties := owned_properties + rental_properties in
  breakeven ← breakeven_occupancy total price_per_night total_properties;
  (* tab 4 *)
  breakdown ←
    cost_breakdown (WhatIf.model a) occupancy_rate owned_properties
      rental_properties;
  mret {| metrics := metrics;
          cost_risk_metrics := cost_risk_metrics;
          cost_savings_metrics := cost_savings_metrics;
          total_fixed_costs_shown := total;
          breakeven_occupancy_shown := breakeven;
          cost_breakdown_shown := breakdown |}.

End Main.

(** The application state when the what-if block has scaled the costs for
    its first scenario, and when it has scaled them for its second; the
    parameter dictionary, which the block does not touch, is that of
    [load_model]. *)
Definition risk_state : WhatIf.app :=
  match WhatIf.scale_costs WhatIf.load_model 1.4 1.5 1.25 1.3 1.15 with
  | Ok a => a
  | Raise _ => WhatIf.load_model
  end.

Definition savings_state : WhatIf.app :=
  match WhatIf.scale_costs risk_state 0.85 0.8 0.92 0.9 0.97 with
  | Ok a => a
  | Raise _ => WhatIf.load_model
  end.

(** Whether a cost table has a schedule for a property type with all the
    given entries. *)
Definition has_costs_b (costs : gmap string (gmap string Q))
    (property_type : string) (cost_types : list string) : bool :=
  match costs !! property_type with
  | Some d => forallb (λ c, bool_decide (is_Some (d !! c))) cost_types
  | None => false
  end.

Definition is_Ok {A : Type} (r : result A) : bool :=
  match r with
  | Ok _ => true
  | Raise _ => false
  end.

(** * Properties *)

(** ** Running the result monad *)

Lemma bind_Ok {A B : Type} (a : A) (k : A → result B) : Ok a ≫= k = k a.
Proof. reflexivity. Qed.

Lemma bind_Ok_inv {A B : Type} (m : result A) (k : A → result B) (b : B) :
  m ≫= k = Ok b → ∃ a, m = Ok a ∧ k a = Ok b.
Proof. destruct m as [a|e]; [eauto | discriminate]. Qed.

(** Splits a hypothesis [x ← m; k = Ok b] into the steps that ran. *)
Ltac run_in H :=
  repeat match type of H with
  | _ ≫= _ = Ok _ =>
      let a := fresh "a" in
      let E := fresh "E" in
      apply bind_Ok_inv in H as (a & E & H)
  | (let '(_, _) := ?p in _) = Ok _ => destruct p
  | mret _ = Ok _ => injection H as H
  | Ok _ = Ok _ => injection H as H
  end.

Lemma getitem_Some {V : Type} (d : gmap string V) (key : string) (v : V) :
  d !! key = Some v → getitem d key = Ok v.
Proof. unfold getitem. intros ->. reflexivity. Qed.

Lemma py_div_Ok (x y : Q) : ¬ y == 0 → py_div x y = Ok (x / y).
Proof.
  intros Hy. unfold py_div.
  destruct (Qeq_bool y 0) eqn:E; [| reflexivity].
  apply Qeq_bool_iff in E. contradiction.
Qed.

Lemma py_div_zero (x y : Q) : y == 0 → py_div x y = Raise ZeroDivisionError.
Proof.
  intros Hy. unfold py_div. apply Qeq_bool_iff in Hy. rewrite Hy. reflexivity.
Qed.

Lemma np_div_Ok (numpy : bool) (x y : Q) :
  ¬ y == 0 → np_div numpy x y = Ok (Number (x / y)).
Proof.
  intros Hy. unfold np_div.
  destruct (Qeq_bool y 0) eqn:E; [| reflexivity].
  apply Qeq_bool_iff in E. contradiction.
Qed.

Lemma np_div_python_zero (x y : Q) :
  y == 0 → np_div false x y = Raise ZeroDivisionError.
Proof.
  intros Hy. unfold np_div. apply Qeq_bool_iff in Hy. rewrite Hy. reflexivity.
Qed.

Lemma np_div_numpy_zero (x y : Q) : y == 0 → np_div true x y = Ok NotFinite.
Proof.
  intros Hy. unfold np_div. apply Qeq_bool_iff in Hy. rewrite Hy. reflexivity.
Qed.

(** ** Sums over a cost schedule *)

Lemma accumulate_costs_sum (f : Q) (items : list (string * Q)) (total : Q) :
  accumulate_costs f items total == total + Qsum ((λ item, item.2 * f) <$> items).
Proof.
  unfold accumulate_costs, Qsum, fmap. revert total.
  induction items as [|item items IH]; intros total; simpl.
  - ring.
  - rewrite IH. ring.
Qed.

Lemma Qsum_scale (c : Q) (g h : Q → Q) (items : list (string * Q)) :
  (∀ x, g x == c * h x) →
  Qsum ((λ item, g item.2) <$> items) == c * Qsum ((λ item, h item.2) <$> items).
Proof.
  intros Hg. unfold Qsum, fmap.
  induction items as [|item items IH]; simpl.
  - ring.
  - rewrite IH, Hg. ring.
Qed.

(** ** How the per-class functions resolve their arguments *)

(** [x or stored] is a number when [stored] is one: [x] itself when it is
    true, of whichever kind it is. *)
Lemma py_or_number (arg stored_value : pyval) (stored : Q) :
  as_num stored_value = Ok stored →
  ∃ v, py_or arg (Ok stored_value) = Ok v ∧ as_num v = Ok (effective arg stored).
Proof.
  intros Hstored. unfold py_or, effective.
  destruct arg as [|q|q]; simpl; [eauto | |];
    destruct (Qeq_bool q 0); simpl; eauto.
Qed.

Lemma resolve_arguments_number (self : FujimBusinessModel)
    (occupancy_rate price_per_night num_properties : pyval)
    (key : string) (vo vp vn : pyval) (o p n : Q) :
  params self !! "base_occupancy_rate" = Some vo → as_num vo = Ok o →
  params self !! "average_price_per_night" = Some vp → as_num vp = Ok p →
  params self !! key = Some vn → as_num vn = Ok n →
  resolve_arguments self occupancy_rate price_per_night num_properties key
  = Ok (effective occupancy_rate o, effective price_per_night p,
        effective num_properties n).
Proof.
  intros Ho Eo Hp Ep Hn En. unfold resolve_arguments.
  rewrite (getitem_Some _ _ _ Ho), (getitem_Some _ _ _ Hp),
    (getitem_Some _ _ _ Hn).
  destruct (py_or_number occupancy_rate vo o Eo) as (wo & Wo & Ao).
  destruct (py_or_number price_per_night vp p Ep) as (wp & Wp & Ap).
  destruct (py_or_number num_properties vn n En) as (wn & Wn & An).
  rewrite Wo, bind_Ok, Wp, bind_Ok, Wn, bind_Ok, Ao, bind_Ok, Ap, bind_Ok, An.
  reflexivity.
Qed.

Lemma resolve_arguments_stored (self : FujimBusinessModel)
    (occupancy_rate price_per_night num_properties : pyval)
    (key : string) (o p n : Q) :
  params self !! "base_occupancy_rate" = Some (PyNum o) →
  params self !! "average_price_per_night" = Some (PyNum p) →
  params self !! key = Some (PyNum n) →
  resolve_arguments self occupancy_rate price_per_night num_properties key
  = Ok (effective occupancy_rate o, effective price_per_night p,
        effective num_properties n).
Proof.
  intros Ho Hp Hn.
  apply (resolve_arguments_number _ _ _ _ _ _ _ _ _ _ _ Ho eq_refl Hp eq_refl
           Hn eq_refl).
Qed.

Lemma py_or_truthy (q : Q) (d : result pyval) :
  ¬ q == 0 → py_or (PyNum q) d = Ok (PyNum q).
Proof.
  intros Hq. unfold py_or; simpl.
  destruct (Qeq_bool q 0) eqn:E; [| reflexivity].
  apply Qeq_bool_iff in E. contradiction.
Qed.

Lemma numpy_properties_given (self : FujimBusinessModel) (key : string) (n : Q) :
  ¬ n == 0 → numpy_properties self (PyNum n) key = false.
Proof.
  intros Hn. unfold numpy_properties.
  rewrite py_or_truthy by assumption. reflexivity.
Qed.

(** Arguments that are all true are used as they are, whatever the
    parameter dictionary holds. *)
Lemma resolve_arguments_given (self : FujimBusinessModel) (key : string) (o p n : Q) :
  ¬ o == 0 → ¬ p == 0 → ¬ n == 0 →
  resolve_arguments self (PyNum o) (PyNum p) (PyNum n) key = Ok (o, p, n).
Proof.
  intros Ho Hp Hn. unfold resolve_arguments.
  rewrite !py_or_truthy by assumption. reflexivity.
Qed.

(** ** What the per-class functions return *)

Lemma fixed_cost_Some (self : FujimBusinessModel) (property_type cost_type : string)
    (d : gmap string Q) (c : Q) :
  fixed_costs self !! property_type = Some d → d !! cost_type = Some c →
  fixed_cost self property_type cost_type = Ok c.
Proof.
  intros Hd Hc. unfold fixed_cost.
  rewrite (getitem_Some _ _ _ Hd). simpl. apply getitem_Some, Hc.
Qed.

Lemma calculate_variable_costs_Some (self : FujimBusinessModel) (r : Q)
    (property_type : string) (n : Q) (d : gmap string Q) :
  variable_costs self !! property_type = Some d →
  calculate_variable_costs self r property_type n
  = Ok (accumulate_costs (r / 0.33) (map_to_list d) 0 * n).
Proof.
  intros Hd. unfold calculate_variable_costs.
  rewrite (getitem_Some _ _ _ Hd). reflexivity.
Qed.

Lemma owned_metrics_fields (self : FujimBusinessModel)
    (occupancy_rate price_per_night num_properties : pyval) (m : Owned.metrics) :
  calculate_owned_property_metrics self occupancy_rate price_per_night
    num_properties = Ok m →
  ∃ o p n,
    resolve_arguments self occupancy_rate price_per_night num_properties
      "owned_properties" = Ok (o, p, n)
    ∧ Owned.annual_revenue m = calculate_annual_revenue o p n
    ∧ Owned.noi m = Owned.annual_revenue m - Owned.operating_costs m
    ∧ Owned.payback_period m = payback_of (Owned.total_investment m) (Owned.noi m)
    ∧ Owned.roi m = roi_of (Owned.noi m) (Owned.total_investment m).
Proof.
  intros H. unfold calculate_owned_property_metrics in H.
  apply bind_Ok_inv in H as ([[o p] n] & Hres & H).
  run_in H. subst m. simpl. eauto 10.
Qed.

Lemma rental_metrics_fields (self : FujimBusinessModel)
    (occupancy_rate price_per_night num_properties : pyval) (m : Rental.metrics) :
  calculate_rental_property_metrics self occupancy_rate price_per_night
    num_properties = Ok m →
  ∃ o p n,
    resolve_arguments self occupancy_rate price_per_night num_properties
      "rental_properties" = Ok (o, p, n)
    ∧ Rental.annual_revenue m = calculate_annual_revenue o p n
    ∧ Rental.operating_profit m = Rental.annual_revenue m - Rental.total_costs m
    ∧ Rental.payback_period m
      = payback_of (Rental.total_investment m) (Rental.operating_profit m)
    ∧ Rental.roi m = roi_of (Rental.operating_profit m) (Rental.total_investment m).
Proof.
  intros H. unfold calculate_rental_property_metrics in H.
  apply bind_Ok_inv in H as ([[o p] n] & Hres & H).
  run_in H. subst m. simpl. eauto 10.
Qed.

(** ** A valid model is evaluated without an exception *)

Lemma has_costs_lookup (costs : gmap string (gmap string Q))
    (property_type : string) (cost_types : list string) (c : string) :
  has_costs costs property_type cost_types → c ∈ cost_types →
  ∃ d q, costs !! property_type = Some d ∧ d !! c = Some q.
Proof.
  intros (d & Hd & Hall) Hc.
  rewrite Forall_forall in Hall. destruct (Hall c Hc) as [q Hq]. eauto.
Qed.

Lemma fixed_cost_valid (self : FujimBusinessModel)
    (property_type : string) (cost_types : list string) (c : string) :
  has_costs (fixed_costs self) property_type cost_types → c ∈ cost_types →
  ∃ q, fixed_cost self property_type c = Ok q.
Proof.
  intros H Hc. destruct (has_costs_lookup _ _ _ _ H Hc) as (d & q & Hd & Hq).
  exists q. eapply fixed_cost_Some; eassumption.
Qed.

Lemma calculate_variable_costs_valid (self : FujimBusinessModel) (r : Q)
    (property_type : string) (n : Q) :
  is_Some (variable_costs self !! property_type) →
  ∃ v, calculate_variable_costs self r property_type n = Ok v.
Proof.
  intros [d Hd]. rewrite (calculate_variable_costs_Some _ _ _ _ _ Hd). eauto.
Qed.

Ltac use_fixed_cost H c :=
  let q := fresh "q" in
  let E := fresh "E" in
  destruct (fixed_cost_valid _ _ _ c H ltac:(set_solver)) as [q E];
  rewrite E, bind_Ok; clear E.

(** The owned class is evaluated when the entries it reads are numbers of
    either kind, provided a [depreciation_years] of zero is a numpy
    scalar; the depreciation is then not finite. *)
Lemma owned_metrics_number (self : FujimBusinessModel)
    (occupancy_rate price_per_night num_properties : pyval)
    (vo vp vn vi vy : pyval) (o p n i y : Q) :
  params self !! "base_occupancy_rate" = Some vo → as_num vo = Ok o →
  params self !! "average_price_per_night" = Some vp → as_num vp = Ok p →
  params self !! "owned_properties" = Some vn → as_num vn = Ok n →
  params self !! "owned_initial_investment" = Some vi → as_num vi = Ok i →
  params self !! "depreciation_years" = Some vy → as_num vy = Ok y →
  (y == 0 → is_numpy vy = true) →
  has_costs (fixed_costs self) "owned"
    ["operations_fixed"; "utilities_fixed"; "insurance"] →
  is_Some (variable_costs self !! "owned") →
  ∃ m, calculate_owned_property_metrics self occupancy_rate price_per_night
         num_properties = Ok m
       ∧ Owned.depreciation m
         = (if Qeq_bool y 0 then NotFinite
            else Number (i * effective num_properties n / y))
       ∧ Owned.total_costs m
         = np_add (Owned.operating_costs m) (Owned.depreciation m).
Proof.
  intros Ho Eo Hp Ep Hn En Hi Ei Hy Ey Hnumpy Hfixed Hvar.
  unfold calculate_owned_property_metrics.
  rewrite (resolve_arguments_number _ _ _ _ _ _ _ _ _ _ _ Ho Eo Hp Ep Hn En),
    bind_Ok.
  use_fixed_cost Hfixed "operations_fixed".
  use_fixed_cost Hfixed "utilities_fixed".
  use_fixed_cost Hfixed "insurance".
  destruct (calculate_variable_costs_valid self (effective occupancy_rate o)
              "owned" (effective num_properties n) Hvar) as [v ->].
  rewrite bind_Ok, (getitem_Some _ _ _ Hi), bind_Ok, Ei, bind_Ok,
    (getitem_Some _ _ _ Hy), bind_Ok, Ey, bind_Ok.
  destruct (Qeq_bool y 0) eqn:E.
  - apply Qeq_bool_iff in E. rewrite (Hnumpy E), !orb_true_r.
    rewrite (np_div_numpy_zero _ _ E), bind_Ok.
    simpl (Ok _ ≫= as_num). rewrite Ei, bind_Ok.
    eexists. split; [reflexivity |]. split; reflexivity.
  - assert (Hy0 : ¬ y == 0)
      by (intros Hz; apply Qeq_bool_iff in Hz; congruence).
    rewrite (np_div_Ok _ _ _ Hy0), bind_Ok.
    simpl (Ok _ ≫= as_num). rewrite Ei, bind_Ok.
    eexists. split; [reflexivity |]. split; reflexivity.
Qed.

Lemma owned_metrics_valid (self : FujimBusinessModel)
    (occupancy_rate price_per_night num_properties : pyval) :
  valid_model self →
  ∃ m, calculate_owned_property_metrics self occupancy_rate price_per_night
         num_properties = Ok m.
Proof.
  intros [[o Ho] [p Hp] [n Hn] _ [i Hi] _ (y & Hy & Hy0) Hfixed _ Hvar _].
  destruct (owned_metrics_number self occupancy_rate price_per_night
              num_properties _ _ _ _ _ _ _ _ _ _
              Ho eq_refl Hp eq_refl Hn eq_refl Hi eq_refl Hy eq_refl)
    as (m & Hm & _); try assumption; [contradiction | eauto].
Qed.

(** The rental class reads neither [owned_initial_investment] nor
    [depreciation_years], and divides only behind a comparison. *)
Lemma rental_metrics_number (self : FujimBusinessModel)
    (occupancy_rate price_per_night num_properties : pyval)
    (vo vp vn vi : pyval) (o p n i : Q) :
  params self !! "base_occupancy_rate" = Some vo → as_num vo = Ok o →
  params self !! "average_price_per_night" = Some vp → as_num vp = Ok p →
  params self !! "rental_properties" = Some vn → as_num vn = Ok n →
  params self !! "rental_initial_investment" = Some vi → as_num vi = Ok i →
  has_costs (fixed_costs self) "rental"
    ["rent"; "operations_fixed"; "utilities_fixed"; "insurance"] →
  is_Some (variable_costs self !! "rental") →
  ∃ m, calculate_rental_property_metrics self occupancy_rate price_per_night
         num_properties = Ok m.
Proof.
  intros Ho Eo Hp Ep Hn En Hi Ei Hfixed Hvar.
  unfold calculate_rental_property_metrics.
  rewrite (resolve_arguments_number _ _ _ _ _ _ _ _ _ _ _ Ho Eo Hp Ep Hn En),
    bind_Ok.
  use_fixed_cost Hfixed "rent".
  use_fixed_cost Hfixed "operations_fixed".
  use_fixed_cost Hfixed "utilities_fixed".
  use_fixed_cost Hfixed "insurance".
  destruct (calculate_variable_costs_valid self (effective occupancy_rate o)
              "rental" (effective num_properties n) Hvar) as [v ->].
  rewrite bind_Ok, (getitem_Some _ _ _ Hi).
  simpl (Ok _ ≫= as_num). rewrite Ei, bind_Ok.
  eexists. reflexivity.
Qed.

Lemma rental_metrics_valid (self : FujimBusinessModel)
    (occupancy_rate price_per_night num_properties : pyval) :
  valid_model self →
  ∃ m, calculate_rental_property_metrics self occupancy_rate price_per_night
         num_properties = Ok m.
Proof.
  intros [[o Ho] [p Hp] _ [n Hn] _ [i Hi] _ _ Hfixed _ Hvar].
  apply (rental_metrics_number self occupancy_rate price_per_night
           num_properties _ _ _ _ _ _ _ _
           Ho eq_refl Hp eq_refl Hn eq_refl Hi eq_refl Hfixed Hvar).
Qed.

Lemma total_metrics_valid (self : FujimBusinessModel)
    (occupancy_rate price_per_night : pyval) :
  valid_model self →
  ∃ t, calculate_total_metrics self occupancy_rate price_per_night = Ok t.
Proof.
  intros Hvalid. unfold calculate_total_metrics.
  destruct (owned_metrics_valid self occupancy_rate price_per_night PyNone Hvalid)
    as [mo ->].
  destruct (rental_metrics_valid self occupancy_rate price_per_night PyNone Hvalid)
    as [mr ->].
  rewrite !bind_Ok. eexists. reflexivity.
Qed.

Lemma total_metrics_fields (self : FujimBusinessModel)
    (occupancy_rate price_per_night : pyval) (t : Total.metrics) :
  calculate_total_metrics self occupancy_rate price_per_night = Ok t →
  calculate_owned_property_metrics self occupancy_rate price_per_night PyNone
    = Ok (Total.owned_metrics t)
  ∧ calculate_rental_property_metrics self occupancy_rate price_per_night PyNone
    = Ok (Total.rental_metrics t)
  ∧ Total.total_revenue t
    = Owned.annual_revenue (Total.owned_metrics t)
      + Rental.annual_revenue (Total.rental_metrics t)
  ∧ Total.total_profit t
    = Owned.noi (Total.owned_metrics t)
      + Rental.operating_profit (Total.rental_metrics t)
  ∧ Total.total_investment t
    = Owned.total_investment (Total.owned_metrics t)
      + Rental.total_investment (Total.rental_metrics t)
  ∧ Total.overall_payback t
    = payback_of (Total.total_investment t) (Total.total_profit t)
  ∧ Total.overall_roi t
    = roi_of (Total.total_profit t) (Total.total_investment t).
Proof.
  intros H. unfold calculate_total_metrics in H.
  run_in H. subst t. simpl. repeat split; assumption.
Qed.

Lemma init_valid : valid_model init.
Proof.
  split; try (eexists; reflexivity).
  - exists 7. split; [reflexivity | discriminate].
  - eexists. split; [reflexivity |].
    repeat constructor; eexists; reflexivity.
  - eexists. split; [reflexivity |].
    repeat constructor; eexists; reflexivity.
Qed.

(** ** Closed forms of the per-class results *)

Lemma stored_number (self : FujimBusinessModel) (key : string) :
  has_number (params self) key →
  params self !! key = Some (PyNum (stored self key)).
Proof. intros [q Hq]. unfold stored. rewrite Hq. reflexivity. Qed.

Lemma fixed_entry_Ok (self : FujimBusinessModel) (property_type : string)
    (cost_types : list string) (c : string) :
  has_costs (fixed_costs self) property_type cost_types → c ∈ cost_types →
  fixed_cost self property_type c = Ok (fixed_entry self property_type c).
Proof.
  intros H Hc. destruct (fixed_cost_valid _ _ _ c H Hc) as [q E].
  unfold fixed_entry. rewrite E. reflexivity.
Qed.

Lemma variable_costs_baseline (self : FujimBusinessModel) (r : Q)
    (property_type : string) (n : Q) :
  is_Some (variable_costs self !! property_type) →
  ∃ v, calculate_variable_costs self r property_type n = Ok v
       ∧ v == baseline_per_unit self property_type * (r / 0.33) * n.
Proof.
  intros [d Hd]. rewrite (calculate_variable_costs_Some _ _ _ _ _ Hd).
  eexists. split; [reflexivity |].
  unfold baseline_per_unit. rewrite Hd, accumulate_costs_sum.
  rewrite (Qsum_scale (r / 0.33) (λ b, b * (r / 0.33)) (λ b, b)).
  - ring.
  - intros x. ring.
Qed.

Ltac read_fixed_cost H c :=
  rewrite (fixed_entry_Ok _ _ _ c H ltac:(rewrite !elem_of_cons; auto 10)), bind_Ok.

Lemma owned_metrics_closed_form (self : FujimBusinessModel)
    (occupancy_rate price_per_night num_properties : pyval) :
  valid_model self →
  let r := effective occupancy_rate (stored self "base_occupancy_rate") in
  let p := effective price_per_night (stored self "average_price_per_night") in
  let n := effective num_properties (stored self "owned_properties") in
  ∃ m,
    calculate_owned_property_metrics self occupancy_rate price_per_night
      num_properties = Ok m
    ∧ Owned.annual_revenue m == r * p * 365 * n
    ∧ Owned.variable_costs m == baseline_per_unit self "owned" * (r / 0.33) * n
    ∧ Owned.operating_costs m
      == owned_fixed_per_unit self * n + Owned.variable_costs m
    ∧ Owned.noi m == Owned.annual_revenue m - Owned.operating_costs m
    ∧ Owned.total_investment m == stored self "owned_initial_investment" * n
    ∧ ∃ d, Owned.depreciation m = Number d
           ∧ d == Owned.total_investment m / stored self "depreciation_years"
           ∧ Owned.total_costs m = Number (Owned.operating_costs m + d).
Proof.
  intros [Ho Hp Hn _ Hi _ Hyears Hfixed _ Hvar _] r p n.
  assert (Hy : params self !! "depreciation_years"
               = Some (PyNum (stored self "depreciation_years"))
               ∧ ¬ stored self "depreciation_years" == 0).
  { destruct Hyears as (y & Hy & Hy0). unfold stored. rewrite Hy. auto. }
  destruct Hy as [Hy Hy0].
  apply stored_number in Ho, Hp, Hn, Hi.
  unfold calculate_owned_property_metrics.
  rewrite (resolve_arguments_stored _ _ _ _ _ _ _ _ Ho Hp Hn), bind_Ok.
  fold r p n.
  read_fixed_cost Hfixed "operations_fixed".
  read_fixed_cost Hfixed "utilities_fixed".
  read_fixed_cost Hfixed "insurance".
  destruct (variable_costs_baseline self r "owned" n Hvar) as (v & -> & Hv).
  rewrite bind_Ok, (getitem_Some _ _ _ Hi), (getitem_Some _ _ _ Hy).
  repeat first [rewrite bind_Ok | progress simpl as_num].
  rewrite (np_div_Ok _ _ _ Hy0), bind_Ok.
  simpl (Ok _ ≫= as_num). rewrite bind_Ok.
  eexists. split; [reflexivity |]. simpl.
  unfold owned_fixed_per_unit, calculate_annual_revenue.
  do 5 (split; [first [reflexivity | exact Hv | ring] |]).
  eexists. split; [reflexivity |]. split; reflexivity.
Qed.

Lemma rental_metrics_closed_form (self : FujimBusinessModel)
    (occupancy_rate price_per_night num_properties : pyval) :
  valid_model self →
  let r := effective occupancy_rate (stored self "base_occupancy_rate") in
  let p := effective price_per_night (stored self "average_price_per_night") in
  let n := effective num_properties (stored self "rental_properties") in
  ∃ m,
    calculate_rental_property_metrics self occupancy_rate price_per_night
      num_properties = Ok m
    ∧ Rental.annual_revenue m == r * p * 365 * n
    ∧ Rental.variable_costs m == baseline_per_unit self "rental" * (r / 0.33) * n
    ∧ Rental.fixed_costs m == rental_fixed_per_unit self * n
    ∧ Rental.total_costs m == Rental.fixed_costs m + Rental.variable_costs m
    ∧ Rental.operating_profit m == Rental.annual_revenue m - Rental.total_costs m
    ∧ Rental.total_investment m == stored self "rental_initial_investment" * n.
Proof.
  intros [Ho Hp _ Hn _ Hi _ _ Hfixed _ Hvar] r p n.
  apply stored_number in Ho, Hp, Hn, Hi.
  unfold calculate_rental_property_metrics.
  rewrite (resolve_arguments_stored _ _ _ _ _ _ _ _ Ho Hp Hn), bind_Ok.
  fold r p n.
  read_fixed_cost Hfixed "rent".
  read_fixed_cost Hfixed "operations_fixed".
  read_fixed_cost Hfixed "utilities_fixed".
  read_fixed_cost Hfixed "insurance".
  destruct (variable_costs_baseline self r "rental" n Hvar) as (v & -> & Hv).
  rewrite bind_Ok, (getitem_Some _ _ _ Hi).
  simpl (Ok _ ≫= as_num). rewrite !bind_Ok.
  eexists. split; [reflexivity |]. simpl.
  unfold rental_fixed_per_unit, calculate_annual_revenue.
  repeat split; try reflexivity; try exact Hv; ring.
Qed.

Lemma total_metrics_closed_form (self : FujimBusinessModel)
    (occupancy_rate price_per_night : pyval) :
  valid_model self →
  let r := effective occupancy_rate (stored self "base_occupancy_rate") in
  let p := effective price_per_night (stored self "average_price_per_night") in
  let n_owned := stored self "owned_properties" in
  let n_rental := stored self "rental_properties" in
  ∃ t,
    calculate_total_metrics self occupancy_rate price_per_night = Ok t
    ∧ Total.total_revenue t == r * p * 365 * (n_owned + n_rental)
    ∧ Total.total_profit t
      == r * p * 365 * (n_owned + n_rental)
         - (owned_fixed_per_unit self * n_owned
            + rental_fixed_per_unit self * n_rental)
         - (baseline_per_unit self "owned" * n_owned
            + baseline_per_unit self "rental" * n_rental) * (r / 0.33)
    ∧ Total.total_investment t
      == stored self "owned_initial_investment" * n_owned
         + stored self "rental_initial_investment" * n_rental.
Proof.
  intros Hvalid r p n_owned n_rental.
  destruct (total_metrics_valid self occupancy_rate price_per_night Hvalid)
    as [t Ht].
  destruct (total_metrics_fields _ _ _ _ Ht)
    as (Howned & Hrental & Erev & Eprofit & Einv & _).
  destruct (owned_metrics_closed_form self occupancy_rate price_per_night PyNone
              Hvalid) as (mo & Emo & Ho1 & Ho2 & Ho3 & Ho4 & Ho5 & _).
  destruct (rental_metrics_closed_form self occupancy_rate price_per_night PyNone
              Hvalid) as (mr & Emr & Hr1 & Hr2 & Hr3 & Hr4 & Hr5 & Hr6).
  rewrite Howned in Emo. injection Emo as <-.
  rewrite Hrental in Emr. injection Emr as <-.
  simpl effective in *. fold r p n_owned n_rental in Ho1, Ho2, Ho3, Ho5, Hr1, Hr2, Hr3, Hr6.
  exists t. split; [exact Ht |].
  rewrite Erev, Eprofit, Einv.
  split; [rewrite Ho1, Hr1; ring |].
  split; [| rewrite Ho5, Hr6; ring].
  rewrite Ho4, Hr5, Hr4, Ho3, Hr3, Ho2, Hr2, Ho1, Hr1. field.
Qed.

(** ** The two guarded quotients respect equality of fractions *)

Lemma roi_of_proper (income income' investment investment' : Q) :
  income == income' → investment == investment' →
  roi_of income investment == roi_of income' investment'.
Proof.
  intros Hi Ht. unfold roi_of.
  destruct (Qlt_le_dec 0 investment) as [H|H],
           (Qlt_le_dec 0 investment') as [H'|H'].
  - rewrite Hi, Ht. reflexivity.
  - rewrite Ht in H. exfalso. exact (Qlt_not_le _ _ H H').
  - rewrite Ht in H. exfalso. exact (Qlt_not_le _ _ H' H).
  - reflexivity.
Qed.

Lemma payback_of_proper (investment investment' income income' : Q) :
  investment == investment' → income == income' →
  pyfloat_eq (payback_of investment income) (payback_of investment' income').
Proof.
  intros Ht Hi. unfold payback_of.
  destruct (Qlt_le_dec 0 income) as [H|H],
           (Qlt_le_dec 0 income') as [H'|H']; simpl.
  - rewrite Hi, Ht. reflexivity.
  - rewrite Hi in H. exact (Qlt_not_le _ _ H H').
  - rewrite Hi in H. exact (Qlt_not_le _ _ H' H).
  - exact I.
Qed.

Lemma roi_of_scale (income investment n : Q) :
  0 < n → roi_of (income * n) (investment * n) == roi_of income investment.
Proof.
  intros Hn. unfold roi_of.
  destruct (Qlt_le_dec 0 (investment * n)) as [H|H],
           (Qlt_le_dec 0 investment) as [H'|H'].
  - field. split; intros Hz; lra.
  - exfalso. apply (Qlt_not_le _ _ H). nra.
  - exfalso. apply (Qlt_not_le 0 (investment * n)); [nra | exact H].
  - reflexivity.
Qed.

Lemma payback_of_scale (investment income n : Q) :
  0 < n →
  pyfloat_eq (payback_of (investment * n) (income * n))
    (payback_of investment income).
Proof.
  intros Hn. unfold payback_of.
  destruct (Qlt_le_dec 0 (income * n)) as [H|H],
           (Qlt_le_dec 0 income) as [H'|H']; simpl.
  - field. split; intros Hz; lra.
  - apply (Qlt_not_le _ _ H). nra.
  - apply (Qlt_not_le 0 (income * n)); [nra | exact H].
  - exact I.
Qed.

Lemma effective_given (q stored : Q) : ¬ q == 0 → effective (PyNum q) stored = q.
Proof.
  intros Hq. unfold effective.
  destruct (Qeq_bool q 0) eqn:E; [| reflexivity].
  apply Qeq_bool_iff in E. contradiction.
Qed.

(** ** C1: annual revenue *)

(** C1. For every occupancy rate, nightly price and property count,
    [calculate_annual_revenue] is occupancy x price x 365 x count, and for
    both property classes the [annual_revenue] returned for arguments that
    are given (not zero, which C10 treats) is that product: the year has
    365 days and nothing else enters the revenue. *)
Theorem annual_revenue_formula (occupancy_rate price_per_night num_properties : Q) :
  calculate_annual_revenue occupancy_rate price_per_night num_properties
  == occupancy_rate * price_per_night * 365 * num_properties
  ∧ ∀ self : FujimBusinessModel,
      valid_model self →
      ¬ occupancy_rate == 0 → ¬ price_per_night == 0 → ¬ num_properties == 0 →
      ∃ owned rental,
        calculate_owned_property_metrics self (PyNum occupancy_rate)
          (PyNum price_per_night) (PyNum num_properties) = Ok owned
        ∧ calculate_rental_property_metrics self (PyNum occupancy_rate)
            (PyNum price_per_night) (PyNum num_properties) = Ok rental
        ∧ Owned.annual_revenue owned
          == occupancy_rate * price_per_night * 365 * num_properties
        ∧ Rental.annual_revenue rental
          == occupancy_rate * price_per_night * 365 * num_properties.
Proof.
  split; [reflexivity |].
  intros self Hvalid Ho Hp Hn.
  destruct (owned_metrics_valid self (PyNum occupancy_rate) (PyNum price_per_night)
              (PyNum num_properties) Hvalid) as [owned Howned].
  destruct (rental_metrics_valid self (PyNum occupancy_rate) (PyNum price_per_night)
              (PyNum num_properties) Hvalid) as [rental Hrental].
  exists owned, rental. split; [assumption |]. split; [assumption |].
  destruct (owned_metrics_fields _ _ _ _ _ Howned) as (o & p & n & Hres & -> & _).
  destruct (rental_metrics_fields _ _ _ _ _ Hrental) as (o' & p' & n' & Hres' & -> & _).
  rewrite resolve_arguments_given in Hres, Hres' by assumption.
  injection Hres as <- <- <-. injection Hres' as <- <- <-.
  split; reflexivity.
Qed.

Lemma annual_revenue_formula_witness :
  ∃ owned rental,
    calculate_owned_property_metrics init (PyNum 0.5) (PyNum 30000) (PyNum 10)
      = Ok owned
    ∧ calculate_rental_property_metrics init (PyNum 0.5) (PyNum 30000) (PyNum 10)
      = Ok rental
    ∧ Owned.annual_revenue owned == 0.5 * 30000 * 365 * 10
    ∧ Rental.annual_revenue rental == 0.5 * 30000 * 365 * 10.
Proof.
  apply (annual_revenue_formula 0.5 30000 10); [apply init_valid | | |]; discriminate.
Defined.

(** ** C2: variable costs scale linearly with occupancy *)

(** C2. For a class that has a variable-cost schedule, the variable cost at
    occupancy [r] is the property count times the sum over the cost items of
    baseline x r / 0.33, with no floor and no cap; hence the cost at [2 r]
    is twice the cost at [r] (for every [r], so also for those in the valid
    domain), and the cost at occupancy 0 is 0. *)
Theorem variable_costs_linear (self : FujimBusinessModel)
    (property_type : string) (schedule : gmap string Q) (r num_properties : Q) :
  variable_costs self !! property_type = Some schedule →
  ∃ at_r at_2r at_0,
    calculate_variable_costs self r property_type num_properties = Ok at_r
    ∧ calculate_variable_costs self (2 * r) property_type num_properties = Ok at_2r
    ∧ calculate_variable_costs self 0 property_type num_properties = Ok at_0
    ∧ at_r == num_properties
              * Qsum ((λ item, item.2 * r / 0.33) <$> map_to_list schedule)
    ∧ at_2r == 2 * at_r
    ∧ at_0 == 0.
Proof.
  intros Hschedule.
  rewrite !(calculate_variable_costs_Some _ _ _ _ _ Hschedule).
  do 3 eexists. do 3 (split; [reflexivity |]).
  rewrite !accumulate_costs_sum.
  set (items := map_to_list schedule).
  assert (Hr : Qsum ((λ item, item.2 * (r / 0.33)) <$> items)
               == Qsum ((λ item, item.2 * r / 0.33) <$> items)).
  { rewrite (Qsum_scale 1 (λ b, b * (r / 0.33)) (λ b, b * r / 0.33)).
    - ring.
    - intros x. field. }
  assert (H2 : Qsum ((λ item, item.2 * (2 * r / 0.33)) <$> items)
               == 2 * Qsum ((λ item, item.2 * (r / 0.33)) <$> items)).
  { apply (Qsum_scale 2 (λ b, b * (2 * r / 0.33)) (λ b, b * (r / 0.33))).
    intros x. field. }
  assert (H0 : Qsum ((λ item, item.2 * (0 / 0.33)) <$> items)
               == 0 * Qsum ((λ item, item.2) <$> items)).
  { apply (Qsum_scale 0 (λ b, b * (0 / 0.33)) (λ b, b)).
    intros x. field. }
  split; [rewrite <- Hr; ring |].
  split; [rewrite H2; ring |].
  rewrite H0; ring.
Qed.

Lemma variable_costs_linear_witness :
  ∃ at_r at_2r at_0,
    calculate_variable_costs init 0.25 "rental" 15 = Ok at_r
    ∧ calculate_variable_costs init (2 * 0.25) "rental" 15 = Ok at_2r
    ∧ calculate_variable_costs init 0 "rental" 15 = Ok at_0
    ∧ at_r == 15 * Qsum ((λ item, item.2 * 0.25 / 0.33)
                         <$> map_to_list (variable_costs init !!! "rental"))
    ∧ at_2r == 2 * at_r
    ∧ at_0 == 0.
Proof.
  apply (variable_costs_linear init "rental" (variable_costs init !!! "rental")
           0.25 15).
  reflexivity.
Defined.

(** ** C3, C9: payback period and ROI *)

Lemma payback_of_positive (total_investment income : Q) :
  0 < income → payback_of total_investment income = Finite (total_investment / income).
Proof.
  intros H. unfold payback_of.
  destruct (Qlt_le_dec 0 income) as [_|Hle]; [reflexivity |].
  exfalso. exact (Qlt_not_le _ _ H Hle).
Qed.

Lemma payback_of_unbounded (total_investment income : Q) :
  income <= 0 → payback_of total_investment income = PosInf.
Proof.
  intros H. unfold payback_of.
  destruct (Qlt_le_dec 0 income) as [Hlt|_]; [| reflexivity].
  exfalso. exact (Qlt_not_le _ _ Hlt H).
Qed.

Lemma roi_of_positive (income total_investment : Q) :
  0 < total_investment →
  roi_of income total_investment = (income / total_investment) * 100.
Proof.
  intros H. unfold roi_of.
  destruct (Qlt_le_dec 0 total_investment) as [_|Hle]; [reflexivity |].
  exfalso. exact (Qlt_not_le _ _ H Hle).
Qed.

Lemma roi_of_zero (income total_investment : Q) :
  total_investment <= 0 → roi_of income total_investment = 0.
Proof.
  intros H. unfold roi_of.
  destruct (Qlt_le_dec 0 total_investment) as [Hlt|_]; [| reflexivity].
  exfalso. exact (Qlt_not_le _ _ Hlt H).
Qed.

(** C3. Whenever a per-class evaluation (owned or rental) or the portfolio
    evaluation returns, its payback period is total investment / operating
    income if the operating income is positive, and the unbounded sentinel
    [float('inf')] if the operating income is zero or negative, so a
    negative income never gives a negative or finite payback; and a valid
    model makes all three evaluations return. *)
Theorem payback_period_rule (self : FujimBusinessModel)
    (occupancy_rate price_per_night num_properties : pyval) :
  (∀ m, calculate_owned_property_metrics self occupancy_rate price_per_night
          num_properties = Ok m →
        (0 < Owned.noi m →
         Owned.payback_period m = Finite (Owned.total_investment m / Owned.noi m))
        ∧ (Owned.noi m <= 0 → Owned.payback_period m = PosInf))
  ∧ (∀ m, calculate_rental_property_metrics self occupancy_rate price_per_night
            num_properties = Ok m →
          (0 < Rental.operating_profit m →
           Rental.payback_period m
           = Finite (Rental.total_investment m / Rental.operating_profit m))
          ∧ (Rental.operating_profit m <= 0 → Rental.payback_period m = PosInf))
  ∧ (∀ t, calculate_total_metrics self occupancy_rate price_per_night = Ok t →
          (0 < Total.total_profit t →
           Total.overall_payback t
           = Finite (Total.total_investment t / Total.total_profit t))
          ∧ (Total.total_profit t <= 0 → Total.overall_payback t = PosInf))
  ∧ (valid_model self →
     (∃ m, calculate_owned_property_metrics self occupancy_rate price_per_night
             num_properties = Ok m)
     ∧ (∃ m, calculate_rental_property_metrics self occupancy_rate price_per_night
               num_properties = Ok m)
     ∧ (∃ t, calculate_total_metrics self occupancy_rate price_per_night = Ok t)).
Proof.
  repeat apply conj.
  - intros m H.
    destruct (owned_metrics_fields _ _ _ _ _ H) as (_ & _ & _ & _ & _ & _ & -> & _).
    split; [apply payback_of_positive | apply payback_of_unbounded].
  - intros m H.
    destruct (rental_metrics_fields _ _ _ _ _ H) as (_ & _ & _ & _ & _ & _ & -> & _).
    split; [apply payback_of_positive | apply payback_of_unbounded].
  - intros t H.
    destruct (total_metrics_fields _ _ _ _ H) as (_ & _ & _ & _ & _ & -> & _).
    split; [apply payback_of_positive | apply payback_of_unbounded].
  - intros Hvalid. split; [| split].
    + apply owned_metrics_valid, Hvalid.
    + apply rental_metrics_valid, Hvalid.
    + apply total_metrics_valid, Hvalid.
Qed.

(** C9. Whenever a per-class evaluation or the portfolio evaluation
    returns, its ROI is 0 if the total investment is zero (the guard of
    the code is [total_investment > 0], so no division by zero takes place
    and the result is neither NaN nor infinite), and (operating income /
    total investment) x 100 if the total investment is positive.  A valid
    model makes all three evaluations return, and with a non-negative
    investment per unit and a non-negative property count the total
    investment is not negative, so that zero and positive are the two
    cases there are. *)
Theorem roi_rule (self : FujimBusinessModel)
    (occupancy_rate price_per_night num_properties : pyval) :
  (∀ m, calculate_owned_property_metrics self occupancy_rate price_per_night
          num_properties = Ok m →
        (0 < Owned.total_investment m →
         Owned.roi m = (Owned.noi m / Owned.total_investment m) * 100)
        ∧ (Owned.total_investment m <= 0 → Owned.roi m = 0))
  ∧ (∀ m, calculate_rental_property_metrics self occupancy_rate price_per_night
            num_properties = Ok m →
          (0 < Rental.total_investment m →
           Rental.roi m
           = (Rental.operating_profit m / Rental.total_investment m) * 100)
          ∧ (Rental.total_investment m <= 0 → Rental.roi m = 0))
  ∧ (∀ t, calculate_total_metrics self occupancy_rate price_per_night = Ok t →
          (0 < Total.total_investment t →
           Total.overall_roi t
           = (Total.total_profit t / Total.total_investment t) * 100)
          ∧ (Total.total_investment t <= 0 → Total.overall_roi t = 0))
  ∧ (valid_model self →
     (∃ m, calculate_owned_property_metrics self occupancy_rate price_per_night
             num_properties = Ok m
           ∧ (0 <= stored self "owned_initial_investment" →
              0 <= effective num_properties (stored self "owned_properties") →
              0 <= Owned.total_investment m))
     ∧ (∃ m, calculate_rental_property_metrics self occupancy_rate price_per_night
               num_properties = Ok m
             ∧ (0 <= stored self "rental_initial_investment" →
                0 <= effective num_properties (stored self "rental_properties") →
                0 <= Rental.total_investment m))
     ∧ (∃ t, calculate_total_metrics self occupancy_rate price_per_night = Ok t
             ∧ (0 <= stored self "owned_initial_investment" →
                0 <= stored self "rental_initial_investment" →
                0 <= stored self "owned_properties" →
                0 <= stored self "rental_properties" →
                0 <= Total.total_investment t))).
Proof.
  repeat apply conj.
  - intros m H.
    destruct (owned_metrics_fields _ _ _ _ _ H) as (_ & _ & _ & _ & _ & _ & _ & ->).
    split; [apply roi_of_positive | apply roi_of_zero].
  - intros m H.
    destruct (rental_metrics_fields _ _ _ _ _ H) as (_ & _ & _ & _ & _ & _ & _ & ->).
    split; [apply roi_of_positive | apply roi_of_zero].
  - intros t H.
    destruct (total_metrics_fields _ _ _ _ H) as (_ & _ & _ & _ & _ & _ & ->).
    split; [apply roi_of_positive | apply roi_of_zero].
  - intros Hvalid. split; [| split].
    + destruct (owned_metrics_closed_form self occupancy_rate price_per_night
                  num_properties Hvalid) as (m & Hm & _ & _ & _ & _ & Hinv & _).
      exists m. split; [exact Hm |]. intros Hi Hn. rewrite Hinv.
      apply Qmult_le_0_compat; assumption.
    + destruct (rental_metrics_closed_form self occupancy_rate price_per_night
                  num_properties Hvalid) as (m & Hm & _ & _ & _ & _ & _ & Hinv).
      exists m. split; [exact Hm |]. intros Hi Hn. rewrite Hinv.
      apply Qmult_le_0_compat; assumption.
    + destruct (total_metrics_closed_form self occupancy_rate price_per_night
                  Hvalid) as (t & Ht & _ & _ & Hinv).
      exists t. split; [exact Ht |]. intros Hio Hir Hno Hnr. rewrite Hinv.
      assert (0 <= stored self "owned_initial_investment"
                   * stored self "owned_properties")
        by (apply Qmult_le_0_compat; assumption).
      assert (0 <= stored self "rental_initial_investment"
                   * stored self "rental_properties")
        by (apply Qmult_le_0_compat; assumption).
      lra.
Qed.

Lemma payback_period_rule_witness :
  ∃ t, calculate_total_metrics init (PyNum 0.05) PyNone = Ok t
       ∧ Total.total_profit t <= 0
       ∧ Total.overall_payback t = PosInf.
Proof.
  eexists. split; [vm_compute; reflexivity |].
  assert (H : ∀ a b : Q, (a ?= b) = Lt → a <= b)
    by (intros a b Hab; apply Qlt_le_weak, Qlt_alt, Hab).
  split; [apply H; vm_compute; reflexivity |].
  refine (proj2 (proj1 (proj2 (proj2
            (payback_period_rule init (PyNum 0.05) PyNone PyNone))) _ _) _).
  - vm_compute; reflexivity.
  - apply H; vm_compute; reflexivity.
Defined.

(** The model [init] with the investment per owned unit set to zero, and
    [init] itself, whose total investment is positive. *)
Lemma roi_rule_witness :
  (∃ m, calculate_owned_property_metrics
          (set_params init (<["owned_initial_investment" := PyNum 0]> (params init)))
          PyNone PyNone PyNone = Ok m
        ∧ Owned.total_investment m <= 0
        ∧ Owned.roi m = 0)
  ∧ (∃ t, calculate_total_metrics init PyNone PyNone = Ok t
          ∧ 0 < Total.total_investment t
          ∧ Total.overall_roi t
            = (Total.total_profit t / Total.total_investment t) * 100
          ∧ Total.total_profit t == 48563850
          ∧ Total.total_investment t == 366000000).
Proof.
  assert (Hle : ∀ a b : Q, (a ?= b) = Eq → a <= b)
    by (intros a b Hab; apply Qle_lteq; right; apply Qeq_alt, Hab).
  assert (Hlt : ∀ a b : Q, (a ?= b) = Lt → a < b)
    by (intros a b Hab; apply Qlt_alt, Hab).
  split.
  - eexists. split; [vm_compute; reflexivity |].
    split; [apply Hle; vm_compute; reflexivity |].
    refine (proj2 (proj1 (roi_rule
              (set_params init
                 (<["owned_initial_investment" := PyNum 0]> (params init)))
              PyNone PyNone PyNone) _ _) _).
    + vm_compute; reflexivity.
    + apply Hle; vm_compute; reflexivity.
  - eexists. split; [vm_compute; reflexivity |].
    split; [apply Hlt; vm_compute; reflexivity |].
    split; [| split; vm_compute; reflexivity].
    refine (proj1 (proj1 (proj2 (proj2
              (roi_rule init PyNone PyNone PyNone))) _ _) _).
    + vm_compute; reflexivity.
    + apply Hlt; vm_compute; reflexivity.
Defined.

(** ** C4: portfolio aggregation *)

(** C4. For every valid model the portfolio evaluation returns, and its
    totals are exactly the sums of the two class results: revenue, operating
    income (owned NOI plus rental operating profit) and investment.  The
    overall ROI and payback are the expressions [roi_of] and [payback_of]
    on the aggregate values, the same two expressions that give the ROI and
    payback of each class. *)
Theorem portfolio_aggregation (self : FujimBusinessModel)
    (occupancy_rate price_per_night : pyval) :
  valid_model self →
  ∃ t owned rental,
    calculate_total_metrics self occupancy_rate price_per_night = Ok t
    ∧ calculate_owned_property_metrics self occupancy_rate price_per_night PyNone
      = Ok owned
    ∧ calculate_rental_property_metrics self occupancy_rate price_per_night PyNone
      = Ok rental
    ∧ Total.owned_metrics t = owned
    ∧ Total.rental_metrics t = rental
    ∧ Total.total_revenue t
      = Owned.annual_revenue owned + Rental.annual_revenue rental
    ∧ Total.total_profit t = Owned.noi owned + Rental.operating_profit rental
    ∧ Total.total_investment t
      = Owned.total_investment owned + Rental.total_investment rental
    ∧ Total.overall_roi t
      = roi_of (Total.total_profit t) (Total.total_investment t)
    ∧ Owned.roi owned = roi_of (Owned.noi owned) (Owned.total_investment owned)
    ∧ Rental.roi rental
      = roi_of (Rental.operating_profit rental) (Rental.total_investment rental)
    ∧ Total.overall_payback t
      = payback_of (Total.total_investment t) (Total.total_profit t)
    ∧ Owned.payback_period owned
      = payback_of (Owned.total_investment owned) (Owned.noi owned)
    ∧ Rental.payback_period rental
      = payback_of (Rental.total_investment rental)
          (Rental.operating_profit rental).
Proof.
  intros Hvalid.
  destruct (total_metrics_valid self occupancy_rate price_per_night Hvalid)
    as [t Ht].
  destruct (total_metrics_fields _ _ _ _ Ht)
    as (Howned & Hrental & Hrev & Hprofit & Hinv & Hpay & Hroi).
  destruct (owned_metrics_fields _ _ _ _ _ Howned)
    as (_ & _ & _ & _ & _ & _ & Hopay & Horoi).
  destruct (rental_metrics_fields _ _ _ _ _ Hrental)
    as (_ & _ & _ & _ & _ & _ & Hrpay & Hrroi).
  exists t, (Total.owned_metrics t), (Total.rental_metrics t).
  repeat split; assumption.
Qed.

Lemma portfolio_aggregation_witness :
  ∃ t owned rental,
    calculate_total_metrics init (PyNum 0.5) (PyNum 30000) = Ok t
    ∧ calculate_owned_property_metrics init (PyNum 0.5) (PyNum 30000) PyNone
      = Ok owned
    ∧ calculate_rental_property_metrics init (PyNum 0.5) (PyNum 30000) PyNone
      = Ok rental
    ∧ Total.owned_metrics t = owned
    ∧ Total.rental_metrics t = rental
    ∧ Total.total_revenue t
      = Owned.annual_revenue owned + Rental.annual_revenue rental
    ∧ Total.total_profit t = Owned.noi owned + Rental.operating_profit rental
    ∧ Total.total_investment t
      = Owned.total_investment owned + Rental.total_investment rental
    ∧ Total.overall_roi t
      = roi_of (Total.total_profit t) (Total.total_investment t)
    ∧ Owned.roi owned = roi_of (Owned.noi owned) (Owned.total_investment owned)
    ∧ Rental.roi rental
      = roi_of (Rental.operating_profit rental) (Rental.total_investment rental)
    ∧ Total.overall_payback t
      = payback_of (Total.total_investment t) (Total.total_profit t)
    ∧ Owned.payback_period owned
      = payback_of (Owned.total_investment owned) (Owned.noi owned)
    ∧ Rental.payback_period rental
      = payback_of (Rental.total_investment rental)
          (Rental.operating_profit rental).
Proof.
  apply (portfolio_aggregation init (PyNum 0.5) (PyNum 30000)), init_valid.
Defined.

(** ** C5: break-even occupancy *)

Lemma total_fixed_costs_Some (self : FujimBusinessModel)
    (owned rental : gmap string Q) (oo ou oi rr ro ru ri n_owned n_rental : Q) :
  fixed_costs self !! "owned" = Some owned →
  fixed_costs self !! "rental" = Some rental →
  owned !! "operations_fixed" = Some oo →
  owned !! "utilities_fixed" = Some ou →
  owned !! "insurance" = Some oi →
  rental !! "rent" = Some rr →
  rental !! "operations_fixed" = Some ro →
  rental !! "utilities_fixed" = Some ru →
  rental !! "insurance" = Some ri →
  total_fixed_costs self n_owned n_rental
  = Ok ((oo + ou + oi) * n_owned + (rr + ro + ru + ri) * n_rental).
Proof.
  intros Ho Hr Hoo Hou Hoi Hrr Hro Hru Hri. unfold total_fixed_costs.
  rewrite (fixed_cost_Some _ _ _ _ _ Ho Hoo), (fixed_cost_Some _ _ _ _ _ Ho Hou),
    (fixed_cost_Some _ _ _ _ _ Ho Hoi), (fixed_cost_Some _ _ _ _ _ Hr Hrr),
    (fixed_cost_Some _ _ _ _ _ Hr Hro), (fixed_cost_Some _ _ _ _ _ Hr Hru),
    (fixed_cost_Some _ _ _ _ _ Hr Hri).
  reflexivity.
Qed.

Lemma breakeven_occupancy_Ok (total price properties : Q) :
  ¬ price * properties == 0 →
  ∃ percent,
    breakeven_occupancy total price properties = Ok percent
    ∧ percent / 100 == total / (price * properties * 365).
Proof.
  intros Hnz. unfold breakeven_occupancy.
  rewrite (py_div_Ok _ _ Hnz), bind_Ok.
  eexists. split; [reflexivity |].
  field. split; intros Hz; apply Hnz; rewrite Hz; ring.
Qed.

(** C5. With the seven fixed-cost entries of the two classes in the
    schedules, the break-even occupancy of the break-even tab, which the
    code expresses in percent, is as a rate total fixed costs / (price x
    total property count x 365), where the total fixed costs are the owned
    entries times the owned count plus the rental entries (rent included)
    times the rental count.  Neither depreciation nor a variable cost
    enters: a model with the same fixed-cost schedule and any other
    parameters and variable costs has the same break-even occupancy.  For
    15 + 15 properties at 25000 the report of
    [create_comprehensive_analysis] gives the same figure, total fixed
    costs / (25000 x 30 x 365). *)
Theorem breakeven_occupancy_formula (self : FujimBusinessModel)
    (owned rental : gmap string Q)
    (oo ou oi rr ro ru ri price_per_night n_owned n_rental : Q) :
  fixed_costs self !! "owned" = Some owned →
  fixed_costs self !! "rental" = Some rental →
  owned !! "operations_fixed" = Some oo →
  owned !! "utilities_fixed" = Some ou →
  owned !! "insurance" = Some oi →
  rental !! "rent" = Some rr →
  rental !! "operations_fixed" = Some ro →
  rental !! "utilities_fixed" = Some ru →
  rental !! "insurance" = Some ri →
  ¬ price_per_night * (n_owned + n_rental) == 0 →
  let total := (oo + ou + oi) * n_owned + (rr + ro + ru + ri) * n_rental in
  ∃ percent,
    total_fixed_costs self n_owned n_rental = Ok total
    ∧ breakeven_tab self price_per_night n_owned n_rental = Ok percent
    ∧ percent / 100 == total / (price_per_night * (n_owned + n_rental) * 365)
    ∧ (∀ other : FujimBusinessModel,
         fixed_costs other = fixed_costs self →
         breakeven_tab other price_per_night n_owned n_rental = Ok percent)
    ∧ (n_owned = 15 → n_rental = 15 → price_per_night = 25000 →
       ∃ reported,
         breakeven_report self = Ok reported
         ∧ reported / 100 == total / (25000 * 30 * 365)).
Proof.
  intros Ho Hr Hoo Hou Hoi Hrr Hro Hru Hri Hnz total.
  pose proof (total_fixed_costs_Some self owned rental oo ou oi rr ro ru ri
                n_owned n_rental Ho Hr Hoo Hou Hoi Hrr Hro Hru Hri) as Htotal.
  fold total in Htotal.
  destruct (breakeven_occupancy_Ok total price_per_night (n_owned + n_rental) Hnz)
    as (percent & Hpercent & Hrate).
  exists percent. split; [exact Htotal |].
  split; [unfold breakeven_tab; rewrite Htotal, bind_Ok; exact Hpercent |].
  split; [exact Hrate |].
  split.
  - intros other Hsame. unfold breakeven_tab.
    rewrite (total_fixed_costs_Some other owned rental oo ou oi rr ro ru ri
               n_owned n_rental) by (rewrite ?Hsame; assumption).
    fold total. rewrite bind_Ok. exact Hpercent.
  - intros -> -> ->. unfold breakeven_report.
    rewrite Htotal, bind_Ok.
    destruct (breakeven_occupancy_Ok total 25000 30) as (reported & Hrep & Hr30);
      [discriminate |].
    exists reported. split; [exact Hrep | exact Hr30].
Qed.

Lemma breakeven_occupancy_formula_witness :
  ∃ percent,
    total_fixed_costs init 15 15
    = Ok ((400000 + 80000 + 60000) * 15 + (840000 + 900000 + 60000 + 40000) * 15)
    ∧ breakeven_tab init 25000 15 15 = Ok percent
    ∧ percent / 100 == 35700000 / (25000 * 30 * 365).
Proof.
  destruct (breakeven_occupancy_formula init
              (fixed_costs init !!! "owned") (fixed_costs init !!! "rental")
              400000 80000 60000 840000 900000 60000 40000 25000 15 15)
    as (percent & Htotal & Htab & Hrate & _); try reflexivity; [discriminate |].
  exists percent. split; [exact Htotal |]. split; [exact Htab |].
  rewrite Hrate. reflexivity.
Defined.

(** ** The parameter dictionary across a sweep *)

Lemma set_params_same (self : FujimBusinessModel) : set_params self (params self) = self.
Proof. destruct self; reflexivity. Qed.

Lemma set_params_twice (self : FujimBusinessModel) (p p' : gmap string pyval) :
  set_params (set_params self p) p' = set_params self p'.
Proof. reflexivity. Qed.

Lemma has_number_insert (p : gmap string pyval) (key k : string) (v : Q) :
  has_number p k → has_number (<[key := PyNum v]> p) k.
Proof.
  intros [q Hq]. unfold has_number.
  destruct (decide (key = k)) as [->|Hne].
  - exists v. apply lookup_insert_eq.
  - exists q. rewrite lookup_insert_ne; assumption.
Qed.

(** Overwriting a parameter with a number keeps the model valid, as long as
    [depreciation_years] does not become zero. *)
Lemma valid_model_insert (self : FujimBusinessModel) (key : string) (v : Q) :
  valid_model self →
  (key = "depreciation_years" → ¬ v == 0) →
  valid_model (set_params self (<[key := PyNum v]> (params self))).
Proof.
  intros [Ho Hp Hn Hr Hi Hj (y & Hy & Hy0) Hfo Hfr Hvo Hvr] Hkey.
  split; simpl; try (apply has_number_insert; assumption); try assumption.
  destruct (decide (key = "depreciation_years")) as [->|Hne].
  - exists v. split; [apply lookup_insert_eq | auto].
  - exists y. split; [rewrite lookup_insert_ne; assumption | assumption].
Qed.

Lemma after_sweep_known (self : FujimBusinessModel) (param_name : string) :
  is_Some (params self !! param_name) → after_sweep self param_name = self.
Proof.
  intros [v Hv]. unfold after_sweep, params_get. rewrite Hv; simpl.
  rewrite (insert_id _ _ _ Hv). apply set_params_same.
Qed.

Lemma after_sweep_unknown (self : FujimBusinessModel) (param_name : string) :
  params self !! param_name = None →
  after_sweep self param_name
  = set_params self (<[param_name := PyNone]> (params self)).
Proof. intros Hv. unfold after_sweep, params_get. rewrite Hv. reflexivity. Qed.

Lemma after_sweep_twice (self : FujimBusinessModel) (param_name : string) :
  after_sweep (after_sweep self param_name) param_name = after_sweep self param_name.
Proof.
  unfold after_sweep, params_get, set_params; simpl.
  rewrite lookup_insert_eq; simpl.
  rewrite insert_insert_eq. reflexivity.
Qed.

Lemma after_sweep_valid (self : FujimBusinessModel) (param_name : string) :
  valid_model self → valid_model (after_sweep self param_name).
Proof.
  intros Hvalid.
  destruct (params self !! param_name) as [v|] eqn:Hv.
  - rewrite after_sweep_known; [assumption | eauto].
  - rewrite (after_sweep_unknown _ _ Hv).
    assert (Hkeep : ∀ k v', params self !! k = Some v' →
                    <[param_name := PyNone]> (params self) !! k = Some v').
    { intros k v' Hk. rewrite lookup_insert_ne; [assumption |].
      intros ->. congruence. }
    destruct Hvalid as [[o Ho] [p Hp] [n Hn] [r Hr] [i Hi] [j Hj] (y & Hy & Hy0)
                          Hfo Hfr Hvo Hvr].
    split; simpl; try assumption; try (eexists; apply Hkeep; eassumption).
    exists y. split; [apply Hkeep, Hy | assumption].
Qed.

Lemma swept_valid (self : FujimBusinessModel) (param_name : string) (values : list Q) :
  valid_model self → valid_model (swept self param_name values).
Proof.
  intros Hvalid. unfold swept.
  repeat case_decide; try assumption.
  destruct values; [assumption | apply after_sweep_valid, Hvalid].
Qed.

Lemma swept_cons (self : FujimBusinessModel) (param_name : string)
    (val : Q) (values : list Q) :
  swept (swept self param_name [val]) param_name values
  = swept self param_name (val :: values).
Proof.
  unfold swept. repeat case_decide; try reflexivity.
  destruct values; [reflexivity | apply after_sweep_twice].
Qed.

(** *** The rows of the data frame *)

Lemma make_row_metrics (param_name : string) (val : Q) (t : Total.metrics) :
  dict_get (make_row param_name val t) "total_profit"
  = Some (Finite (Total.total_profit t))
  ∧ dict_get (make_row param_name val t) "overall_roi"
    = Some (Finite (Total.overall_roi t))
  ∧ dict_get (make_row param_name val t) "overall_payback"
    = Some (Total.overall_payback t).
Proof.
  unfold make_row, dict_literal. simpl.
  repeat (case_decide; simpl); subst; repeat split; congruence.
Qed.

(** The swept value is in the row under [param_name], unless that is the
    name of a metric column: then the row has three items and the metric
    has taken the place of the swept value. *)
Lemma make_row_value (param_name : string) (val : Q) (t : Total.metrics) :
  (param_name ∉ metric_columns →
   dict_get (make_row param_name val t) param_name = Some (Finite val)
   ∧ length (make_row param_name val t) = 4%nat)
  ∧ (param_name ∈ metric_columns →
     length (make_row param_name val t) = 3%nat
     ∧ (dict_get (make_row param_name val t) param_name
        = Some (Finite (Total.total_profit t))
        ∨ dict_get (make_row param_name val t) param_name
          = Some (Finite (Total.overall_roi t))
        ∨ dict_get (make_row param_name val t) param_name
          = Some (Total.overall_payback t))).
Proof.
  unfold metric_columns. rewrite !elem_of_cons, elem_of_nil.
  unfold make_row, dict_literal. simpl.
  split.
  - intros Hout.
    repeat (case_decide; simpl); subst; try congruence;
      try (exfalso; apply Hout; auto; fail); split; reflexivity.
  - intros [->|[->|[->|[]]]]; simpl; auto.
Qed.

(** The column of the swept parameter holds the swept values, in order. *)
Lemma column_swept (param_name : string) (rows : list row) (values : list Q) :
  param_name ∉ metric_columns →
  Forall2 (λ r val, ∃ t, r = make_row param_name val t) rows values →
  column param_name rows = (λ val, Some (Finite val)) <$> values.
Proof.
  intros Hout Hrows. unfold column.
  induction Hrows as [|r val rows values [t ->] _ IH]; [reflexivity |].
  rewrite !fmap_cons. f_equal; [| exact IH].
  apply (proj1 (make_row_value param_name val t)), Hout.
Qed.

(** *** Numpy scalars in the parameter dictionary *)

(** A parameter overwritten with a numpy scalar is still a number, and a
    numpy scalar where the key is the overwritten one. *)
Lemma lookup_insert_numpy (p : gmap string pyval) (key k : string) (v q : Q) :
  p !! k = Some (PyNum q) →
  ∃ w x, <[key := NpNum v]> p !! k = Some w ∧ as_num w = Ok x
         ∧ ((key = k ∧ w = NpNum v ∧ x = v) ∨ (key ≠ k ∧ w = PyNum q ∧ x = q)).
Proof.
  intros Hk. destruct (decide (key = k)) as [->|Hne].
  - exists (NpNum v), v. rewrite lookup_insert_eq. auto 10.
  - exists (PyNum q), q. rewrite lookup_insert_ne by assumption. auto 10.
Qed.

(** A valid model with any one parameter overwritten by a numpy scalar is
    evaluated without an exception, whatever the scalar: this is the model
    object inside the third branch of a sweep.  When the parameter is
    [depreciation_years] and the scalar is zero, the depreciation and the
    total costs of the owned class are not finite. *)
Lemma total_metrics_numpy_param (self : FujimBusinessModel) (key : string) (v : Q)
    (occupancy_rate price_per_night : pyval) :
  valid_model self →
  ∃ t, calculate_total_metrics
         (set_params self (<[key := NpNum v]> (params self)))
         occupancy_rate price_per_night = Ok t
       ∧ (key = "depreciation_years" → v == 0 →
          Owned.depreciation (Total.owned_metrics t) = NotFinite
          ∧ Owned.total_costs (Total.owned_metrics t) = NotFinite).
Proof.
  intros [[o Ho] [p Hp] [n Hn] [r Hr] [i Hi] [j Hj] (y & Hy & Hy0)
            Hfo Hfr Hvo Hvr].
  destruct (lookup_insert_numpy _ key _ v _ Ho) as (wo & xo & Wo & Xo & _).
  destruct (lookup_insert_numpy _ key _ v _ Hp) as (wp & xp & Wp & Xp & _).
  destruct (lookup_insert_numpy _ key _ v _ Hn) as (wn & xn & Wn & Xn & _).
  destruct (lookup_insert_numpy _ key _ v _ Hr) as (wr & xr & Wr & Xr & _).
  destruct (lookup_insert_numpy _ key _ v _ Hi) as (wi & xi & Wi & Xi & _).
  destruct (lookup_insert_numpy _ key _ v _ Hj) as (wj & xj & Wj & Xj & _).
  destruct (lookup_insert_numpy _ key _ v _ Hy) as (wy & xy & Wy & Xy & Ky).
  unfold calculate_total_metrics.
  destruct (owned_metrics_number
              (set_params self (<[key := NpNum v]> (params self)))
              occupancy_rate price_per_night PyNone _ _ _ _ _ _ _ _ _ _
              Wo Xo Wp Xp Wn Xn Wi Xi Wy Xy) as (mo & -> & Hdep & Hcosts);
    try assumption.
  { intros Hz. destruct Ky as [(_ & -> & _)|(_ & _ & ->)];
      [reflexivity | contradiction]. }
  destruct (rental_metrics_number
              (set_params self (<[key := NpNum v]> (params self)))
              occupancy_rate price_per_night PyNone _ _ _ _ _ _ _ _
              Wo Xo Wp Xp Wr Xr Wj Xj Hfr Hvr) as (mr & ->).
  rewrite !bind_Ok. eexists. split; [reflexivity |].
  intros Hkey Hz. simpl.
  destruct Ky as [(_ & _ & ->)|(Hne & _)]; [| contradiction].
  apply Qeq_bool_iff in Hz. rewrite Hz in Hdep.
  rewrite Hcosts, Hdep. split; reflexivity.
Qed.

Lemma sweep_point_valid (self : FujimBusinessModel) (param_name : string) (val : Q) :
  valid_model self →
  ∃ t, sweep_point self param_name val = (swept self param_name [val], Ok t).
Proof.
  intros Hvalid. unfold sweep_point, swept.
  repeat case_decide.
  - destruct (total_metrics_valid self (NpNum val) PyNone Hvalid) as [t ->]. eauto.
  - destruct (total_metrics_valid self PyNone (NpNum val) Hvalid) as [t ->]. eauto.
  - destruct (total_metrics_numpy_param self param_name val PyNone PyNone Hvalid)
      as (t & -> & _).
    exists t. unfold after_sweep. rewrite set_params_twice. simpl.
    rewrite insert_insert_eq. reflexivity.
Qed.

(** Every point of a sweep of a valid model gives a row, whatever the
    parameter and the values. *)
Lemma sweep_loop_valid (self : FujimBusinessModel) (param_name : string)
    (values : list Q) (results : list row) :
  valid_model self →
  ∃ rows,
    sweep_loop self param_name values results
    = (swept self param_name values, Ok (results ++ rows))
    ∧ Forall2 (λ r val, ∃ t, r = make_row param_name val t) rows values.
Proof.
  revert self results.
  induction values as [|val values IH]; intros self results Hvalid.
  - exists []. rewrite app_nil_r. split; [| constructor].
    simpl. unfold swept. repeat case_decide; reflexivity.
  - destruct (sweep_point_valid self param_name val Hvalid) as [t Ht].
    simpl. rewrite Ht.
    destruct (IH (swept self param_name [val])
                (results ++ [make_row param_name val t])
                (swept_valid _ _ _ Hvalid)) as (rows & Hloop & Hrows).
    rewrite Hloop, swept_cons, <- app_assoc.
    eexists. split; [reflexivity |].
    constructor; [eauto | exact Hrows].
Qed.

(** *** [numpy.linspace] *)

Lemma linspace_negative (start stop : Q) (num : Z) :
  (num < 0)%Z → linspace start stop num = Raise ValueError.
Proof.
  intros H. unfold linspace.
  destruct (Z.ltb_spec num 0); [reflexivity | lia].
Qed.

Lemma linspace_length (start stop : Q) (num : Z) :
  (0 ≤ num)%Z →
  ∃ values, linspace start stop num = Ok values
            ∧ length values = Z.to_nat num.
Proof.
  intros H. unfold linspace.
  destruct (Z.ltb_spec num 0); [lia |].
  eexists. split; [reflexivity |].
  rewrite length_fmap, length_seqZ. reflexivity.
Qed.

Lemma linspace_one (start stop : Q) :
  ∃ v, linspace start stop 1 = Ok [v] ∧ v == start.
Proof.
  exists (0 * (stop - start) + start). split; [reflexivity | ring].
Qed.

(** *** The cost schedules are never written by a sweep *)

Lemma sweep_point_costs (self : FujimBusinessModel) (param_name : string) (val : Q) :
  fixed_costs (sweep_point self param_name val).1 = fixed_costs self
  ∧ variable_costs (sweep_point self param_name val).1 = variable_costs self.
Proof.
  unfold sweep_point. repeat case_decide; try (split; reflexivity).
  destruct (calculate_total_metrics _ PyNone PyNone); split; reflexivity.
Qed.

Lemma sweep_loop_costs (self : FujimBusinessModel) (param_name : string)
    (values : list Q) (results : list row) :
  fixed_costs (sweep_loop self param_name values results).1 = fixed_costs self
  ∧ variable_costs (sweep_loop self param_name values results).1
    = variable_costs self.
Proof.
  revert self results.
  induction values as [|val values IH]; intros self results; simpl.
  - split; reflexivity.
  - pose proof (sweep_point_costs self param_name val) as [Hf Hv].
    destruct (sweep_point self param_name val) as [self' [t|e]]; simpl in *.
    + destruct (IH self' (results ++ [make_row param_name val t]))
        as [Hf' Hv'].
      rewrite Hf', Hv'. split; assumption.
    + split; assumption.
Qed.

Lemma sensitivity_analysis_costs (self : FujimBusinessModel)
    (param_name : string) (min_val max_val : Q) (steps : Z) :
  fixed_costs (sensitivity_analysis self param_name min_val max_val steps).1
  = fixed_costs self
  ∧ variable_costs (sensitivity_analysis self param_name min_val max_val steps).1
    = variable_costs self.
Proof.
  unfold sensitivity_analysis.
  destruct (linspace min_val max_val steps) as [values|e].
  - apply sweep_loop_costs.
  - split; reflexivity.
Qed.

(** A sweep of a valid model returns one row per point, in the order of
    the points, and ends in the object [swept]. *)
Lemma sensitivity_analysis_valid (self : FujimBusinessModel)
    (param_name : string) (min_val max_val : Q) (steps : Z) (values : list Q) :
  valid_model self →
  linspace min_val max_val steps = Ok values →
  ∃ rows,
    sensitivity_analysis self param_name min_val max_val steps
    = (swept self param_name values, Ok rows)
    ∧ Forall2 (λ r val, ∃ t, r = make_row param_name val t) rows values.
Proof.
  intros Hvalid Hvalues. unfold sensitivity_analysis. rewrite Hvalues.
  destruct (sweep_loop_valid self param_name values [] Hvalid)
    as (rows & Hloop & Hrows).
  exists rows. split; assumption.
Qed.

(** For a key the dictionary holds, and for the two swept through
    arguments, the sweep ends in the object it started with. *)
Lemma swept_known (self : FujimBusinessModel) (param_name : string) (values : list Q) :
  is_Some (params self !! param_name)
  ∨ param_name = "occupancy_rate" ∨ param_name = "price_per_night" →
  swept self param_name values = self.
Proof.
  intros H. unfold swept. repeat case_decide; try reflexivity.
  destruct values; [reflexivity |].
  destruct H as [H | [H | H]]; [apply after_sweep_known, H | done | done].
Qed.

(** ** C6: the reference scenario *)

(** C6, as stated, fails: in the reference scenario neither class has the
    annual revenue 45,151,875 and the total is not 90,303,750. *)
Lemma scenario_revenue_is_not_45151875 :
  ∃ t, calculate_total_metrics init (PyNum 0.33) (PyNum 25000) = Ok t
       ∧ ¬ Owned.annual_revenue (Total.owned_metrics t) == 45151875
       ∧ ¬ Rental.annual_revenue (Total.rental_metrics t) == 45151875
       ∧ ¬ Total.total_revenue t == 90303750.
Proof.
  eexists. split; [vm_compute; reflexivity |].
  repeat split; vm_compute; discriminate.
Qed.

(** C6, as amended. With occupancy 0.33, price 25000, 15 owned and 15
    rental properties, investments of 18,900,000 and 5,500,000 per unit and
    7 depreciation years (the parameters of [init]), the owned annual
    revenue is 45,168,750, the rental annual revenue is 45,168,750 and the
    total revenue is 90,337,500. *)
Theorem scenario_revenue :
  params init !! "owned_properties" = Some (PyNum 15)
  ∧ params init !! "rental_properties" = Some (PyNum 15)
  ∧ params init !! "owned_initial_investment" = Some (PyNum 18900000)
  ∧ params init !! "rental_initial_investment" = Some (PyNum 5500000)
  ∧ params init !! "depreciation_years" = Some (PyNum 7)
  ∧ calculate_annual_revenue 0.33 25000 15 == 45168750
  ∧ ∃ t, calculate_total_metrics init (PyNum 0.33) (PyNum 25000) = Ok t
         ∧ Owned.annual_revenue (Total.owned_metrics t) == 45168750
         ∧ Rental.annual_revenue (Total.rental_metrics t) == 45168750
         ∧ Total.total_revenue t == 90337500.
Proof.
  do 6 (split; [reflexivity |]).
  eexists. split; [vm_compute; reflexivity |].
  repeat split; vm_compute; reflexivity.
Qed.

(** ** C10: an argument of zero is replaced by the stored default *)

Lemma py_or_zero (zero : Q) (d : result pyval) : zero == 0 → py_or (PyNum zero) d = d.
Proof.
  intros Hz. unfold py_or; simpl. apply Qeq_bool_iff in Hz. rewrite Hz. reflexivity.
Qed.

Lemma py_or_numpy_zero (zero : Q) (d : result pyval) :
  zero == 0 → py_or (NpNum zero) d = d.
Proof.
  intros Hz. unfold py_or; simpl. apply Qeq_bool_iff in Hz. rewrite Hz. reflexivity.
Qed.

Lemma py_or_same (v : pyval) : py_or v (Ok v) = Ok v.
Proof. unfold py_or. destruct (truthy v); reflexivity. Qed.

Lemma numpy_properties_zero (self : FujimBusinessModel) (zero : Q)
    (key : string) (stored_value : pyval) :
  zero == 0 → params self !! key = Some stored_value →
  numpy_properties self (PyNum zero) key = numpy_properties self stored_value key.
Proof.
  intros Hz Hkey. unfold numpy_properties.
  rewrite (py_or_zero zero) by exact Hz.
  rewrite (getitem_Some _ _ _ Hkey), py_or_same. reflexivity.
Qed.

Lemma effective_zero (zero stored : Q) : zero == 0 → effective (PyNum zero) stored = stored.
Proof.
  intros Hz. unfold effective. apply Qeq_bool_iff in Hz. rewrite Hz. reflexivity.
Qed.

Lemma revenue_not_zero (r p n : Q) :
  ¬ r == 0 → ¬ p == 0 → ¬ n == 0 → ¬ r * p * 365 * n == 0.
Proof.
  intros Hr Hp Hn H.
  apply Qmult_integral in H as [H|H]; [| contradiction].
  apply Qmult_integral in H as [H|H]; [| discriminate].
  apply Qmult_integral in H as [H|H]; contradiction.
Qed.

(** C10. In both per-class functions an argument that is zero (0 or 0.0)
    gives the same result as passing the value stored in the parameter
    dictionary for it, argument by argument and for all three at once.  For
    a valid model each of these calls returns, and its annual revenue is
    the product in which the stored occupancy, price or property count
    stands where the zero was passed; with all three arguments zero the
    revenue is stored occupancy x stored price x 365 x stored count, which
    is not zero unless a stored value is.  In [init] the stored values are
    0.33, 25000 and 15. *)
Theorem zero_argument_takes_default (self : FujimBusinessModel) (zero : Q)
    (stored_occupancy stored_price stored_owned stored_rental : pyval)
    (occupancy_rate price_per_night num_properties : pyval) :
  zero == 0 →
  params self !! "base_occupancy_rate" = Some stored_occupancy →
  params self !! "average_price_per_night" = Some stored_price →
  params self !! "owned_properties" = Some stored_owned →
  params self !! "rental_properties" = Some stored_rental →
  (calculate_owned_property_metrics self (PyNum zero) price_per_night num_properties
   = calculate_owned_property_metrics self stored_occupancy price_per_night
       num_properties
   ∧ calculate_owned_property_metrics self occupancy_rate (PyNum zero) num_properties
     = calculate_owned_property_metrics self occupancy_rate stored_price
         num_properties
   ∧ calculate_owned_property_metrics self occupancy_rate price_per_night (PyNum zero)
     = calculate_owned_property_metrics self occupancy_rate price_per_night
         stored_owned
   ∧ calculate_owned_property_metrics self (PyNum zero) (PyNum zero) (PyNum zero)
     = calculate_owned_property_metrics self stored_occupancy stored_price
         stored_owned)
  ∧ (calculate_rental_property_metrics self (PyNum zero) price_per_night
       num_properties
     = calculate_rental_property_metrics self stored_occupancy price_per_night
         num_properties
     ∧ calculate_rental_property_metrics self occupancy_rate (PyNum zero)
         num_properties
       = calculate_rental_property_metrics self occupancy_rate stored_price
           num_properties
     ∧ calculate_rental_property_metrics self occupancy_rate price_per_night
         (PyNum zero)
       = calculate_rental_property_metrics self occupancy_rate price_per_night
           stored_rental
     ∧ calculate_rental_property_metrics self (PyNum zero) (PyNum zero) (PyNum zero)
       = calculate_rental_property_metrics self stored_occupancy stored_price
           stored_rental)
  ∧ (valid_model self →
     let r := stored self "base_occupancy_rate" in
     let p := stored self "average_price_per_night" in
     let n_owned := stored self "owned_properties" in
     let n_rental := stored self "rental_properties" in
     (∃ m, calculate_owned_property_metrics self (PyNum zero) price_per_night
             num_properties = Ok m
           ∧ Owned.annual_revenue m
             == r * effective price_per_night p * 365
                * effective num_properties n_owned)
     ∧ (∃ m, calculate_owned_property_metrics self occupancy_rate (PyNum zero)
               num_properties = Ok m
             ∧ Owned.annual_revenue m
               == effective occupancy_rate r * p * 365
                  * effective num_properties n_owned)
     ∧ (∃ m, calculate_owned_property_metrics self occupancy_rate price_per_night
               (PyNum zero) = Ok m
             ∧ Owned.annual_revenue m
               == effective occupancy_rate r * effective price_per_night p * 365
                  * n_owned)
     ∧ (∃ m, calculate_owned_property_metrics self (PyNum zero) (PyNum zero)
               (PyNum zero) = Ok m
             ∧ Owned.annual_revenue m == r * p * 365 * n_owned
             ∧ Owned.total_investment m
               == stored self "owned_initial_investment" * n_owned
             ∧ (¬ r == 0 → ¬ p == 0 → ¬ n_owned == 0 →
                ¬ Owned.annual_revenue m == 0))
     ∧ (∃ m, calculate_rental_property_metrics self (PyNum zero) price_per_night
               num_properties = Ok m
             ∧ Rental.annual_revenue m
               == r * effective price_per_night p * 365
                  * effective num_properties n_rental)
     ∧ (∃ m, calculate_rental_property_metrics self occupancy_rate (PyNum zero)
               num_properties = Ok m
             ∧ Rental.annual_revenue m
               == effective occupancy_rate r * p * 365
                  * effective num_properties n_rental)
     ∧ (∃ m, calculate_rental_property_metrics self occupancy_rate price_per_night
               (PyNum zero) = Ok m
             ∧ Rental.annual_revenue m
               == effective occupancy_rate r * effective price_per_night p * 365
                  * n_rental)
     ∧ (∃ m, calculate_rental_property_metrics self (PyNum zero) (PyNum zero)
               (PyNum zero) = Ok m
             ∧ Rental.annual_revenue m == r * p * 365 * n_rental
             ∧ Rental.total_investment m
               == stored self "rental_initial_investment" * n_rental
             ∧ (¬ r == 0 → ¬ p == 0 → ¬ n_rental == 0 →
                ¬ Rental.annual_revenue m == 0)))
  ∧ params init !! "base_occupancy_rate" = Some (PyNum 0.33)
  ∧ params init !! "average_price_per_night" = Some (PyNum 25000)
  ∧ params init !! "owned_properties" = Some (PyNum 15)
  ∧ params init !! "rental_properties" = Some (PyNum 15).
Proof.
  intros Hz Ho Hp Hn Hr.
  assert (Hres : ∀ key stored,
            params self !! key = Some stored →
            resolve_arguments self (PyNum zero) price_per_night num_properties key
            = resolve_arguments self stored_occupancy price_per_night
                num_properties key
            ∧ resolve_arguments self occupancy_rate (PyNum zero) num_properties key
              = resolve_arguments self occupancy_rate stored_price
                  num_properties key
            ∧ resolve_arguments self occupancy_rate price_per_night (PyNum zero) key
              = resolve_arguments self occupancy_rate price_per_night stored key
            ∧ resolve_arguments self (PyNum zero) (PyNum zero) (PyNum zero) key
              = resolve_arguments self stored_occupancy stored_price stored key).
  { intros key stored Hkey. unfold resolve_arguments.
    rewrite !(py_or_zero zero) by exact Hz.
    rewrite (getitem_Some _ _ _ Ho), (getitem_Some _ _ _ Hp),
      (getitem_Some _ _ _ Hkey), !py_or_same.
    repeat split; reflexivity. }
  destruct (Hres "owned_properties" stored_owned Hn) as (E1 & E2 & E3 & E4).
  destruct (Hres "rental_properties" stored_rental Hr) as (F1 & F2 & F3 & F4).
  pose proof (numpy_properties_zero self zero _ _ Hz Hn) as Nn.
  split; [| split; [| split]].
  - unfold calculate_owned_property_metrics.
    rewrite E1, E2, E3, E4, Nn. repeat split; reflexivity.
  - unfold calculate_rental_property_metrics.
    rewrite F1, F2, F3, F4. repeat split; reflexivity.
  - intros Hvalid r p n_owned n_rental.
    pose proof (λ stored, effective_zero zero stored Hz) as Hzero.
    assert (Howned : ∀ a b c,
              ∃ m, calculate_owned_property_metrics self a b c = Ok m
                   ∧ Owned.annual_revenue m
                     == effective a r * effective b p * 365 * effective c n_owned
                   ∧ Owned.total_investment m
                     == stored self "owned_initial_investment"
                        * effective c n_owned).
    { intros a b c.
      destruct (owned_metrics_closed_form self a b c Hvalid)
        as (m & Hm & Hrev & _ & _ & _ & Hinv & _). eauto. }
    assert (Hrental : ∀ a b c,
              ∃ m, calculate_rental_property_metrics self a b c = Ok m
                   ∧ Rental.annual_revenue m
                     == effective a r * effective b p * 365 * effective c n_rental
                   ∧ Rental.total_investment m
                     == stored self "rental_initial_investment"
                        * effective c n_rental).
    { intros a b c.
      destruct (rental_metrics_closed_form self a b c Hvalid)
        as (m & Hm & Hrev & _ & _ & _ & _ & Hinv). eauto. }
    repeat apply conj.
    + destruct (Howned (PyNum zero) price_per_night num_properties)
        as (m & Hm & Hrev & _).
      rewrite !Hzero in Hrev. eauto.
    + destruct (Howned occupancy_rate (PyNum zero) num_properties)
        as (m & Hm & Hrev & _).
      rewrite !Hzero in Hrev. eauto.
    + destruct (Howned occupancy_rate price_per_night (PyNum zero))
        as (m & Hm & Hrev & _).
      rewrite !Hzero in Hrev. eauto.
    + destruct (Howned (PyNum zero) (PyNum zero) (PyNum zero))
        as (m & Hm & Hrev & Hinv).
      rewrite !Hzero in Hrev. rewrite !Hzero in Hinv.
      exists m. do 3 (split; [assumption |]).
      intros H1 H2 H3. rewrite Hrev. apply revenue_not_zero; assumption.
    + destruct (Hrental (PyNum zero) price_per_night num_properties)
        as (m & Hm & Hrev & _).
      rewrite !Hzero in Hrev. eauto.
    + destruct (Hrental occupancy_rate (PyNum zero) num_properties)
        as (m & Hm & Hrev & _).
      rewrite !Hzero in Hrev. eauto.
    + destruct (Hrental occupancy_rate price_per_night (PyNum zero))
        as (m & Hm & Hrev & _).
      rewrite !Hzero in Hrev. eauto.
    + destruct (Hrental (PyNum zero) (PyNum zero) (PyNum zero))
        as (m & Hm & Hrev & Hinv).
      rewrite !Hzero in Hrev. rewrite !Hzero in Hinv.
      exists m. do 3 (split; [assumption |]).
      intros H1 H2 H3. rewrite Hrev. apply revenue_not_zero; assumption.
  - repeat split; reflexivity.
Qed.

Lemma zero_argument_takes_default_witness :
  (∃ owned,
     calculate_owned_property_metrics init (PyNum 0) (PyNum 0) (PyNum 0) = Ok owned
     ∧ calculate_owned_property_metrics init (PyNum 0.33) (PyNum 25000) (PyNum 15)
       = Ok owned
     ∧ Owned.annual_revenue owned == 45168750
     ∧ ¬ Owned.annual_revenue owned == 0)
  ∧ (∃ rental,
       calculate_rental_property_metrics init (PyNum 0) (PyNum 0) (PyNum 0)
       = Ok rental
       ∧ calculate_rental_property_metrics init (PyNum 0.33) (PyNum 25000)
           (PyNum 15) = Ok rental
       ∧ Rental.annual_revenue rental == 45168750
       ∧ ¬ Rental.annual_revenue rental == 0).
Proof.
  destruct (zero_argument_takes_default init 0
              (PyNum 0.33) (PyNum 25000) (PyNum 15) (PyNum 15)
              PyNone PyNone PyNone)
    as ((_ & _ & _ & Howned) & (_ & _ & _ & Hrental) & Hvalues & _);
    [reflexivity .. |].
  destruct (Hvalues init_valid)
    as (_ & _ & _ & (mo & Hmo & Ho & _ & Hno)
        & _ & _ & _ & (mr & Hmr & Hr & _ & Hnr)).
  split.
  - exists mo. split; [exact Hmo |]. split; [rewrite <- Howned; exact Hmo |].
    split; [rewrite Ho; vm_compute; reflexivity |].
    apply Hno; vm_compute; discriminate.
  - exists mr. split; [exact Hmr |]. split; [rewrite <- Hrental; exact Hmr |].
    split; [rewrite Hr; vm_compute; reflexivity |].
    apply Hnr; vm_compute; discriminate.
Defined.

(** ** C7: what the engine does with invalid inputs *)

Lemma numpy_properties_python (self : FujimBusinessModel)
    (num_properties : pyval) (key : string) (n : Q) :
  params self !! key = Some (PyNum n) → is_numpy num_properties = false →
  numpy_properties self num_properties key = false.
Proof.
  intros Hkey Hnum. unfold numpy_properties, py_or.
  rewrite (getitem_Some _ _ _ Hkey).
  destruct (truthy num_properties); [exact Hnum | reflexivity].
Qed.

(** With Python numbers throughout, a [depreciation_years] of zero makes
    the division raise. *)
Lemma owned_metrics_zero_years (self : FujimBusinessModel)
    (occupancy_rate price_per_night num_properties : pyval) (years : Q) :
  has_number (params self) "base_occupancy_rate" →
  has_number (params self) "average_price_per_night" →
  has_number (params self) "owned_properties" →
  has_number (params self) "owned_initial_investment" →
  params self !! "depreciation_years" = Some (PyNum years) →
  years == 0 →
  is_numpy num_properties = false →
  has_costs (fixed_costs self) "owned"
    ["operations_fixed"; "utilities_fixed"; "insurance"] →
  is_Some (variable_costs self !! "owned") →
  calculate_owned_property_metrics self occupancy_rate price_per_night
    num_properties = Raise ZeroDivisionError.
Proof.
  intros [o Ho] [p Hp] [n Hn] [i Hi] Hy Hy0 Hnum Hfixed Hvar.
  unfold calculate_owned_property_metrics.
  rewrite (numpy_properties_python _ _ _ _ Hn Hnum).
  rewrite (resolve_arguments_stored _ _ _ _ _ _ _ _ Ho Hp Hn), bind_Ok.
  use_fixed_cost Hfixed "operations_fixed".
  use_fixed_cost Hfixed "utilities_fixed".
  use_fixed_cost Hfixed "insurance".
  destruct (calculate_variable_costs_valid self (effective occupancy_rate o)
              "owned" (effective num_properties n) Hvar) as [v ->].
  rewrite bind_Ok, (getitem_Some _ _ _ Hi), (getitem_Some _ _ _ Hy).
  repeat first [rewrite bind_Ok | progress simpl as_num].
  simpl is_numpy. simpl orb. rewrite (np_div_python_zero _ _ Hy0).
  reflexivity.
Qed.

Lemma total_metrics_zero_years (self : FujimBusinessModel)
    (occupancy_rate price_per_night : pyval) (years : Q) :
  valid_model self → years == 0 →
  calculate_total_metrics
    (set_params self (<["depreciation_years" := PyNum years]> (params self)))
    occupancy_rate price_per_night
  = Raise ZeroDivisionError.
Proof.
  intros [Ho Hp Hn _ Hi _ _ Hfixed _ Hvar _] Hy0.
  unfold calculate_total_metrics.
  rewrite (owned_metrics_zero_years _ _ _ _ years);
    try (simpl; apply has_number_insert); try assumption.
  - reflexivity.
  - simpl. apply lookup_insert_eq.
  - reflexivity.
Qed.

(** C7, as stated, fails: a negative investment, a negative number of
    depreciation years, a negative cost and a sweep of one step are all
    accepted, and results are computed from them; a sweep through
    [depreciation_years] that starts at zero returns its row as well. *)
Lemma invalid_inputs_are_accepted :
  (∃ t, calculate_total_metrics
          (set_params init
             (<["owned_initial_investment" := PyNum (-18900000)]> (params init)))
          PyNone PyNone = Ok t
        ∧ Total.total_investment t == -201000000)
  ∧ (∃ t d, calculate_total_metrics
              (set_params init
                 (<["depreciation_years" := PyNum (-7)]> (params init)))
              PyNone PyNone = Ok t
            ∧ Owned.depreciation (Total.owned_metrics t) = Number d
            ∧ d == -40500000)
  ∧ (∃ t, calculate_total_metrics
            {| params := params init;
               fixed_costs :=
                 <["owned" :=
                     <["insurance" := -60000]> (fixed_costs init !!! "owned")]>
                   (fixed_costs init);
               variable_costs := variable_costs init |}
            PyNone PyNone = Ok t
          ∧ Owned.operating_costs (Total.owned_metrics t) == 8418600)
  ∧ (∃ r x, (sensitivity_analysis init "occupancy_rate" 0.15 0.70 1).2 = Ok [r]
            ∧ dict_get r "occupancy_rate" = Some (Finite x)
            ∧ x == 0.15)
  ∧ (∃ r, sensitivity_analysis init "depreciation_years" 0 10 1 = (init, Ok [r])).
Proof.
  repeat apply conj.
  - eexists. split; [vm_compute; reflexivity |]. vm_compute; reflexivity.
  - do 2 eexists. split; [vm_compute; reflexivity |].
    split; [vm_compute; reflexivity | vm_compute; reflexivity].
  - eexists. split; [vm_compute; reflexivity |]. vm_compute; reflexivity.
  - do 2 eexists. split; [vm_compute; reflexivity |].
    split; [vm_compute; reflexivity | vm_compute; reflexivity].
  - destruct (sensitivity_analysis_valid init "depreciation_years" 0 10 1
                [0 * (10 - 0) + 0] init_valid eq_refl) as (rows & Hsweep & Hrows).
    rewrite swept_known in Hsweep by (left; eexists; reflexivity).
    inversion Hrows as [|r ? rows' ? _ Hnil]; subst.
    inversion Hnil; subst. eauto.
Qed.

(** C7, as amended. The engine validates nothing and has no
    ConfigurationError.  A valid model stays evaluable when any parameter
    is overwritten with any Python number, negative ones included, except
    that [depreciation_years] equal to zero makes the division raise
    [ZeroDivisionError]; as a numpy scalar, which is what a sweep writes,
    the same zero raises nothing and leaves a depreciation and total costs
    that are not finite.  Validity itself asks nothing about the sign of a
    cost.  A sweep with a negative step count raises the [ValueError] of
    [numpy.linspace]; with any other step count it returns one row per
    point, for every parameter name and range: no row for 0 steps, and for
    1 step the single row at [min_val], which holds [min_val] under the
    name of the parameter unless that name is the one of a metric column.
    The reference occupancy 0.33 is no parameter: the variable costs at a
    given occupancy are the same whatever the parameter dictionary holds. *)
Theorem no_input_validation (self : FujimBusinessModel) (key : string) (v : Q)
    (occupancy_rate price_per_night : pyval) (min_val max_val : Q) (steps : Z) :
  valid_model self →
  ((key = "depreciation_years" → ¬ v == 0) →
   ∃ t, calculate_total_metrics
          (set_params self (<[key := PyNum v]> (params self)))
          occupancy_rate price_per_night = Ok t)
  ∧ (v == 0 →
     calculate_total_metrics
       (set_params self (<["depreciation_years" := PyNum v]> (params self)))
       occupancy_rate price_per_night = Raise ZeroDivisionError)
  ∧ (v == 0 →
     ∃ t, calculate_total_metrics
            (set_params self (<["depreciation_years" := NpNum v]> (params self)))
            occupancy_rate price_per_night = Ok t
          ∧ Owned.depreciation (Total.owned_metrics t) = NotFinite
          ∧ Owned.total_costs (Total.owned_metrics t) = NotFinite)
  ∧ ((steps < 0)%Z →
     sensitivity_analysis self key min_val max_val steps = (self, Raise ValueError))
  ∧ ((0 ≤ steps)%Z →
     ∃ rows, (sensitivity_analysis self key min_val max_val steps).2 = Ok rows
             ∧ length rows = Z.to_nat steps)
  ∧ sensitivity_analysis self key min_val max_val 0 = (self, Ok [])
  ∧ (∃ r x, (sensitivity_analysis self key min_val max_val 1).2 = Ok [r]
            ∧ x == min_val
            ∧ (key ∉ metric_columns → dict_get r key = Some (Finite x))
            ∧ (key ∈ metric_columns → length r = 3%nat))
  ∧ (∀ p property_type,
       calculate_variable_costs (set_params self p) v property_type min_val
       = calculate_variable_costs self v property_type min_val).
Proof.
  intros Hvalid. repeat apply conj.
  - intros Hkey. apply total_metrics_valid, valid_model_insert; assumption.
  - intros Hv0. apply total_metrics_zero_years; assumption.
  - intros Hv0.
    destruct (total_metrics_numpy_param self "depreciation_years" v
                occupancy_rate price_per_night Hvalid) as (t & Ht & Hinf).
    exists t. split; [exact Ht | apply Hinf; [reflexivity | exact Hv0]].
  - intros Hneg. unfold sensitivity_analysis.
    rewrite (linspace_negative _ _ _ Hneg). reflexivity.
  - intros Hsteps.
    destruct (linspace_length min_val max_val steps Hsteps)
      as (values & Hlin & Hlen).
    destruct (sensitivity_analysis_valid self key min_val max_val steps values
                Hvalid Hlin) as (rows & Hsweep & Hrows).
    exists rows. rewrite Hsweep. split; [reflexivity |].
    rewrite (Forall2_length _ _ _ Hrows). exact Hlen.
  - reflexivity.
  - destruct (linspace_one min_val max_val) as (start & Hlin & Hstart).
    destruct (sensitivity_analysis_valid self key min_val max_val 1 [start]
                Hvalid Hlin) as (rows & Hsweep & Hrows).
    rewrite Hsweep. simpl.
    inversion Hrows as [|r ? rows' ? [t Hr] Hnil]; subst.
    inversion Hnil; subst.
    exists (make_row key start t), start.
    split; [reflexivity |]. split; [exact Hstart |].
    destruct (make_row_value key start t) as [Hout Hin].
    split; [intros H; apply Hout, H | intros H; apply Hin, H].
  - reflexivity.
Qed.

Lemma no_input_validation_witness :
  (∃ t, calculate_total_metrics
          (set_params init
             (<["rental_initial_investment" := PyNum (-5500000)]> (params init)))
          PyNone PyNone = Ok t)
  ∧ calculate_total_metrics
      (set_params init (<["depreciation_years" := PyNum 0]> (params init)))
      PyNone PyNone = Raise ZeroDivisionError
  ∧ (∃ t, calculate_total_metrics
            (set_params init (<["depreciation_years" := NpNum 0]> (params init)))
            PyNone PyNone = Ok t
          ∧ Owned.depreciation (Total.owned_metrics t) = NotFinite)
  ∧ sensitivity_analysis init "rental_initial_investment" 0 1 (-3)
    = (init, Raise ValueError)
  ∧ (∃ r, (sensitivity_analysis init "total_profit" 0 1 1).2 = Ok [r]
          ∧ length r = 3%nat).
Proof.
  destruct (no_input_validation init "rental_initial_investment" (-5500000)
              PyNone PyNone 0 1 (-3) init_valid) as (Hneg & _ & _ & Hsteps & _).
  destruct (no_input_validation init "depreciation_years" 0
              PyNone PyNone 0 1 0 init_valid) as (_ & Hzero & Hnumpy & _).
  destruct (no_input_validation init "total_profit" 0
              PyNone PyNone 0 1 0 init_valid)
    as (_ & _ & _ & _ & _ & _ & (r & x & Hrow & _ & _ & Hclash) & _).
  split; [apply Hneg; discriminate |].
  split; [apply Hzero; reflexivity |].
  split.
  { destruct (Hnumpy ltac:(reflexivity)) as (t & Ht & Hdep & _). eauto. }
  split; [apply Hsteps; reflexivity |].
  exists r. split; [exact Hrow |].
  apply Hclash. unfold metric_columns. rewrite elem_of_cons. left. reflexivity.
Defined.

(** ** C8: what a sweep leaves behind *)

(** A sweep never writes the cost schedules; and a sweep of a valid model
    through [occupancy_rate], [price_per_night] or a key the parameter
    dictionary holds ends in the object it started with. *)
Lemma sweep_restores_known_parameter (self : FujimBusinessModel)
    (param_name : string) (min_val max_val : Q) (steps : Z) (values : list Q) :
  valid_model self →
  linspace min_val max_val steps = Ok values →
  is_Some (params self !! param_name)
  ∨ param_name = "occupancy_rate" ∨ param_name = "price_per_night" →
  ∃ rows,
    sensitivity_analysis self param_name min_val max_val steps = (self, Ok rows)
    ∧ Forall2 (λ r val, ∃ t, r = make_row param_name val t) rows values.
Proof.
  intros Hvalid Hvalues Hknown.
  destruct (sensitivity_analysis_valid self param_name min_val max_val steps
              values Hvalid Hvalues) as (rows & Hsweep & Hrows).
  rewrite (swept_known _ _ _ Hknown) in Hsweep. eauto.
Qed.

(** A sweep of a valid model through a key the parameter dictionary does
    not hold ends with that key bound to [None]. *)
Lemma sweep_binds_unknown_parameter (self : FujimBusinessModel)
    (param_name : string) (min_val max_val : Q) (steps : Z) (values : list Q) :
  valid_model self →
  linspace min_val max_val steps = Ok values →
  values ≠ [] →
  params self !! param_name = None →
  param_name ≠ "occupancy_rate" → param_name ≠ "price_per_night" →
  ∃ rows,
    sensitivity_analysis self param_name min_val max_val steps
    = (set_params self (<[param_name := PyNone]> (params self)), Ok rows)
    ∧ Forall2 (λ r val, ∃ t, r = make_row param_name val t) rows values.
Proof.
  intros Hvalid Hvalues Hne Hunknown Hocc Hprice.
  destruct (sensitivity_analysis_valid self param_name min_val max_val steps
              values Hvalid Hvalues) as (rows & Hsweep & Hrows).
  exists rows. split; [| assumption].
  rewrite Hsweep. f_equal. unfold swept.
  repeat case_decide; try contradiction.
  destruct values; [contradiction | apply after_sweep_unknown, Hunknown].
Qed.

(** C8, evaluated where it fails.  [init] has no parameter ["tax_rate"].
    The sweep [sensitivity_analysis('tax_rate', 0, 1, 2)] returns its two
    rows and leaves the cost schedules as they were, but the parameter
    dictionary now binds ["tax_rate"] to [None]: it is no longer the
    dictionary the caller had. *)
Theorem sweep_leaves_unknown_parameter_behind :
  params init !! "tax_rate" = None
  ∧ ∃ after rows,
      sensitivity_analysis init "tax_rate" 0 1 2 = (after, Ok rows)
      ∧ column "tax_rate" rows = [Some (Finite 0); Some (Finite 1)]
      ∧ fixed_costs after = fixed_costs init
      ∧ variable_costs after = variable_costs init
      ∧ params after = <["tax_rate" := PyNone]> (params init)
      ∧ params after !! "tax_rate" = Some PyNone
      ∧ params after ≠ params init.
Proof.
  split; [reflexivity |].
  assert (Hcolumn : "tax_rate" ∉ metric_columns).
  { unfold metric_columns. rewrite !not_elem_of_cons.
    repeat split; [discriminate .. | apply not_elem_of_nil]. }
  set (values := [0 * ((1 - 0) / 1) + 0; 1]).
  destruct (sweep_binds_unknown_parameter init "tax_rate" 0 1 2 values
              init_valid) as (rows & Hsweep & Hrows);
    try reflexivity; try discriminate.
  eexists _, rows. split; [exact Hsweep |].
  split.
  { rewrite (column_swept _ _ values Hcolumn Hrows). reflexivity. }
  do 3 (split; [reflexivity |]).
  split; [apply lookup_insert_eq |].
  intros Heq. apply (f_equal (λ p, p !! "tax_rate")) in Heq.
  simpl in Heq. rewrite lookup_insert_eq in Heq. discriminate.
Qed.

(** The what-if block of [streamlit_app.main] does not restore the cost
    schedules either: the saved copies share the inner dictionaries that
    the block scales, so after its last two assignments every scaled entry
    holds both factors, and the second scenario was computed from them. *)
Lemma what_if_block_leaves_costs_scaled :
  fixed_costs (WhatIf.model WhatIf.load_model) = fixed_costs init
  ∧ variable_costs (WhatIf.model WhatIf.load_model) = variable_costs init
  ∧ ∃ after cost_risk_metrics cost_savings_metrics,
      WhatIf.cost_scenarios WhatIf.load_model (PyNum 0.33) (PyNum 25000)
      = Ok (after, cost_risk_metrics, cost_savings_metrics)
      ∧ (∃ c, fixed_cost (WhatIf.model after) "owned" "utilities_fixed" = Ok c
              ∧ c == 80000 * 1.4 * 0.85)
      ∧ (∃ c, fixed_cost (WhatIf.model after) "rental" "rent" = Ok c
              ∧ c == 840000 * 1.15 * 0.97)
      ∧ fixed_costs (WhatIf.model after) ≠ fixed_costs init.
Proof.
  split; [vm_compute; reflexivity |].
  split; [vm_compute; reflexivity |].
  eexists _, _, _. split; [vm_compute; reflexivity |].
  split; [eexists; split; [vm_compute; reflexivity | vm_compute; reflexivity] |].
  split; [eexists; split; [vm_compute; reflexivity | vm_compute; reflexivity] |].
  intros Heq.
  apply (f_equal (λ costs, costs !! "owned" ≫= (.!! "utilities_fixed"))) in Heq.
  vm_compute in Heq. discriminate.
Qed.

(** ** The reference figures without the idealisation *)

Section Binary64Figures.
Import PrimFloat.
Local Open Scope float_scope.
(* 0.33 is read as the nearest binary64 number, as Python reads it *)
Set Warnings "-inexact-float".

(** In binary64 the revenue of the reference scenario is 45168750.0 for
    each class, 90337500.0 in total, and the break-even rate of 15 + 15
    properties at 25000 is bit for bit the quotient by 25000 x 30 x 365. *)
Lemma binary64_reference_figures :
  Binary64.calculate_annual_revenue 0.33 25000 15 = 45168750
  ∧ Binary64.calculate_annual_revenue 0.33 25000 15
    + Binary64.calculate_annual_revenue 0.33 25000 15 = 90337500
  ∧ Binary64.breakeven_rate 35700000 25000 30 = 35700000 / (25000 * 30 * 365).
Proof. repeat split; vm_compute; reflexivity. Qed.

End Binary64Figures.

(** * Further properties of the engine and of its callers *)

(** ** X1: the portfolio in closed form *)

(** X1. For a valid model the portfolio evaluation returns, with total
    revenue occupancy x price x 365 x (owned + rental count), total profit
    that revenue minus the per-unit fixed costs times the counts minus the
    per-unit variable baselines times the counts times occupancy / 0.33,
    and total investment the per-unit investments times the counts; the
    occupancy and the price are the arguments, or the stored defaults when
    an argument is [None] or zero, and the counts are the stored ones. *)
Theorem portfolio_closed_form (self : FujimBusinessModel)
    (occupancy_rate price_per_night : pyval) :
  valid_model self →
  let r := effective occupancy_rate (stored self "base_occupancy_rate") in
  let p := effective price_per_night (stored self "average_price_per_night") in
  let n_owned := stored self "owned_properties" in
  let n_rental := stored self "rental_properties" in
  ∃ t,
    calculate_total_metrics self occupancy_rate price_per_night = Ok t
    ∧ Total.total_revenue t == r * p * 365 * (n_owned + n_rental)
    ∧ Total.total_profit t
      == r * p * 365 * (n_owned + n_rental)
         - (owned_fixed_per_unit self * n_owned
            + rental_fixed_per_unit self * n_rental)
         - (baseline_per_unit self "owned" * n_owned
            + baseline_per_unit self "rental" * n_rental) * (r / 0.33)
    ∧ Total.total_investment t
      == stored self "owned_initial_investment" * n_owned
         + stored self "rental_initial_investment" * n_rental.
Proof. exact (total_metrics_closed_form self occupancy_rate price_per_night). Qed.

Lemma portfolio_closed_form_witness :
  ∃ t,
    calculate_total_metrics init (PyNum 0.5) PyNone = Ok t
    ∧ Total.total_revenue t == 0.5 * 25000 * 365 * 30
    ∧ Total.total_profit t
      == 0.5 * 25000 * 365 * 30 - (540000 * 15 + 1840000 * 15)
         - (141240 * 15 + 263670 * 15) * (0.5 / 0.33)
    ∧ Total.total_investment t == 18900000 * 15 + 5500000 * 15.
Proof.
  destruct (portfolio_closed_form init (PyNum 0.5) PyNone init_valid)
    as (t & Ht & Hrev & Hprofit & Hinv).
  exists t. split; [exact Ht |].
  split; [rewrite Hrev; vm_compute; reflexivity |].
  split; [rewrite Hprofit; vm_compute; reflexivity |].
  rewrite Hinv; vm_compute; reflexivity.
Defined.

(** ** X2, X3: monotonicity in price and in occupancy *)

Lemma roi_of_monotone (income income' investment investment' : Q) :
  income <= income' → investment == investment' →
  roi_of income investment <= roi_of income' investment'.
Proof.
  intros Hi Ht.
  rewrite <- (roi_of_proper income' income' investment investment')
    by (reflexivity || assumption).
  unfold roi_of. destruct (Qlt_le_dec 0 investment) as [H|H].
  - apply Qmult_le_compat_r; [| discriminate].
    apply Qmult_le_compat_r; [exact Hi |].
    apply Qlt_le_weak, Qinv_lt_0_compat, H.
  - apply Qle_refl.
Qed.

(** X2. For a valid model with non-negative property counts and a
    non-negative occupancy, a higher nightly price never lowers the total
    profit nor the overall ROI. *)
Theorem higher_price_never_lowers_profit (self : FujimBusinessModel)
    (occupancy_rate : pyval) (price price' : Q) :
  valid_model self →
  0 <= effective occupancy_rate (stored self "base_occupancy_rate") →
  0 <= stored self "owned_properties" →
  0 <= stored self "rental_properties" →
  ¬ price == 0 → ¬ price' == 0 → price <= price' →
  ∃ t t',
    calculate_total_metrics self occupancy_rate (PyNum price) = Ok t
    ∧ calculate_total_metrics self occupancy_rate (PyNum price') = Ok t'
    ∧ Total.total_profit t <= Total.total_profit t'
    ∧ Total.overall_roi t <= Total.overall_roi t'.
Proof.
  intros Hvalid Hr Ho Hn Hp Hp' Hle.
  destruct (total_metrics_closed_form self occupancy_rate (PyNum price) Hvalid)
    as (t & Ht & _ & Hprofit & Hinv).
  destruct (total_metrics_closed_form self occupancy_rate (PyNum price') Hvalid)
    as (t' & Ht' & _ & Hprofit' & Hinv').
  rewrite (effective_given price) in Hprofit by assumption.
  rewrite (effective_given price') in Hprofit' by assumption.
  assert (Hprofits : Total.total_profit t <= Total.total_profit t').
  { rewrite Hprofit, Hprofit'.
    set (r := effective occupancy_rate (stored self "base_occupancy_rate")) in *.
    set (no := stored self "owned_properties") in *.
    set (nr := stored self "rental_properties") in *.
    assert (H1 : 0 <= r * (no + nr))
      by (apply Qmult_le_0_compat; lra).
    assert (H2 : 0 <= (price' - price) * (r * (no + nr)))
      by (apply Qmult_le_0_compat; lra).
    lra. }
  exists t, t'. do 2 (split; [assumption |]). split; [exact Hprofits |].
  destruct (total_metrics_fields _ _ _ _ Ht) as (_ & _ & _ & _ & _ & _ & ->).
  destruct (total_metrics_fields _ _ _ _ Ht') as (_ & _ & _ & _ & _ & _ & ->).
  apply roi_of_monotone; [exact Hprofits |].
  rewrite Hinv, Hinv'. reflexivity.
Qed.

Lemma higher_price_never_lowers_profit_witness :
  ∃ t t',
    calculate_total_metrics init PyNone (PyNum 20000) = Ok t
    ∧ calculate_total_metrics init PyNone (PyNum 22500) = Ok t'
    ∧ Total.total_profit t <= Total.total_profit t'
    ∧ Total.overall_roi t <= Total.overall_roi t'.
Proof.
  apply (higher_price_never_lowers_profit init PyNone 20000 22500);
    try apply init_valid; try discriminate.
Defined.

(** X3. For a valid model with non-negative property counts and a
    non-negative price, a higher occupancy never lowers the total revenue;
    it never lowers the total profit either when, in both classes, the
    revenue of a fully occupied unit at the reference scale, price x 365 x
    0.33, is at least the per-unit variable-cost baseline. *)
Theorem higher_occupancy_never_lowers_revenue (self : FujimBusinessModel)
    (price_per_night : pyval) (occupancy occupancy' : Q) :
  valid_model self →
  let p := effective price_per_night (stored self "average_price_per_night") in
  0 <= p →
  0 <= stored self "owned_properties" →
  0 <= stored self "rental_properties" →
  ¬ occupancy == 0 → ¬ occupancy' == 0 → occupancy <= occupancy' →
  ∃ t t',
    calculate_total_metrics self (PyNum occupancy) price_per_night = Ok t
    ∧ calculate_total_metrics self (PyNum occupancy') price_per_night = Ok t'
    ∧ Total.total_revenue t <= Total.total_revenue t'
    ∧ (baseline_per_unit self "owned" <= p * 365 * 0.33 →
       baseline_per_unit self "rental" <= p * 365 * 0.33 →
       Total.total_profit t <= Total.total_profit t').
Proof.
  intros Hvalid p Hp Ho Hn Hr Hr' Hle.
  destruct (total_metrics_closed_form self (PyNum occupancy) price_per_night Hvalid)
    as (t & Ht & Hrev & Hprofit & _).
  destruct (total_metrics_closed_form self (PyNum occupancy') price_per_night
              Hvalid) as (t' & Ht' & Hrev' & Hprofit' & _).
  rewrite (effective_given occupancy) in Hrev, Hprofit by assumption.
  rewrite (effective_given occupancy') in Hrev', Hprofit' by assumption.
  fold p in Hrev, Hrev', Hprofit, Hprofit'.
  set (no := stored self "owned_properties") in *.
  set (nr := stored self "rental_properties") in *.
  exists t, t'. do 2 (split; [assumption |]).
  split.
  - rewrite Hrev, Hrev'.
    assert (H1 : 0 <= p * (no + nr))
      by (apply Qmult_le_0_compat; lra).
    assert (H2 : 0 <= (occupancy' - occupancy) * (p * (no + nr)))
      by (apply Qmult_le_0_compat; lra).
    lra.
  - intros Hbo Hbr. rewrite Hprofit, Hprofit'.
    assert (E : occupancy / 0.33 == occupancy * (100 # 33)) by field.
    assert (E' : occupancy' / 0.33 == occupancy' * (100 # 33)) by field.
    rewrite E, E'.
    set (bo := baseline_per_unit self "owned") in *.
    set (br := baseline_per_unit self "rental") in *.
    assert (H1 : 0 <= (p * 365 * 0.33 - bo) * no)
      by (apply Qmult_le_0_compat; lra).
    assert (H2 : 0 <= (p * 365 * 0.33 - br) * nr)
      by (apply Qmult_le_0_compat; lra).
    assert (H3 : 0 <= (occupancy' - occupancy)
                      * ((p * 365 * 0.33 - bo) * no + (p * 365 * 0.33 - br) * nr))
      by (apply Qmult_le_0_compat; lra).
    lra.
Qed.

Lemma higher_occupancy_never_lowers_revenue_witness :
  ∃ t t',
    calculate_total_metrics init (PyNum 0.25) PyNone = Ok t
    ∧ calculate_total_metrics init (PyNum 0.5) PyNone = Ok t'
    ∧ Total.total_revenue t <= Total.total_revenue t'
    ∧ Total.total_profit t <= Total.total_profit t'.
Proof.
  destruct (higher_occupancy_never_lowers_revenue init PyNone 0.25 0.5)
    as (t & t' & Ht & Ht' & Hrev & Hprofit);
    try apply init_valid; try discriminate.
  exists t, t'. do 3 (split; [assumption |]).
  apply Hprofit; vm_compute; discriminate.
Defined.

(** ** X4: what the break-even occupancy recovers *)

Lemma total_fixed_costs_entries (self : FujimBusinessModel) (n_owned n_rental : Q) :
  valid_model self →
  total_fixed_costs self n_owned n_rental
  = Ok (owned_fixed_per_unit self * n_owned + rental_fixed_per_unit self * n_rental).
Proof.
  intros [_ _ _ _ _ _ _ Hfo Hfr _ _]. unfold total_fixed_costs.
  read_fixed_cost Hfo "operations_fixed".
  read_fixed_cost Hfo "utilities_fixed".
  read_fixed_cost Hfo "insurance".
  read_fixed_cost Hfr "rent".
  read_fixed_cost Hfr "operations_fixed".
  read_fixed_cost Hfr "utilities_fixed".
  read_fixed_cost Hfr "insurance".
  reflexivity.
Qed.

Lemma breakeven_occupancy_inv (total price properties percent : Q) :
  breakeven_occupancy total price properties = Ok percent →
  ¬ price * properties == 0
  ∧ percent = ((total / (price * properties)) / 365) * 100.
Proof.
  unfold breakeven_occupancy, py_div. intros H.
  destruct (Qeq_bool (price * properties) 0) eqn:E; [discriminate |].
  split.
  - intros Hz. apply Qeq_bool_iff in Hz. congruence.
  - injection H as <-. reflexivity.
Qed.

(** X4. For a valid model, take the break-even occupancy that the
    break-even computation gives for the stored property counts and a
    price, as a rate (the percentage divided by 100, not zero).  Evaluated
    at that occupancy and price, the portfolio has a total revenue equal to
    the cash fixed costs, and a total profit equal to minus the variable
    costs at that occupancy: with positive baselines and counts the
    portfolio still makes a loss at the break-even point the code shows. *)
Theorem breakeven_occupancy_recovers_fixed_costs (self : FujimBusinessModel)
    (price percent : Q) :
  valid_model self →
  let n_owned := stored self "owned_properties" in
  let n_rental := stored self "rental_properties" in
  breakeven_tab self price n_owned n_rental = Ok percent →
  ¬ price == 0 → ¬ percent == 0 →
  ∃ t,
    calculate_total_metrics self (PyNum (percent / 100)) (PyNum price) = Ok t
    ∧ Total.total_revenue t
      == owned_fixed_per_unit self * n_owned + rental_fixed_per_unit self * n_rental
    ∧ Total.total_profit t
      == - ((baseline_per_unit self "owned" * n_owned
             + baseline_per_unit self "rental" * n_rental)
            * (percent / 100 / 0.33)).
Proof.
  intros Hvalid n_owned n_rental Htab Hprice Hpercent.
  unfold breakeven_tab in Htab.
  rewrite (total_fixed_costs_entries self n_owned n_rental Hvalid), bind_Ok in Htab.
  apply breakeven_occupancy_inv in Htab as [Hnz Hpct].
  set (fixed := owned_fixed_per_unit self * n_owned
                + rental_fixed_per_unit self * n_rental) in *.
  assert (Hrate : ¬ percent / 100 == 0).
  { intros Hz. apply Hpercent.
    assert (E : percent == percent / 100 * 100) by field.
    rewrite E, Hz. reflexivity. }
  destruct (total_metrics_closed_form self (PyNum (percent / 100)) (PyNum price)
              Hvalid) as (t & Ht & Hrev & Hprofit & _).
  rewrite (effective_given (percent / 100)) in Hrev, Hprofit by assumption.
  rewrite (effective_given price) in Hrev, Hprofit by assumption.
  fold n_owned n_rental in Hrev, Hprofit. fold fixed in Hprofit.
  assert (Hcover : percent / 100 * price * 365 * (n_owned + n_rental) == fixed).
  { rewrite Hpct. field. split; intros Hz; apply Hnz; rewrite Hz; ring. }
  exists t. split; [exact Ht |].
  split; [rewrite Hrev; exact Hcover |].
  rewrite Hprofit, Hcover. ring.
Qed.

Lemma breakeven_occupancy_recovers_fixed_costs_witness :
  ∃ t,
    breakeven_tab init 25000 15 15
    = Ok (35700000 / (25000 * (15 + 15)) / 365 * 100)
    ∧ calculate_total_metrics init
        (PyNum (35700000 / (25000 * (15 + 15)) / 365 * 100 / 100)) (PyNum 25000)
      = Ok t
    ∧ Total.total_revenue t == 35700000
    ∧ Total.total_profit t < 0.
Proof.
  destruct (breakeven_occupancy_recovers_fixed_costs init 25000
              (35700000 / (25000 * (15 + 15)) / 365 * 100) init_valid)
    as (t & Ht & Hrev & Hprofit);
    [vm_compute; reflexivity | discriminate | vm_compute; discriminate |].
  exists t. split; [vm_compute; reflexivity |]. split; [exact Ht |].
  split; [rewrite Hrev; vm_compute; reflexivity |].
  rewrite Hprofit. vm_compute. reflexivity.
Defined.


(** ** X6: depreciation stays out of the operating figures *)

Lemma pyfloat_eq_sym (x y : pyfloat) : pyfloat_eq x y → pyfloat_eq y x.
Proof. destruct x, y; simpl; auto. intros H. symmetry. exact H. Qed.

Lemma pyfloat_eq_trans (x y z : pyfloat) :
  pyfloat_eq x y → pyfloat_eq y z → pyfloat_eq x z.
Proof.
  destruct x, y, z; simpl; auto; try contradiction.
  intros H H'. rewrite H. exact H'.
Qed.

Lemma stored_insert_ne (self : FujimBusinessModel) (key k : string) (v : pyval) :
  key ≠ k → stored (set_params self (<[key := v]> (params self))) k = stored self k.
Proof. intros Hne. unfold stored; simpl. rewrite lookup_insert_ne by assumption. reflexivity. Qed.

Lemma stored_insert_eq (self : FujimBusinessModel) (key : string) (q : Q) :
  stored (set_params self (<[key := PyNum q]> (params self))) key = q.
Proof. unfold stored; simpl. rewrite lookup_insert_eq. reflexivity. Qed.

(** X6. For a valid model, replacing [depreciation_years] by any other
    non-zero number changes nothing in the owned class but the
    depreciation line and the accounting total that contains it: revenue,
    operating costs, NOI, ROI and payback period stay the same, and the new
    depreciation times the new number of years is the total investment. *)
Theorem depreciation_years_leave_noi_alone (self : FujimBusinessModel)
    (years : Q) (occupancy_rate price_per_night num_properties : pyval) :
  valid_model self → ¬ years == 0 →
  ∃ m m',
    calculate_owned_property_metrics self occupancy_rate price_per_night
      num_properties = Ok m
    ∧ calculate_owned_property_metrics
        (set_params self (<["depreciation_years" := PyNum years]> (params self)))
        occupancy_rate price_per_night num_properties = Ok m'
    ∧ Owned.annual_revenue m' == Owned.annual_revenue m
    ∧ Owned.operating_costs m' == Owned.operating_costs m
    ∧ Owned.noi m' == Owned.noi m
    ∧ Owned.roi m' == Owned.roi m
    ∧ pyfloat_eq (Owned.payback_period m') (Owned.payback_period m)
    ∧ ∃ d c, Owned.depreciation m' = Number d
             ∧ d * years == Owned.total_investment m
             ∧ Owned.total_costs m' = Number c
             ∧ c == Owned.operating_costs m + d.
Proof.
  intros Hvalid Hyears.
  set (self' := set_params self
                  (<["depreciation_years" := PyNum years]> (params self))).
  assert (Hvalid' : valid_model self')
    by (apply valid_model_insert; auto).
  destruct (owned_metrics_closed_form self occupancy_rate price_per_night
              num_properties Hvalid)
    as (m & Hm & Hrev & Hvar & Hop & Hnoi & Hinv & _).
  destruct (owned_metrics_closed_form self' occupancy_rate price_per_night
              num_properties Hvalid')
    as (m' & Hm' & Hrev' & Hvar' & Hop' & Hnoi' & Hinv' & d & Ed & Hdep' & Htot').
  unfold self' in Hrev', Hvar', Hop', Hinv', Hdep'.
  rewrite stored_insert_eq in Hdep'.
  rewrite ?stored_insert_ne in Hrev' by done.
  rewrite ?stored_insert_ne in Hvar' by done.
  rewrite ?stored_insert_ne in Hop' by done.
  rewrite ?stored_insert_ne in Hinv' by done.
  change (baseline_per_unit (set_params self _) "owned")
    with (baseline_per_unit self "owned") in Hvar'.
  change (owned_fixed_per_unit (set_params self _))
    with (owned_fixed_per_unit self) in Hop'.
  assert (Erev : Owned.annual_revenue m' == Owned.annual_revenue m)
    by (rewrite Hrev, Hrev'; reflexivity).
  assert (Eop : Owned.operating_costs m' == Owned.operating_costs m)
    by (rewrite Hop, Hop', Hvar, Hvar'; reflexivity).
  assert (Enoi : Owned.noi m' == Owned.noi m)
    by (rewrite Hnoi, Hnoi', Erev, Eop; reflexivity).
  assert (Einv : Owned.total_investment m' == Owned.total_investment m)
    by (rewrite Hinv, Hinv'; reflexivity).
  exists m, m'. do 2 (split; [assumption |]).
  do 3 (split; [assumption |]).
  destruct (owned_metrics_fields _ _ _ _ _ Hm) as (_ & _ & _ & _ & _ & _ & -> & ->).
  destruct (owned_metrics_fields _ _ _ _ _ Hm') as (_ & _ & _ & _ & _ & _ & -> & ->).
  split; [apply roi_of_proper; assumption |].
  split; [apply payback_of_proper; assumption |].
  exists d, (Owned.operating_costs m' + d).
  split; [exact Ed |].
  split; [rewrite Hdep', Einv; field; exact Hyears |].
  split; [exact Htot' | rewrite Eop; reflexivity].
Qed.

Lemma depreciation_years_leave_noi_alone_witness :
  ∃ m m',
    calculate_owned_property_metrics init PyNone PyNone PyNone = Ok m
    ∧ calculate_owned_property_metrics
        (set_params init (<["depreciation_years" := PyNum 20]> (params init)))
        PyNone PyNone PyNone = Ok m'
    ∧ Owned.noi m' == Owned.noi m
    ∧ Owned.roi m' == Owned.roi m
    ∧ ∃ d, Owned.depreciation m' = Number d
           ∧ d * 20 == Owned.total_investment m.
Proof.
  destruct (depreciation_years_leave_noi_alone init 20 PyNone PyNone PyNone
              init_valid)
    as (m & m' & Hm & Hm' & _ & _ & Hnoi & Hroi & _ & d & c & Ed & Hdep & _);
    [discriminate |].
  exists m, m'. do 4 (split; [assumption |]).
  exists d. split; assumption.
Defined.


(** ** X7: per-class ratios do not depend on the property count *)

(** X7. For a valid model and two positive property counts passed as
    argument, both per-class functions return, and the ROI and the payback
    period of the class are the same for both counts, while revenue and
    operating income are proportional to the count. *)
Theorem class_ratios_ignore_property_count (self : FujimBusinessModel)
    (occupancy_rate price_per_night : pyval) (n n' : Q) :
  valid_model self → 0 < n → 0 < n' →
  (∃ m m',
     calculate_owned_property_metrics self occupancy_rate price_per_night (PyNum n)
       = Ok m
     ∧ calculate_owned_property_metrics self occupancy_rate price_per_night
         (PyNum n') = Ok m'
     ∧ Owned.roi m == Owned.roi m'
     ∧ pyfloat_eq (Owned.payback_period m) (Owned.payback_period m')
     ∧ Owned.annual_revenue m * n' == Owned.annual_revenue m' * n
     ∧ Owned.noi m * n' == Owned.noi m' * n)
  ∧ (∃ m m',
       calculate_rental_property_metrics self occupancy_rate price_per_night
         (PyNum n) = Ok m
       ∧ calculate_rental_property_metrics self occupancy_rate price_per_night
           (PyNum n') = Ok m'
       ∧ Rental.roi m == Rental.roi m'
       ∧ pyfloat_eq (Rental.payback_period m) (Rental.payback_period m')
       ∧ Rental.annual_revenue m * n' == Rental.annual_revenue m' * n
       ∧ Rental.operating_profit m * n' == Rental.operating_profit m' * n).
Proof.
  intros Hvalid Hn Hn'.
  assert (Hnz : ¬ n == 0) by (intros Hz; lra).
  assert (Hnz' : ¬ n' == 0) by (intros Hz; lra).
  set (r := effective occupancy_rate (stored self "base_occupancy_rate")).
  set (p := effective price_per_night (stored self "average_price_per_night")).
  split.
  - destruct (owned_metrics_closed_form self occupancy_rate price_per_night
                (PyNum n) Hvalid)
      as (m & Hm & Hrev & Hvar & Hop & Hnoi & Hinv & _).
    destruct (owned_metrics_closed_form self occupancy_rate price_per_night
                (PyNum n') Hvalid)
      as (m' & Hm' & Hrev' & Hvar' & Hop' & Hnoi' & Hinv' & _).
    rewrite (effective_given n) in Hrev, Hvar, Hop, Hinv by assumption.
    rewrite (effective_given n') in Hrev', Hvar', Hop', Hinv' by assumption.
    fold r p in Hrev, Hvar, Hrev', Hvar'.
    set (unit := r * p * 365 - owned_fixed_per_unit self
                 - baseline_per_unit self "owned" * (r / 0.33)).
    assert (Enoi : Owned.noi m == unit * n)
      by (rewrite Hnoi, Hop, Hvar, Hrev; unfold unit; ring).
    assert (Enoi' : Owned.noi m' == unit * n')
      by (rewrite Hnoi', Hop', Hvar', Hrev'; unfold unit; ring).
    exists m, m'. do 2 (split; [assumption |]).
    destruct (owned_metrics_fields _ _ _ _ _ Hm) as (_ & _ & _ & _ & _ & _ & -> & ->).
    destruct (owned_metrics_fields _ _ _ _ _ Hm') as (_ & _ & _ & _ & _ & _ & -> & ->).
    split; [| split; [| split]].
    + rewrite (roi_of_proper _ _ _ _ Enoi Hinv), (roi_of_proper _ _ _ _ Enoi' Hinv').
      rewrite !roi_of_scale by assumption. reflexivity.
    + eapply pyfloat_eq_trans; [apply (payback_of_proper _ _ _ _ Hinv Enoi) |].
      eapply pyfloat_eq_trans; [apply payback_of_scale, Hn |].
      apply pyfloat_eq_sym.
      eapply pyfloat_eq_trans; [apply (payback_of_proper _ _ _ _ Hinv' Enoi') |].
      apply payback_of_scale, Hn'.
    + rewrite Hrev, Hrev'. ring.
    + rewrite Enoi, Enoi'. ring.
  - destruct (rental_metrics_closed_form self occupancy_rate price_per_night
                (PyNum n) Hvalid)
      as (m & Hm & Hrev & Hvar & Hfix & Htot & Hprofit & Hinv).
    destruct (rental_metrics_closed_form self occupancy_rate price_per_night
                (PyNum n') Hvalid)
      as (m' & Hm' & Hrev' & Hvar' & Hfix' & Htot' & Hprofit' & Hinv').
    rewrite (effective_given n) in Hrev, Hvar, Hfix, Hinv by assumption.
    rewrite (effective_given n') in Hrev', Hvar', Hfix', Hinv' by assumption.
    fold r p in Hrev, Hvar, Hrev', Hvar'.
    set (unit := r * p * 365 - rental_fixed_per_unit self
                 - baseline_per_unit self "rental" * (r / 0.33)).
    assert (Eprofit : Rental.operating_profit m == unit * n)
      by (rewrite Hprofit, Htot, Hfix, Hvar, Hrev; unfold unit; ring).
    assert (Eprofit' : Rental.operating_profit m' == unit * n')
      by (rewrite Hprofit', Htot', Hfix', Hvar', Hrev'; unfold unit; ring).
    exists m, m'. do 2 (split; [assumption |]).
    destruct (rental_metrics_fields _ _ _ _ _ Hm) as (_ & _ & _ & _ & _ & _ & -> & ->).
    destruct (rental_metrics_fields _ _ _ _ _ Hm') as (_ & _ & _ & _ & _ & _ & -> & ->).
    split; [| split; [| split]].
    + rewrite (roi_of_proper _ _ _ _ Eprofit Hinv),
        (roi_of_proper _ _ _ _ Eprofit' Hinv').
      rewrite !roi_of_scale by assumption. reflexivity.
    + eapply pyfloat_eq_trans; [apply (payback_of_proper _ _ _ _ Hinv Eprofit) |].
      eapply pyfloat_eq_trans; [apply payback_of_scale, Hn |].
      apply pyfloat_eq_sym.
      eapply pyfloat_eq_trans; [apply (payback_of_proper _ _ _ _ Hinv' Eprofit') |].
      apply payback_of_scale, Hn'.
    + rewrite Hrev, Hrev'. ring.
    + rewrite Eprofit, Eprofit'. ring.
Qed.

Lemma class_ratios_ignore_property_count_witness :
  ∃ m m',
    calculate_owned_property_metrics init PyNone PyNone (PyNum 5) = Ok m
    ∧ calculate_owned_property_metrics init PyNone PyNone (PyNum 30) = Ok m'
    ∧ Owned.roi m == Owned.roi m'
    ∧ pyfloat_eq (Owned.payback_period m) (Owned.payback_period m').
Proof.
  destruct (class_ratios_ignore_property_count init PyNone PyNone 5 30 init_valid)
    as ((m & m' & Hm & Hm' & Hroi & Hpay & _) & _); try reflexivity.
  exists m, m'. repeat split; assumption.
Defined.


(** ** X8: a sweep point of zero *)

Lemma total_metrics_zero_occupancy (self : FujimBusinessModel) (zero : Q)
    (price_per_night : pyval) :
  zero == 0 →
  calculate_total_metrics self (NpNum zero) price_per_night
  = calculate_total_metrics self PyNone price_per_night.
Proof.
  intros Hz.
  unfold calculate_total_metrics, calculate_owned_property_metrics,
    calculate_rental_property_metrics, resolve_arguments.
  rewrite !(py_or_numpy_zero zero) by exact Hz. reflexivity.
Qed.

Lemma total_metrics_zero_price (self : FujimBusinessModel) (zero : Q)
    (occupancy_rate : pyval) :
  zero == 0 →
  calculate_total_metrics self occupancy_rate (NpNum zero)
  = calculate_total_metrics self occupancy_rate PyNone.
Proof.
  intros Hz.
  unfold calculate_total_metrics, calculate_owned_property_metrics,
    calculate_rental_property_metrics, resolve_arguments.
  rewrite !(py_or_numpy_zero zero) by exact Hz. reflexivity.
Qed.

(** The rows of a sweep through one of the two arguments: the object is
    never written, and every row is made of the evaluation at its point. *)
Lemma sweep_loop_argument (self : FujimBusinessModel) (param_name : string)
    (values : list Q) (results : list row) :
  valid_model self →
  param_name = "occupancy_rate" ∨ param_name = "price_per_night" →
  ∃ rows,
    sweep_loop self param_name values results = (self, Ok (results ++ rows))
    ∧ Forall2 (λ val r,
         ∃ t, (if decide (param_name = "occupancy_rate")
               then calculate_total_metrics self (NpNum val) PyNone
               else calculate_total_metrics self PyNone (NpNum val)) = Ok t
              ∧ r = make_row param_name val t)
       values rows.
Proof.
  intros Hvalid Hname. revert results.
  induction values as [|val values IH]; intros results.
  - exists []. rewrite app_nil_r. split; [reflexivity | constructor].
  - assert (Hpoint : ∃ t,
              sweep_point self param_name val = (self, Ok t)
              ∧ (if decide (param_name = "occupancy_rate")
                 then calculate_total_metrics self (NpNum val) PyNone
                 else calculate_total_metrics self PyNone (NpNum val)) = Ok t).
    { unfold sweep_point. destruct Hname as [-> | ->].
      - rewrite !decide_True by reflexivity.
        destruct (total_metrics_valid self (NpNum val) PyNone Hvalid) as [t Ht].
        exists t. rewrite Ht. split; reflexivity.
      - rewrite decide_False by discriminate. rewrite decide_True by reflexivity.
        destruct (total_metrics_valid self PyNone (NpNum val) Hvalid) as [t Ht].
        exists t. rewrite Ht. split; reflexivity. }
    destruct Hpoint as (t & Hpoint & Ht).
    simpl. rewrite Hpoint.
    destruct (IH (results ++ [make_row param_name val t]))
      as (rows & Hloop & Hrows).
    rewrite Hloop, <- app_assoc.
    eexists. split; [reflexivity |].
    constructor; [| exact Hrows].
    exists t. split; [exact Ht | reflexivity].
Qed.

(** X8. In a sweep of a valid model through [occupancy_rate] or
    [price_per_night], a point whose value is zero is not evaluated at
    zero: its row holds the zero under the name of the parameter, and the
    profit, ROI and payback period of the stored default, the figures that
    [calculate_total_metrics()] returns without arguments. *)
Theorem zero_sweep_point_shows_the_default (self : FujimBusinessModel)
    (param_name : string) (min_val max_val : Q) (steps : Z)
    (values : list Q) (zero : Q) :
  valid_model self →
  param_name = "occupancy_rate" ∨ param_name = "price_per_night" →
  linspace min_val max_val steps = Ok values →
  zero ∈ values → zero == 0 →
  ∃ rows r base,
    sensitivity_analysis self param_name min_val max_val steps = (self, Ok rows)
    ∧ calculate_total_metrics self PyNone PyNone = Ok base
    ∧ r ∈ rows
    ∧ dict_get r param_name = Some (Finite zero)
    ∧ dict_get r "total_profit" = Some (Finite (Total.total_profit base))
    ∧ dict_get r "overall_roi" = Some (Finite (Total.overall_roi base))
    ∧ dict_get r "overall_payback" = Some (Total.overall_payback base).
Proof.
  intros Hvalid Hname Hvalues Hin Hzero.
  unfold sensitivity_analysis. rewrite Hvalues.
  destruct (sweep_loop_argument self param_name values [] Hvalid Hname)
    as (rows & Hloop & Hrows).
  apply list_elem_of_lookup in Hin as [i Hi].
  destruct (Forall2_lookup_l _ _ _ _ _ Hrows Hi) as (r & Hr & t & Ht & ->).
  exists rows, (make_row param_name zero t), t. split; [exact Hloop |].
  split.
  - rewrite <- Ht. case_decide.
    + symmetry. apply total_metrics_zero_occupancy, Hzero.
    + symmetry. apply total_metrics_zero_price, Hzero.
  - split; [eapply list_elem_of_lookup_2; exact Hr |].
    split; [| apply make_row_metrics].
    apply (proj1 (make_row_value param_name zero t)).
    unfold metric_columns. rewrite !not_elem_of_cons.
    destruct Hname as [-> | ->];
      repeat split; try discriminate; apply not_elem_of_nil.
Qed.

Lemma zero_sweep_point_shows_the_default_witness :
  ∃ rows r base,
    sensitivity_analysis init "occupancy_rate" 0 1 3 = (init, Ok rows)
    ∧ calculate_total_metrics init PyNone PyNone = Ok base
    ∧ r ∈ rows
    ∧ dict_get r "occupancy_rate" = Some (Finite (0 * ((1 - 0) / 2) + 0))
    ∧ dict_get r "total_profit" = Some (Finite (Total.total_profit base)).
Proof.
  destruct (zero_sweep_point_shows_the_default init "occupancy_rate" 0 1 3
              [0 * ((1 - 0) / 2) + 0; 1 * ((1 - 0) / 2) + 0; 1]
              (0 * ((1 - 0) / 2) + 0) init_valid)
    as (rows & r & base & Hsweep & Hbase & Hin & Hvalue & Hprofit & _).
  - left; reflexivity.
  - reflexivity.
  - left.
  - reflexivity.
  - exists rows, r, base. repeat split; assumption.
Defined.

(** ** X9: a sweep that raises *)

(** X9. When the evaluation at the first point of a sweep through a stored
    parameter (any name other than [occupancy_rate] and [price_per_night])
    raises, the sweep raises the same exception and the parameter is left
    overwritten with the numpy scalar of that point: the assignment that
    restores it is never reached. *)
Theorem failed_sweep_leaves_parameter_overwritten (self : FujimBusinessModel)
    (param_name : string) (min_val max_val : Q) (steps : Z)
    (val : Q) (values : list Q) (e : exn) :
  param_name ≠ "occupancy_rate" → param_name ≠ "price_per_night" →
  linspace min_val max_val steps = Ok (val :: values) →
  calculate_total_metrics
    (set_params self (<[param_name := NpNum val]> (params self))) PyNone PyNone
  = Raise e →
  sensitivity_analysis self param_name min_val max_val steps
  = (set_params self (<[param_name := NpNum val]> (params self)), Raise e).
Proof.
  intros Hocc Hprice Hvalues Hraise.
  unfold sensitivity_analysis. rewrite Hvalues. simpl.
  unfold sweep_point. rewrite !decide_False by assumption.
  rewrite Hraise. reflexivity.
Qed.

Lemma failed_sweep_leaves_parameter_overwritten_witness :
  params init !! "monthly_rent" = Some (PyNum 70000)
  ∧ ∃ after,
      sensitivity_analysis
        {| params := params init;
           fixed_costs := delete "owned" (fixed_costs init);
           variable_costs := variable_costs init |}
        "monthly_rent" 60000 80000 3
      = (after, Raise (KeyError "owned"))
      ∧ params after !! "monthly_rent"
        = Some (NpNum (0 * ((80000 - 60000) / 2) + 60000)).
Proof.
  split; [reflexivity |].
  eexists. split.
  - apply (failed_sweep_leaves_parameter_overwritten _ "monthly_rent"
             60000 80000 3 (0 * ((80000 - 60000) / 2) + 60000)
             [1 * ((80000 - 60000) / 2) + 60000; 80000]);
      try discriminate; try reflexivity.
  - simpl. apply lookup_insert_eq.
Defined.


(** ** X10, X11: which parameters an evaluation reads *)

Lemma getitem_agree {V : Type} (d d' : gmap string V) (key : string) :
  d' !! key = d !! key → getitem d' key = getitem d key.
Proof. unfold getitem. intros ->. reflexivity. Qed.

(** X10. When the three arguments of a per-class function are given and
    not zero, the stored defaults are not read: the owned result depends
    only on the cost schedules and on the entries
    [owned_initial_investment] and [depreciation_years], the rental result
    only on the cost schedules and on [rental_initial_investment].  Two
    models that agree on these give the same result, error included,
    whatever else their parameter dictionaries hold or lack; in particular
    the rental class never reads [depreciation_years]. *)
Theorem given_arguments_leave_defaults_unread (self self' : FujimBusinessModel)
    (occupancy_rate price_per_night num_properties : Q) :
  ¬ occupancy_rate == 0 → ¬ price_per_night == 0 → ¬ num_properties == 0 →
  fixed_costs self' = fixed_costs self →
  variable_costs self' = variable_costs self →
  (params self' !! "owned_initial_investment"
   = params self !! "owned_initial_investment" →
   params self' !! "depreciation_years" = params self !! "depreciation_years" →
   calculate_owned_property_metrics self' (PyNum occupancy_rate)
     (PyNum price_per_night) (PyNum num_properties)
   = calculate_owned_property_metrics self (PyNum occupancy_rate)
       (PyNum price_per_night) (PyNum num_properties))
  ∧ (params self' !! "rental_initial_investment"
     = params self !! "rental_initial_investment" →
     calculate_rental_property_metrics self' (PyNum occupancy_rate)
       (PyNum price_per_night) (PyNum num_properties)
     = calculate_rental_property_metrics self (PyNum occupancy_rate)
         (PyNum price_per_night) (PyNum num_properties)).
Proof.
  intros Ho Hp Hn Hfixed Hvariable. split.
  - intros Hinv Hyears.
    unfold calculate_owned_property_metrics.
    rewrite !resolve_arguments_given, !numpy_properties_given by assumption.
    unfold fixed_cost, calculate_variable_costs.
    rewrite Hfixed, Hvariable, (getitem_agree _ _ _ Hinv),
      (getitem_agree _ _ _ Hyears).
    reflexivity.
  - intros Hinv.
    unfold calculate_rental_property_metrics.
    rewrite !resolve_arguments_given by assumption.
    unfold fixed_cost, calculate_variable_costs.
    rewrite Hfixed, Hvariable, (getitem_agree _ _ _ Hinv).
    reflexivity.
Qed.

Lemma given_arguments_leave_defaults_unread_witness :
  ∃ m,
    calculate_rental_property_metrics
      (set_params init
         (delete "base_occupancy_rate" (delete "depreciation_years" (params init))))
      (PyNum 0.5) (PyNum 30000) (PyNum 10) = Ok m
    ∧ calculate_rental_property_metrics init (PyNum 0.5) (PyNum 30000) (PyNum 10)
      = Ok m.
Proof.
  destruct (given_arguments_leave_defaults_unread init
              (set_params init
                 (delete "base_occupancy_rate"
                    (delete "depreciation_years" (params init))))
              0.5 30000 10) as [_ Hrental];
    [discriminate | discriminate | discriminate | reflexivity | reflexivity |].
  rewrite Hrental by (vm_compute; reflexivity).
  eexists. split; vm_compute; reflexivity.
Defined.

(** X11. A per-class function called without an occupancy (or with
    occupancy zero) raises [KeyError] for [base_occupancy_rate] when the
    parameter dictionary has no such entry, and [TypeError] when the entry
    is [None] and the price and the count resolve to numbers; the portfolio
    evaluation fails in the same way, because the owned class is evaluated
    first. *)
Theorem missing_default_raises (self : FujimBusinessModel)
    (price_per_night num_properties : pyval) :
  (params self !! "base_occupancy_rate" = None →
   calculate_owned_property_metrics self PyNone price_per_night num_properties
   = Raise (KeyError "base_occupancy_rate")
   ∧ calculate_rental_property_metrics self PyNone price_per_night num_properties
     = Raise (KeyError "base_occupancy_rate")
   ∧ calculate_total_metrics self (PyNum 0) price_per_night
     = Raise (KeyError "base_occupancy_rate"))
  ∧ (params self !! "base_occupancy_rate" = Some PyNone →
     ∀ p n, ¬ p == 0 → ¬ n == 0 →
     calculate_owned_property_metrics self PyNone (PyNum p) (PyNum n)
     = Raise TypeError
     ∧ calculate_rental_property_metrics self PyNone (PyNum p) (PyNum n)
       = Raise TypeError).
Proof.
  split.
  - intros Hnone.
    assert (Hres : ∀ occ price n key, truthy occ = false →
              resolve_arguments self occ price n key
              = Raise (KeyError "base_occupancy_rate")).
    { intros occ price n key Hocc. unfold resolve_arguments, py_or, getitem.
      rewrite Hocc, Hnone. reflexivity. }
    unfold calculate_total_metrics, calculate_owned_property_metrics,
      calculate_rental_property_metrics.
    rewrite !Hres by reflexivity. repeat split; reflexivity.
  - intros Hnone p n Hp Hn.
    assert (Hres : ∀ key,
              resolve_arguments self PyNone (PyNum p) (PyNum n) key
              = Raise TypeError).
    { intros key. unfold resolve_arguments.
      rewrite !py_or_truthy by assumption.
      unfold py_or, getitem; simpl. rewrite Hnone. reflexivity. }
    unfold calculate_owned_property_metrics, calculate_rental_property_metrics.
    rewrite !Hres. split; reflexivity.
Qed.

Lemma missing_default_raises_witness :
  calculate_total_metrics
    (set_params init (delete "base_occupancy_rate" (params init)))
    (PyNum 0) PyNone
  = Raise (KeyError "base_occupancy_rate")
  ∧ calculate_owned_property_metrics
      (set_params init (<["base_occupancy_rate" := PyNone]> (params init)))
      PyNone (PyNum 25000) (PyNum 15)
    = Raise TypeError.
Proof.
  split.
  - apply (proj1 (missing_default_raises
             (set_params init (delete "base_occupancy_rate" (params init)))
             PyNone PyNone)).
    vm_compute; reflexivity.
  - apply (proj2 (missing_default_raises
             (set_params init (<["base_occupancy_rate" := PyNone]> (params init)))
             PyNone PyNone));
      [vm_compute; reflexivity | discriminate | discriminate].
Defined.


(** ** X12: the variable-cost baseline *)

(** X12. The amounts of a variable-cost schedule are the costs per unit at
    occupancy 0.33: at that occupancy the variable cost of a class is the
    sum of its schedule times the property count.  A property type without
    a schedule raises [KeyError] for that type, at any occupancy. *)
Theorem variable_costs_at_reference_occupancy (self : FujimBusinessModel)
    (property_type : string) (r num_properties : Q) :
  (∀ schedule, variable_costs self !! property_type = Some schedule →
     ∃ v, calculate_variable_costs self 0.33 property_type num_properties = Ok v
          ∧ v == Qsum ((λ item, item.2) <$> map_to_list schedule) * num_properties)
  ∧ (variable_costs self !! property_type = None →
     calculate_variable_costs self r property_type num_properties
     = Raise (KeyError property_type)).
Proof.
  split.
  - intros schedule Hschedule.
    destruct (variable_costs_baseline self 0.33 property_type num_properties)
      as (v & Hv & Hsum); [eauto |].
    exists v. split; [exact Hv |].
    rewrite Hsum. unfold baseline_per_unit. rewrite Hschedule. field.
  - intros Hnone. unfold calculate_variable_costs, getitem.
    rewrite Hnone. reflexivity.
Qed.

Lemma variable_costs_at_reference_occupancy_witness :
  (∃ v, calculate_variable_costs init 0.33 "owned" 15 = Ok v
        ∧ v == (79200 + 22440 + 39600) * 15)
  ∧ calculate_variable_costs init 0.5 "hotel" 15 = Raise (KeyError "hotel").
Proof.
  destruct (variable_costs_at_reference_occupancy init "owned" 0.5 15)
    as [Hreference _].
  destruct (variable_costs_at_reference_occupancy init "hotel" 0.5 15)
    as [_ Hmissing].
  split.
  - destruct (Hreference (variable_costs init !!! "owned"))
      as (v & Hv & Hsum); [vm_compute; reflexivity |].
    exists v. split; [exact Hv |]. rewrite Hsum. vm_compute. reflexivity.
  - apply Hmissing. vm_compute; reflexivity.
Defined.

(** ** X13: the slider values reach the evaluation *)

Lemma IntSlider_set_value_range (s : IntSlider.t) (v : Z) :
  (IntSlider.min s ≤ IntSlider.max s)%Z →
  (IntSlider.min s ≤ IntSlider.value (IntSlider.set_value s v)
   ≤ IntSlider.max s)%Z
  ∧ ((IntSlider.min s ≤ v ≤ IntSlider.max s)%Z →
     IntSlider.value (IntSlider.set_value s v) = v).
Proof. intros H. simpl. lia. Qed.

Lemma FloatSlider_set_value_range (s : FloatSlider.t) (v : Q) :
  FloatSlider.min s <= FloatSlider.max s →
  FloatSlider.min s <= FloatSlider.value (FloatSlider.set_value s v)
  ∧ FloatSlider.value (FloatSlider.set_value s v) <= FloatSlider.max s
  ∧ (FloatSlider.min s <= v → v <= FloatSlider.max s →
     FloatSlider.value (FloatSlider.set_value s v) = v).
Proof.
  intros H. simpl. unfold py_min, py_max.
  destruct (Qlt_le_dec v (FloatSlider.min s)) as [H1|H1];
    [destruct (Qlt_le_dec (FloatSlider.max s) (FloatSlider.min s)) as [H2|H2]
    | destruct (Qlt_le_dec (FloatSlider.max s) v) as [H2|H2]];
    repeat split; try lra; intros; try reflexivity; exfalso; lra.
Qed.

(** A sweep of a valid model through one of the two arguments returns and
    leaves the object as it was. *)
Lemma sweep_of_argument_returns (self : FujimBusinessModel) (param_name : string)
    (min_val max_val : Q) (steps : Z) :
  valid_model self → (0 ≤ steps)%Z →
  param_name = "occupancy_rate" ∨ param_name = "price_per_night" →
  ∃ rows,
    sensitivity_analysis self param_name min_val max_val steps = (self, Ok rows).
Proof.
  intros Hvalid Hsteps Hname.
  destruct (linspace_length min_val max_val steps Hsteps) as (values & Hlin & _).
  destruct (sensitivity_analysis_valid self param_name min_val max_val steps
              values Hvalid Hlin) as (rows & Hsweep & _).
  rewrite swept_known in Hsweep by (right; exact Hname). eauto.
Qed.

(** X13. For a valid model and any values asked of the four sliders,
    [update_analysis] returns.  The values it reads lie in the ranges of
    the sliders (15 to 70 percent, 15,000 to 40,000, and 5 to 30 for each
    property count) and are the values asked for when these lie in the
    range; so no argument of the evaluation is zero and none is replaced
    by a default.  The two counts stay in the parameter dictionary of the
    model after the call, the cost schedules and the sliders are as before,
    and the total revenue is occupancy / 100 x price x 365 x (owned +
    rental), which is positive. *)
Theorem update_analysis_uses_the_counts (model : FujimBusinessModel)
    (occupancy : Q) (price owned_properties rental_properties : Z) :
  valid_model model →
  let self :=
    InteractiveModelAnalyzer.move_sliders
      (InteractiveModelAnalyzer.setup_widgets model)
      occupancy price owned_properties rental_properties in
  let occupancy_percent :=
    FloatSlider.value (InteractiveModelAnalyzer.occupancy_slider self) in
  let price_per_night :=
    IntSlider.value (InteractiveModelAnalyzer.price_slider self) in
  let n_owned :=
    IntSlider.value (InteractiveModelAnalyzer.owned_properties_slider self) in
  let n_rental :=
    IntSlider.value (InteractiveModelAnalyzer.rental_properties_slider self) in
  (15 <= occupancy_percent ∧ occupancy_percent <= 70
   ∧ (15000 ≤ price_per_night ≤ 40000)%Z
   ∧ (5 ≤ n_owned ≤ 30)%Z ∧ (5 ≤ n_rental ≤ 30)%Z)
  ∧ (15 <= occupancy → occupancy <= 70 → occupancy_percent = occupancy)
  ∧ ((15000 ≤ price ≤ 40000)%Z → price_per_night = price)
  ∧ ((5 ≤ owned_properties ≤ 30)%Z → n_owned = owned_properties)
  ∧ ((5 ≤ rental_properties ≤ 30)%Z → n_rental = rental_properties)
  ∧ ∃ after t,
      InteractiveModelAnalyzer.update_analysis self = (after, Ok t)
      ∧ params (InteractiveModelAnalyzer.model after)
        = <["rental_properties" := PyNum (inject_Z n_rental)]>
            (<["owned_properties" := PyNum (inject_Z n_owned)]> (params model))
      ∧ fixed_costs (InteractiveModelAnalyzer.model after) = fixed_costs model
      ∧ variable_costs (InteractiveModelAnalyzer.model after)
        = variable_costs model
      ∧ InteractiveModelAnalyzer.set_model after model = self
      ∧ Total.total_revenue t
        == occupancy_percent / 100 * inject_Z price_per_night * 365
           * (inject_Z n_owned + inject_Z n_rental)
      ∧ 0 < Total.total_revenue t
      ∧ Total.total_investment t
        == stored model "owned_initial_investment" * inject_Z n_owned
           + stored model "rental_initial_investment" * inject_Z n_rental.
Proof.
  intros Hvalid self occupancy_percent price_per_night n_owned n_rental.
  destruct (FloatSlider_set_value_range
              {| FloatSlider.value := 33; FloatSlider.min := 15;
                 FloatSlider.max := 70 |} occupancy)
    as (Hocc_lo & Hocc_hi & Hocc_id); [discriminate |].
  destruct (IntSlider_set_value_range
              {| IntSlider.value := 25000; IntSlider.min := 15000;
                 IntSlider.max := 40000 |} price) as (Hprice & Hprice_id);
    [discriminate |].
  destruct (IntSlider_set_value_range
              {| IntSlider.value := 15; IntSlider.min := 5;
                 IntSlider.max := 30 |} owned_properties) as (Howned & Howned_id);
    [discriminate |].
  destruct (IntSlider_set_value_range
              {| IntSlider.value := 15; IntSlider.min := 5;
                 IntSlider.max := 30 |} rental_properties)
    as (Hrental & Hrental_id); [discriminate |].
  change (15 <= occupancy_percent) in Hocc_lo.
  change (occupancy_percent <= 70) in Hocc_hi.
  change (15000 ≤ price_per_night ≤ 40000)%Z in Hprice.
  change (5 ≤ n_owned ≤ 30)%Z in Howned.
  change (5 ≤ n_rental ≤ 30)%Z in Hrental.
  split; [auto 10 |].
  do 4 (split; [assumption |]).
  unfold InteractiveModelAnalyzer.update_analysis.
  change (FloatSlider.value (InteractiveModelAnalyzer.occupancy_slider self))
    with occupancy_percent.
  change (IntSlider.value (InteractiveModelAnalyzer.price_slider self))
    with price_per_night.
  change (IntSlider.value (InteractiveModelAnalyzer.owned_properties_slider self))
    with n_owned.
  change (IntSlider.value (InteractiveModelAnalyzer.rental_properties_slider self))
    with n_rental.
  change (InteractiveModelAnalyzer.model self) with model.
  set (model1 := set_params model
                   (<["owned_properties" := PyNum (inject_Z n_owned)]>
                      (params model))).
  set (model2 := set_params model1
                   (<["rental_properties" := PyNum (inject_Z n_rental)]>
                      (params model1))).
  assert (Hvalid1 : valid_model model1)
    by (apply valid_model_insert; [assumption | discriminate]).
  assert (Hvalid2 : valid_model model2)
    by (apply valid_model_insert; [assumption | discriminate]).
  assert (Hrate : 0 < occupancy_percent / 100)
    by (apply Qlt_shift_div_l; [reflexivity | lra]).
  assert (Hp : 15000 <= inject_Z price_per_night)
    by (change 15000 with (inject_Z 15000); rewrite <- Zle_Qle; lia).
  assert (Ho : 5 <= inject_Z n_owned)
    by (change 5 with (inject_Z 5); rewrite <- Zle_Qle; lia).
  assert (Hr : 5 <= inject_Z n_rental)
    by (change 5 with (inject_Z 5); rewrite <- Zle_Qle; lia).
  destruct (total_metrics_closed_form model2 (PyNum (occupancy_percent / 100))
              (PyNum (inject_Z price_per_night)) Hvalid2)
    as (t & Ht & Hrev & _ & Hinv).
  rewrite (effective_given (occupancy_percent / 100)) in Hrev by lra.
  rewrite (effective_given (inject_Z price_per_night)) in Hrev by lra.
  assert (Eowned : stored model2 "owned_properties" = inject_Z n_owned).
  { unfold model2. rewrite stored_insert_ne by done. apply stored_insert_eq. }
  assert (Erental : stored model2 "rental_properties" = inject_Z n_rental)
    by apply stored_insert_eq.
  assert (Einv : ∀ key, key ≠ "owned_properties" → key ≠ "rental_properties" →
                 stored model2 key = stored model key).
  { intros key H1 H2. unfold model2. rewrite stored_insert_ne by done.
    unfold model1. apply stored_insert_ne. done. }
  rewrite Eowned, Erental in Hrev, Hinv.
  rewrite !Einv in Hinv by done.
  destruct (sweep_of_argument_returns model2 "occupancy_rate" 0.15 0.70 12
              Hvalid2) as [occupancy_df Hsweep1]; [lia | auto |].
  destruct (sweep_of_argument_returns model2 "price_per_night" 15000 40000 12
              Hvalid2) as [price_df Hsweep2]; [lia | auto |].
  rewrite Ht, Hsweep1, Hsweep2.
  eexists _, t. split; [reflexivity |].
  do 4 (split; [reflexivity |]).
  split; [exact Hrev |].
  split; [| exact Hinv].
  rewrite Hrev.
  assert (H1 : 0 < occupancy_percent / 100 * inject_Z price_per_night)
    by (apply Qmult_lt_0_compat; lra).
  assert (H2 : 0 < occupancy_percent / 100 * inject_Z price_per_night * 365)
    by (apply Qmult_lt_0_compat; [exact H1 | reflexivity]).
  apply Qmult_lt_0_compat; [exact H2 | lra].
Qed.

Lemma update_analysis_uses_the_counts_witness :
  ∃ after t,
    InteractiveModelAnalyzer.update_analysis
      (InteractiveModelAnalyzer.move_sliders
         (InteractiveModelAnalyzer.setup_widgets init) 33 25000 0 5)
    = (after, Ok t)
    ∧ params (InteractiveModelAnalyzer.model after) !! "owned_properties"
      = Some (PyNum 5)
    ∧ Total.total_revenue t == 30112500.
Proof.
  destruct (update_analysis_uses_the_counts init 33 25000 0 5 init_valid)
    as (_ & _ & _ & _ & _ & after & t & Hrun & Hparams & _ & _ & _ & Hrev & _).
  exists after, t. split; [exact Hrun |].
  split.
  - rewrite Hparams, lookup_insert_ne by discriminate. apply lookup_insert_eq.
  - rewrite Hrev. reflexivity.
Defined.

(** ** X14: the cost breakdown and the reported costs *)

(** X14. For a valid model and a non-zero occupancy, the cost breakdown of
    the detail tab, taken at the stored property counts, returns five
    owned and five rental amounts; the owned amounts add up to the
    [total_costs] that the portfolio evaluation of the same model reports
    for the owned class (operating costs plus depreciation), and the rental
    amounts to the [total_costs] of the rental class. *)
Theorem cost_breakdown_adds_up (self : FujimBusinessModel)
    (occupancy_rate : Q) (price_per_night : pyval) :
  valid_model self → ¬ occupancy_rate == 0 →
  ∃ t owned_lines rental_lines,
    calculate_total_metrics self (PyNum occupancy_rate) price_per_night = Ok t
    ∧ cost_breakdown self occupancy_rate (stored self "owned_properties")
        (stored self "rental_properties") = Ok (owned_lines, rental_lines)
    ∧ length owned_lines = 5%nat
    ∧ length rental_lines = 5%nat
    ∧ (∃ total, Owned.total_costs (Total.owned_metrics t) = Number total
                ∧ Qsum owned_lines == total)
    ∧ Qsum rental_lines == Rental.total_costs (Total.rental_metrics t).
Proof.
  intros Hvalid Hocc.
  destruct (total_metrics_valid self (PyNum occupancy_rate) price_per_night Hvalid)
    as [t Ht].
  destruct (total_metrics_fields _ _ _ _ Ht) as (Howned & Hrental & _).
  destruct (owned_metrics_closed_form self (PyNum occupancy_rate) price_per_night
              PyNone Hvalid)
    as (mo & Emo & _ & Hovar & Hoop & _ & Hoinv & d & _ & Hodep & Hotot).
  destruct (rental_metrics_closed_form self (PyNum occupancy_rate) price_per_night
              PyNone Hvalid)
    as (mr & Emr & _ & Hrvar & Hrfix & Hrtot & _).
  rewrite Howned in Emo. injection Emo as <-.
  rewrite Hrental in Emr. injection Emr as <-.
  rewrite (effective_given occupancy_rate) in Hovar, Hrvar by assumption.
  change (effective PyNone ?x) with x in Hovar, Hoop, Hoinv, Hrvar, Hrfix.
  destruct Hvalid as [_ _ _ _ Hi _ Hyears Hfo Hfr Hvo Hvr].
  assert (Hy : params self !! "depreciation_years"
               = Some (PyNum (stored self "depreciation_years"))
               ∧ ¬ stored self "depreciation_years" == 0).
  { destruct Hyears as (y & Hy & Hy0). unfold stored. rewrite Hy. auto. }
  destruct Hy as [Hy Hy0].
  apply stored_number in Hi.
  unfold cost_breakdown.
  destruct (variable_costs_baseline self occupancy_rate "owned"
              (stored self "owned_properties") Hvo) as (vo & -> & Evo).
  destruct (variable_costs_baseline self occupancy_rate "rental"
              (stored self "rental_properties") Hvr) as (vr & -> & Evr).
  rewrite !bind_Ok.
  read_fixed_cost Hfo "operations_fixed".
  read_fixed_cost Hfo "utilities_fixed".
  read_fixed_cost Hfo "insurance".
  rewrite (getitem_Some _ _ _ Hi), (getitem_Some _ _ _ Hy).
  simpl (Ok _ ≫= as_num). rewrite !bind_Ok, (py_div_Ok _ _ Hy0), bind_Ok.
  read_fixed_cost Hfr "rent".
  read_fixed_cost Hfr "operations_fixed".
  read_fixed_cost Hfr "utilities_fixed".
  read_fixed_cost Hfr "insurance".
  exists t. eexists _, _. split; [exact Ht |]. split; [reflexivity |].
  do 2 (split; [reflexivity |]).
  split.
  - eexists. split; [exact Hotot |].
    rewrite Hodep, Hoop, Hovar, Hoinv. unfold Qsum; simpl.
    rewrite Evo. unfold owned_fixed_per_unit. field. exact Hy0.
  - rewrite Hrtot, Hrfix, Hrvar. unfold Qsum; simpl.
    rewrite Evr. unfold rental_fixed_per_unit. ring.
Qed.

Lemma cost_breakdown_adds_up_witness :
  ∃ t owned_lines rental_lines,
    calculate_total_metrics init (PyNum 0.5) PyNone = Ok t
    ∧ cost_breakdown init 0.5 15 15 = Ok (owned_lines, rental_lines)
    ∧ (∃ total, Owned.total_costs (Total.owned_metrics t) = Number total
                ∧ Qsum owned_lines == total)
    ∧ Qsum rental_lines == Rental.total_costs (Total.rental_metrics t).
Proof.
  destruct (cost_breakdown_adds_up init 0.5 PyNone init_valid)
    as (t & ol & rl & Ht & Hlines & _ & _ & Ho & Hr); [discriminate |].
  exists t, ol, rl. repeat split; assumption.
Defined.


(** ** X15, X16: the capped and normalised values of the charts *)

Lemma py_min_le (x cap : Q) : py_min x cap <= cap ∧ py_min x cap <= x.
Proof.
  unfold py_min. destruct (Qlt_le_dec cap x) as [H|H]; split;
    try apply Qle_refl; [apply Qlt_le_weak, H | exact H].
Qed.

Lemma py_min_ge (x cap low : Q) : low <= x → low <= cap → low <= py_min x cap.
Proof. intros Hx Hcap. unfold py_min. destruct (Qlt_le_dec cap x); assumption. Qed.

Lemma py_max_ge (x low : Q) : low <= py_max x low ∧ x <= py_max x low.
Proof.
  unfold py_max. destruct (Qlt_le_dec x low) as [H|H]; split;
    try apply Qle_refl; [apply Qlt_le_weak, H | exact H].
Qed.

Lemma payback_nonnegative (investment income : Q) :
  0 <= investment →
  match payback_of investment income with
  | Finite years => 0 <= years
  | PosInf => income <= 0
  end.
Proof.
  intros Hinv. unfold payback_of.
  destruct (Qlt_le_dec 0 income) as [H|H]; [| exact H].
  apply Qle_shift_div_l; [exact H | lra].
Qed.

Lemma portfolio_investment_nonnegative (self : FujimBusinessModel)
    (occupancy_rate price_per_night : pyval) (t : Total.metrics) :
  valid_model self →
  0 <= stored self "owned_initial_investment" →
  0 <= stored self "rental_initial_investment" →
  0 <= stored self "owned_properties" →
  0 <= stored self "rental_properties" →
  calculate_total_metrics self occupancy_rate price_per_night = Ok t →
  0 <= Total.total_investment t.
Proof.
  intros Hvalid Hio Hir Hno Hnr Ht.
  destruct (total_metrics_closed_form self occupancy_rate price_per_night Hvalid)
    as (t' & Ht' & _ & _ & Hinv).
  rewrite Ht in Ht'. injection Ht' as <-.
  rewrite Hinv.
  assert (0 <= stored self "owned_initial_investment"
               * stored self "owned_properties")
    by (apply Qmult_le_0_compat; assumption).
  assert (0 <= stored self "rental_initial_investment"
               * stored self "rental_properties")
    by (apply Qmult_le_0_compat; assumption).
  lra.
Qed.

(** X15. For a valid model with non-negative investments and property
    counts, every cell of the payback heat map is computed without an
    exception and lies between 0 and 15; it is 15 whenever the portfolio
    makes no profit at that occupancy and price. *)
Theorem heatmap_cell_range (self : FujimBusinessModel) (occ price : Q) :
  valid_model self →
  0 <= stored self "owned_initial_investment" →
  0 <= stored self "rental_initial_investment" →
  0 <= stored self "owned_properties" →
  0 <= stored self "rental_properties" →
  ∃ t cell,
    calculate_total_metrics self (NpNum occ) (NpNum price) = Ok t
    ∧ heatmap_cell self occ price = Ok cell
    ∧ 0 <= cell ∧ cell <= 15
    ∧ (Total.total_profit t <= 0 → cell = 15).
Proof.
  intros Hvalid Hio Hir Hno Hnr.
  destruct (total_metrics_valid self (NpNum occ) (NpNum price) Hvalid) as [t Ht].
  pose proof (portfolio_investment_nonnegative self _ _ t Hvalid Hio Hir Hno Hnr Ht)
    as Hinv.
  destruct (total_metrics_fields _ _ _ _ Ht) as (_ & _ & _ & _ & _ & Hpay & _).
  pose proof (payback_nonnegative _ (Total.total_profit t) Hinv) as Hsign.
  rewrite <- Hpay in Hsign.
  exists t, (capped_payback (Total.overall_payback t)).
  split; [exact Ht |].
  split; [unfold heatmap_cell; rewrite Ht; reflexivity |].
  split; [| split].
  - destruct (Total.overall_payback t) as [years|]; simpl; [| discriminate].
    apply py_min_ge; [exact Hsign | discriminate].
  - destruct (Total.overall_payback t) as [years|]; simpl; [| apply Qle_refl].
    apply py_min_le.
  - intros Hloss. rewrite Hpay, (payback_of_unbounded _ _ Hloss). reflexivity.
Qed.

Lemma heatmap_cell_range_witness :
  ∃ t cell,
    calculate_total_metrics init (NpNum 0.2) (NpNum 20000) = Ok t
    ∧ heatmap_cell init 0.2 20000 = Ok cell
    ∧ 0 <= cell ∧ cell <= 15.
Proof.
  destruct (heatmap_cell_range init 0.2 20000 init_valid)
    as (t & cell & Ht & Hcell & Hlow & Hhigh & _);
    [vm_compute; discriminate | vm_compute; discriminate
    | vm_compute; discriminate | vm_compute; discriminate |].
  exists t, cell. repeat split; assumption.
Defined.

(** X16. The radar values of a scenario.  The ROI and profit values are cut
    off at 100 but not at 0: a negative ROI gives a negative value, below
    the chart's axis, which runs from 0 to 100.  The payback value is cut
    off at 0 and is 0 for the unbounded sentinel and for ten years or more.
    For a valid model with non-negative investments and counts the payback
    value of an evaluated scenario lies between 0 and 100, and it is 0 when
    the scenario makes no profit. *)
Theorem radar_values (self : FujimBusinessModel) (occ price : Q) :
  (∀ roi, roi_norm roi <= 100 ∧ (roi < 0 → roi_norm roi < 0))
  ∧ (∀ profit, profit_norm profit <= 100 ∧ (profit < 0 → profit_norm profit < 0))
  ∧ payback_norm PosInf = 0
  ∧ (∀ years, 0 <= payback_norm (Finite years)
              ∧ (10 <= years → payback_norm (Finite years) == 0))
  ∧ (valid_model self →
     0 <= stored self "owned_initial_investment" →
     0 <= stored self "rental_initial_investment" →
     0 <= stored self "owned_properties" →
     0 <= stored self "rental_properties" →
     ∃ t, calculate_total_metrics self (PyNum occ) (PyNum price) = Ok t
          ∧ 0 <= payback_norm (Total.overall_payback t)
          ∧ payback_norm (Total.overall_payback t) <= 100
          ∧ (Total.total_profit t <= 0 →
             payback_norm (Total.overall_payback t) = 0)).
Proof.
  repeat apply conj.
  - intros roi. split; [apply py_min_le |].
    intros Hneg. unfold roi_norm.
    apply Qle_lt_trans with (roi * 2); [apply py_min_le | lra].
  - intros profit. split; [apply py_min_le |].
    intros Hneg. unfold profit_norm.
    eapply Qle_lt_trans; [apply py_min_le |].
    assert (E : profit / 100000000 * 100 == profit * (1 # 1000000)) by field.
    rewrite E. lra.
  - reflexivity.
  - intros years. split; [apply py_max_ge |].
    intros Hyears. simpl. unfold py_max.
    destruct (Qlt_le_dec (100 - years * 10) 0) as [H|H]; [reflexivity | lra].
  - intros Hvalid Hio Hir Hno Hnr.
    destruct (total_metrics_valid self (PyNum occ) (PyNum price) Hvalid) as [t Ht].
    pose proof (portfolio_investment_nonnegative self _ _ t Hvalid Hio Hir Hno Hnr
                  Ht) as Hinv.
    destruct (total_metrics_fields _ _ _ _ Ht) as (_ & _ & _ & _ & _ & Hpay & _).
    pose proof (payback_nonnegative _ (Total.total_profit t) Hinv) as Hsign.
    rewrite <- Hpay in Hsign.
    exists t. split; [exact Ht |].
    split; [| split].
    + destruct (Total.overall_payback t); [apply py_max_ge | apply Qle_refl].
    + destruct (Total.overall_payback t) as [years|]; simpl; [| discriminate].
      unfold py_max. destruct (Qlt_le_dec (100 - years * 10) 0); [discriminate | lra].
    + intros Hloss. rewrite Hpay, (payback_of_unbounded _ _ Hloss). reflexivity.
Qed.

Lemma radar_values_witness :
  ∃ t, calculate_total_metrics init (PyNum 0.05) (PyNum 20000) = Ok t
       ∧ Total.total_profit t <= 0
       ∧ payback_norm (Total.overall_payback t) = 0
       ∧ roi_norm (Total.overall_roi t) < 0.
Proof.
  destruct (radar_values init 0.05 20000)
    as (Hroi & _ & _ & _ & Hscenario).
  destruct Hscenario as (t & Ht & _ & _ & Hloss);
    [apply init_valid | vm_compute; discriminate | vm_compute; discriminate
    | vm_compute; discriminate | vm_compute; discriminate |].
  assert (Hprofit : Total.total_profit t <= 0 ∧ Total.overall_roi t < 0).
  { assert (E : calculate_total_metrics init (PyNum 0.05) (PyNum 20000) = Ok t)
      by exact Ht.
    vm_compute in E. injection E as <-. split; vm_compute; [discriminate | reflexivity]. }
  exists t. split; [exact Ht |]. split; [apply Hprofit |].
  split; [apply Hloss, Hprofit | apply Hroi, Hprofit].
Defined.


(** ** X17, X18: what one run of [main] shows *)

Lemma is_Ok_true {A : Type} (r : result A) : is_Ok r = true → ∃ a, r = Ok a.
Proof. destruct r; [eauto | discriminate]. Qed.

Lemma has_costs_b_true (costs : gmap string (gmap string Q))
    (property_type : string) (cost_types : list string) :
  has_costs_b costs property_type cost_types = true →
  has_costs costs property_type cost_types.
Proof.
  unfold has_costs_b, has_costs.
  destruct (costs !! property_type) as [d|]; [| discriminate].
  intros H. exists d. split; [reflexivity |].
  apply Forall_forall. intros c Hc.
  rewrite forallb_forall in H.
  apply list_elem_of_In in Hc. apply H in Hc.
  apply bool_decide_eq_true in Hc. exact Hc.
Qed.

(** The scaling statements do not look at the parameter dictionary. *)
Lemma scale_costs_params (a : WhatIf.app) (p : gmap string pyval)
    (f1 f2 f3 f4 f5 : Q) :
  WhatIf.scale_costs (set_app_params a p) f1 f2 f3 f4 f5
  = match WhatIf.scale_costs a f1 f2 f3 f4 f5 with
    | Ok a' => Ok (set_app_params a' p)
    | Raise e => Raise e
    end.
Proof.
  unfold WhatIf.scale_costs, set_app_params, mbind, result_bind; simpl.
  repeat match goal with
  | |- context [match WhatIf.scale ?o ?t ?c ?f ?s with _ => _ end] =>
      destruct (WhatIf.scale o t c f s); [| reflexivity]
  end.
  reflexivity.
Qed.

Lemma scale_costs_frame (a a' : WhatIf.app) (f1 f2 f3 f4 f5 : Q) :
  WhatIf.scale_costs a f1 f2 f3 f4 f5 = Ok a' →
  a' = {| WhatIf.store := WhatIf.store a';
          WhatIf.model_params := WhatIf.model_params a;
          WhatIf.model_fixed_costs := WhatIf.model_fixed_costs a;
          WhatIf.model_variable_costs := WhatIf.model_variable_costs a |}.
Proof.
  unfold WhatIf.scale_costs. intros H. run_in H. subst a'. reflexivity.
Qed.

Lemma risk_state_Ok :
  WhatIf.scale_costs WhatIf.load_model 1.4 1.5 1.25 1.3 1.15 = Ok risk_state.
Proof.
  unfold risk_state.
  destruct (is_Ok_true (WhatIf.scale_costs WhatIf.load_model 1.4 1.5 1.25 1.3 1.15))
    as [a ->]; [vm_compute; reflexivity | reflexivity].
Qed.

Lemma savings_state_Ok :
  WhatIf.scale_costs risk_state 0.85 0.8 0.92 0.9 0.97 = Ok savings_state.
Proof.
  unfold savings_state.
  destruct (is_Ok_true (WhatIf.scale_costs risk_state 0.85 0.8 0.92 0.9 0.97))
    as [a ->]; [vm_compute; reflexivity | reflexivity].
Qed.

(** What the what-if block computes, for any parameter dictionary: the two
    scenarios are evaluated on the two scaled states, and the state it
    leaves has the store of the second. *)
Lemma cost_scenarios_states (p : gmap string pyval)
    (occupancy_rate price_per_night : pyval)
    (after : WhatIf.app) (risk savings : Total.metrics) :
  WhatIf.cost_scenarios (set_app_params WhatIf.load_model p)
    occupancy_rate price_per_night = Ok (after, risk, savings) →
  after = set_app_params savings_state p
  ∧ calculate_total_metrics (WhatIf.model (set_app_params risk_state p))
      occupancy_rate price_per_night = Ok risk
  ∧ calculate_total_metrics (WhatIf.model (set_app_params savings_state p))
      occupancy_rate price_per_night = Ok savings.
Proof.
  unfold WhatIf.cost_scenarios. intros H.
  rewrite scale_costs_params, risk_state_Ok, bind_Ok in H.
  apply bind_Ok_inv in H as (risk' & Hrisk & H).
  pose proof (scale_costs_frame _ _ _ _ _ _ _ risk_state_Ok) as Hframe.
  change {| WhatIf.store := WhatIf.store (set_app_params risk_state p);
            WhatIf.model_params := WhatIf.model_params (set_app_params risk_state p);
            WhatIf.model_fixed_costs :=
              WhatIf.model_fixed_costs (set_app_params WhatIf.load_model p);
            WhatIf.model_variable_costs :=
              WhatIf.model_variable_costs (set_app_params WhatIf.load_model p) |}
    with (set_app_params
            {| WhatIf.store := WhatIf.store risk_state;
               WhatIf.model_params := WhatIf.model_params WhatIf.load_model;
               WhatIf.model_fixed_costs := WhatIf.model_fixed_costs WhatIf.load_model;
               WhatIf.model_variable_costs :=
                 WhatIf.model_variable_costs WhatIf.load_model |} p) in H.
  rewrite <- Hframe in H.
  rewrite scale_costs_params, savings_state_Ok, bind_Ok in H.
  apply bind_Ok_inv in H as (savings' & Hsavings & H).
  injection H as <- <- <-.
  split; [| split; assumption].
  pose proof (scale_costs_frame _ _ _ _ _ _ _ savings_state_Ok) as Hframe2.
  assert (Ef : WhatIf.model_fixed_costs savings_state
               = WhatIf.model_fixed_costs WhatIf.load_model).
  { rewrite Hframe2. cbn [WhatIf.model_fixed_costs].
    rewrite Hframe. reflexivity. }
  assert (Ev : WhatIf.model_variable_costs savings_state
               = WhatIf.model_variable_costs WhatIf.load_model).
  { rewrite Hframe2. cbn [WhatIf.model_variable_costs].
    rewrite Hframe. reflexivity. }
  unfold set_app_params. rewrite Ef, Ev. reflexivity.
Qed.

Lemma app_model_costs (s : WhatIf.app) (p : gmap string pyval) :
  fixed_costs (WhatIf.model (set_app_params s p)) = fixed_costs (WhatIf.model s)
  ∧ variable_costs (WhatIf.model (set_app_params s p))
    = variable_costs (WhatIf.model s)
  ∧ params (WhatIf.model (set_app_params s p)) = p.
Proof. repeat split; reflexivity. Qed.

Lemma app_model_per_unit (s : WhatIf.app) (p : gmap string pyval) :
  owned_fixed_per_unit (WhatIf.model (set_app_params s p))
  = owned_fixed_per_unit (WhatIf.model s)
  ∧ rental_fixed_per_unit (WhatIf.model (set_app_params s p))
    = rental_fixed_per_unit (WhatIf.model s)
  ∧ (∀ t, baseline_per_unit (WhatIf.model (set_app_params s p)) t
          = baseline_per_unit (WhatIf.model s) t).
Proof. repeat split; reflexivity. Qed.

(** The parameter dictionary of [main] after lines 96-97. *)
Lemma main_params_stored (s : WhatIf.app) (owned rental : Q) :
  let m := WhatIf.model
             (set_app_params s
                (<["rental_properties" := PyNum rental]>
                   (<["owned_properties" := PyNum owned]> (params init)))) in
  stored m "owned_properties" = owned
  ∧ stored m "rental_properties" = rental
  ∧ stored m "base_occupancy_rate" = 0.33
  ∧ stored m "average_price_per_night" = 25000
  ∧ stored m "owned_initial_investment" = 18900000
  ∧ stored m "rental_initial_investment" = 5500000.
Proof.
  intros m. unfold m, stored; simpl.
  rewrite lookup_insert_ne by done. rewrite !lookup_insert_eq.
  rewrite !lookup_insert_ne by done.
  repeat split; reflexivity.
Qed.

Lemma main_model_valid (s : WhatIf.app) (owned rental : Q) :
  has_costs_b (fixed_costs (WhatIf.model s)) "owned"
    ["operations_fixed"; "utilities_fixed"; "insurance"] = true →
  has_costs_b (fixed_costs (WhatIf.model s)) "rental"
    ["rent"; "operations_fixed"; "utilities_fixed"; "insurance"] = true →
  has_costs_b (variable_costs (WhatIf.model s)) "owned" [] = true →
  has_costs_b (variable_costs (WhatIf.model s)) "rental" [] = true →
  valid_model
    (WhatIf.model
       (set_app_params s
          (<["rental_properties" := PyNum rental]>
             (<["owned_properties" := PyNum owned]> (params init))))).
Proof.
  intros Hfo Hfr Hvo Hvr.
  destruct init_valid as [Ho Hp Hn Hr Hi Hj (y & Hy & Hy0) _ _ _ _].
  apply has_costs_b_true in Hfo, Hfr, Hvo, Hvr.
  split; simpl params; try (do 2 apply has_number_insert; assumption);
    try assumption.
  - exists y. split; [| exact Hy0]. rewrite !lookup_insert_ne by done. exact Hy.
  - destruct Hvo as (d & Hd & _). exists d. exact Hd.
  - destruct Hvr as (d & Hd & _). exists d. exact Hd.
Qed.

Lemma load_model_valid (owned rental : Q) :
  valid_model
    (WhatIf.model
       (set_app_params WhatIf.load_model
          (<["rental_properties" := PyNum rental]>
             (<["owned_properties" := PyNum owned]> (params init))))).
Proof. apply main_model_valid; vm_compute; reflexivity. Qed.

Lemma savings_state_valid (owned rental : Q) :
  valid_model
    (WhatIf.model
       (set_app_params savings_state
          (<["rental_properties" := PyNum rental]>
             (<["owned_properties" := PyNum owned]> (params init))))).
Proof. apply main_model_valid; vm_compute; reflexivity. Qed.

(** The steps of [main] that the properties below are about. *)
Lemma main_steps
    (occupancy_percent price_per_night owned_properties rental_properties : Q)
    (d : Main.display) :
  Main.main occupancy_percent price_per_night owned_properties rental_properties
  = Ok d →
  let p := <["rental_properties" := PyNum rental_properties]>
             (<["owned_properties" := PyNum owned_properties]> (params init)) in
  let loaded := WhatIf.model (set_app_params WhatIf.load_model p) in
  let scaled := WhatIf.model (set_app_params savings_state p) in
  calculate_total_metrics loaded (PyNum (occupancy_percent / 100))
    (PyNum price_per_night) = Ok (Main.metrics d)
  ∧ calculate_total_metrics scaled (PyNum (occupancy_percent / 100))
      (PyNum price_per_night) = Ok (Main.cost_savings_metrics d)
  ∧ total_fixed_costs scaled owned_properties rental_properties
    = Ok (Main.total_fixed_costs_shown d)
  ∧ breakeven_occupancy (Main.total_fixed_costs_shown d) price_per_night
      (owned_properties + rental_properties)
    = Ok (Main.breakeven_occupancy_shown d)
  ∧ cost_breakdown scaled (occupancy_percent / 100) owned_properties
      rental_properties = Ok (Main.cost_breakdown_shown d).
Proof.
  intros H p loaded scaled. unfold Main.main in H.
  change (WhatIf.model_params WhatIf.load_model) with (params init) in H.
  fold p in H.
  apply bind_Ok_inv in H as (m & Hm & H).
  do 12 (apply bind_Ok_inv in H as (? & _ & H)).
  apply bind_Ok_inv in H as ([[after risk] savings] & Hwhatif & H).
  apply cost_scenarios_states in Hwhatif as (-> & _ & Hsavings).
  apply bind_Ok_inv in H as (total & Htotal & H).
  apply bind_Ok_inv in H as (breakeven & Hbreakeven & H).
  apply bind_Ok_inv in H as (breakdown & Hbreakdown & H).
  injection H as <-. simpl.
  repeat split; assumption.
Qed.

Lemma scaled_constants :
  owned_fixed_per_unit (WhatIf.model WhatIf.load_model) == 540000
  ∧ rental_fixed_per_unit (WhatIf.model WhatIf.load_model) == 1840000
  ∧ baseline_per_unit (WhatIf.model WhatIf.load_model) "owned" == 141240
  ∧ baseline_per_unit (WhatIf.model WhatIf.load_model) "rental" == 263670
  ∧ owned_fixed_per_unit (WhatIf.model savings_state) == 615200
  ∧ rental_fixed_per_unit (WhatIf.model savings_state) == 2083420
  ∧ baseline_per_unit (WhatIf.model savings_state) "owned" == 159192
  ∧ baseline_per_unit (WhatIf.model savings_state) "rental" == 1503117 # 5.
Proof. repeat split; vm_compute; reflexivity. Qed.

(** X17. In every run of [main] that completes, whatever the four slider
    values, the displayed metrics were computed with the fixed costs of the
    original schedules (540,000 per owned and 1,840,000 per rental unit),
    but the break-even tab, which runs after the what-if block, adds up the
    schedules that block left scaled: its fixed-cost total is 615,200 per
    owned unit plus 2,083,420 per rental unit, and its break-even rate is
    that total divided by price x property count x 365. *)
Theorem main_breakeven_uses_scaled_costs
    (occupancy_percent price_per_night owned_properties rental_properties : Q)
    (d : Main.display) :
  Main.main occupancy_percent price_per_night owned_properties rental_properties
  = Ok d →
  Owned.operating_costs (Total.owned_metrics (Main.metrics d))
  - Owned.variable_costs (Total.owned_metrics (Main.metrics d))
  == 540000 * owned_properties
  ∧ Rental.fixed_costs (Total.rental_metrics (Main.metrics d))
    == 1840000 * rental_properties
  ∧ Main.total_fixed_costs_shown d
    == 615200 * owned_properties + 2083420 * rental_properties
  ∧ Main.breakeven_occupancy_shown d / 100
    == (615200 * owned_properties + 2083420 * rental_properties)
       / (price_per_night * (owned_properties + rental_properties) * 365).
Proof.
  intros H.
  destruct (main_steps _ _ _ _ _ H)
    as (Hmetrics & _ & Htotal & Hbreakeven & _).
  destruct scaled_constants as (Fo & Fr & _ & _ & Fo' & Fr' & _ & _).
  set (p := <["rental_properties" := PyNum rental_properties]>
              (<["owned_properties" := PyNum owned_properties]> (params init)))
    in *.
  pose proof (load_model_valid owned_properties rental_properties) as Hvalid.
  pose proof (savings_state_valid owned_properties rental_properties) as Hvalid'.
  fold p in Hvalid, Hvalid'.
  destruct (main_params_stored WhatIf.load_model owned_properties rental_properties)
    as (So & Sr & _).
  fold p in So, Sr.
  (* the displayed metrics *)
  destruct (total_metrics_fields _ _ _ _ Hmetrics) as (Howned & Hrental & _).
  destruct (owned_metrics_closed_form _ (PyNum (occupancy_percent / 100))
              (PyNum price_per_night) PyNone Hvalid)
    as (mo & Emo & _ & _ & Hop & _).
  destruct (rental_metrics_closed_form _ (PyNum (occupancy_percent / 100))
              (PyNum price_per_night) PyNone Hvalid)
    as (mr & Emr & _ & _ & Hfix & _).
  rewrite Howned in Emo. injection Emo as <-.
  rewrite Hrental in Emr. injection Emr as <-.
  change (effective PyNone ?x) with x in Hop, Hfix.
  rewrite So in Hop. rewrite Sr in Hfix.
  destruct (app_model_per_unit WhatIf.load_model p) as (Eo & Er & _).
  rewrite Eo, Fo in Hop. rewrite Er, Fr in Hfix.
  (* the break-even tab *)
  rewrite (total_fixed_costs_entries _ _ _ Hvalid') in Htotal.
  injection Htotal as Htotal.
  destruct (app_model_per_unit savings_state p) as (Eo' & Er' & _).
  rewrite Eo', Er' in Htotal.
  assert (Etotal : Main.total_fixed_costs_shown d
                   == 615200 * owned_properties + 2083420 * rental_properties)
    by (rewrite <- Htotal, Fo', Fr'; reflexivity).
  apply breakeven_occupancy_inv in Hbreakeven as [Hnz Hpercent].
  split; [rewrite Hop; ring |].
  split; [exact Hfix |].
  split; [exact Etotal |].
  rewrite Hpercent, Etotal. field.
  split; intros Hz; apply Hnz; rewrite Hz; ring.
Qed.

Lemma main_breakeven_uses_scaled_costs_witness :
  ∃ d, Main.main 33 25000 15 15 = Ok d
       ∧ Rental.fixed_costs (Total.rental_metrics (Main.metrics d)) == 1840000 * 15
       ∧ Main.total_fixed_costs_shown d == 615200 * 15 + 2083420 * 15
       ∧ Main.breakeven_occupancy_shown d / 100
         == (615200 * 15 + 2083420 * 15) / (25000 * (15 + 15) * 365).
Proof.
  destruct (is_Ok_true (Main.main 33 25000 15 15)) as [d Hd];
    [vm_compute; reflexivity |].
  destruct (main_breakeven_uses_scaled_costs 33 25000 15 15 d Hd)
    as (_ & Hfix & Htotal & Hrate).
  exists d. repeat split; assumption.
Defined.

Lemma effective_nonnegative (q stored : Q) :
  0 <= q → 0 <= stored → 0 <= effective (PyNum q) stored.
Proof. intros Hq Hs. unfold effective. destruct (Qeq_bool q 0); assumption. Qed.

(** X18. In every run of [main] that completes with a non-negative
    occupancy and non-negative property counts, the scenario computed as
    the cost-saving one (cost_savings_metrics) has a total profit that is
    not above the profit of the displayed metrics, and strictly below it
    when there is at least one property: its factors are applied on top of
    those of the cost-increase scenario, which the shallow copies did not
    undo. *)
Theorem main_cost_savings_scenario_earns_less
    (occupancy_percent price_per_night owned_properties rental_properties : Q)
    (d : Main.display) :
  Main.main occupancy_percent price_per_night owned_properties rental_properties
  = Ok d →
  0 <= occupancy_percent → 0 <= owned_properties → 0 <= rental_properties →
  Total.total_profit (Main.cost_savings_metrics d)
  <= Total.total_profit (Main.metrics d)
  ∧ (0 < owned_properties + rental_properties →
     Total.total_profit (Main.cost_savings_metrics d)
     < Total.total_profit (Main.metrics d)).
Proof.
  intros H Hocc Ho Hr.
  destruct (main_steps _ _ _ _ _ H) as (Hmetrics & Hsavings & _).
  destruct scaled_constants as (Fo & Fr & Bo & Br & Fo' & Fr' & Bo' & Br').
  set (p := <["rental_properties" := PyNum rental_properties]>
              (<["owned_properties" := PyNum owned_properties]> (params init)))
    in *.
  pose proof (load_model_valid owned_properties rental_properties) as Hvalid.
  pose proof (savings_state_valid owned_properties rental_properties) as Hvalid'.
  fold p in Hvalid, Hvalid'.
  destruct (main_params_stored WhatIf.load_model owned_properties rental_properties)
    as (So & Sr & Sb & Sp & _).
  destruct (main_params_stored savings_state owned_properties rental_properties)
    as (So' & Sr' & Sb' & Sp' & _).
  fold p in So, Sr, Sb, Sp, So', Sr', Sb', Sp'.
  destruct (total_metrics_closed_form _ (PyNum (occupancy_percent / 100))
              (PyNum price_per_night) Hvalid) as (t & Et & _ & Hprofit & _).
  destruct (total_metrics_closed_form _ (PyNum (occupancy_percent / 100))
              (PyNum price_per_night) Hvalid') as (t' & Et' & _ & Hprofit' & _).
  rewrite Hmetrics in Et. injection Et as <-.
  rewrite Hsavings in Et'. injection Et' as <-.
  destruct (app_model_per_unit WhatIf.load_model p) as (Eo & Er & Eb).
  destruct (app_model_per_unit savings_state p) as (Eo' & Er' & Eb').
  rewrite So, Sr, Sb, Sp, Eo, Er, !Eb, Fo, Fr, Bo, Br in Hprofit.
  rewrite So', Sr', Sb', Sp', Eo', Er', !Eb', Fo', Fr', Bo', Br' in Hprofit'.
  set (r := effective (PyNum (occupancy_percent / 100)) 0.33) in *.
  assert (Hrate : 0 <= r).
  { apply effective_nonnegative; [| discriminate].
    apply Qle_shift_div_l; [reflexivity | lra]. }
  assert (Escale : r / 0.33 == r * (100 # 33)) by field.
  rewrite Escale in Hprofit, Hprofit'.
  assert (Hro : 0 <= owned_properties * r) by (apply Qmult_le_0_compat; assumption).
  assert (Hrr : 0 <= rental_properties * r) by (apply Qmult_le_0_compat; assumption).
  rewrite Hprofit, Hprofit'.
  split; [lra |]. intros Hsome. lra.
Qed.

Lemma main_cost_savings_scenario_earns_less_witness :
  ∃ d, Main.main 33 25000 15 15 = Ok d
       ∧ Total.total_profit (Main.cost_savings_metrics d)
         < Total.total_profit (Main.metrics d).
Proof.
  destruct (is_Ok_true (Main.main 33 25000 15 15)) as [d Hd];
    [vm_compute; reflexivity |].
  assert (H0 : 0 <= 33) by discriminate.
  assert (H1 : 0 <= 15) by discriminate.
  destruct (main_cost_savings_scenario_earns_less 33 25000 15 15 d Hd H0 H1 H1)
    as [_ Hless].
  exists d. split; [exact Hd | apply Hless; reflexivity].
Defined.
